(** * FloatChat: keyword-to-SQL translation, sample data, anomaly alerts

    A shallow embedding of the decision logic of the FloatChat repository:

    - [app.py]: the single-file chat demo ([NaturalLanguageParser],
      [ARGODataManager], [generate_ai_summary] and the chat turn of [main]);
    - [backend/app/simple_main.py]: the prototype service
      ([process_natural_language_query], [login]);
    - [backend/app/services/alert_service.py]: the statistical anomaly
      detector;
    - [backend/app/services/data_service.py]: query execution with its
      fallbacks;
    - [data/generate_sample_data.py]: the measurements of the sample-data
      script.

    Conventions.  Python [str] values are modelled as [string]s of ASCII
    text: [lower] and [upper] act on the ASCII letters and the character
    classes of regular expressions are their ASCII parts; a code above 127
    is carried along unchanged, and statements that depend on the
    character classes are made for ASCII texts.  Python floats are
    idealised: rationals ([Q]) in the data generators, which only draw,
    compare and round them, and real numbers ([R]) in [Alerts], for the
    properties of the alert service that do not depend on rounding;
    [Detection] gives the detectors over any arithmetic, binary64 among
    them, for what does.  External libraries (the SQL engine, numpy's
    random generator, the clock) appear as records of operations that
    the model takes as arguments. *)

From Stdlib Require Import List String Ascii Bool Arith ZArith Lia.
From Stdlib Require Import QArith Qround.
From Stdlib Require Import Reals Lra.
From Stdlib Require Lqa.
From Stdlib Require Import Sorted Permutation.
From Stdlib Require Import DecimalString.
From Stdlib Require Floats Uint63.
Import ListNotations.

(* ===================================================================== *)
(** * Part I: the model                                                   *)
(* ===================================================================== *)

(** ** Python strings *)

Module PyStr.

Local Open Scope string_scope.
Local Open Scope nat_scope.

Definition is_upper (c : ascii) : bool :=
  let n := nat_of_ascii c in (65 <=? n) && (n <=? 90).

Definition is_lower (c : ascii) : bool :=
  let n := nat_of_ascii c in (97 <=? n) && (n <=? 122).

Definition lower_char (c : ascii) : ascii :=
  if is_upper c then ascii_of_nat (nat_of_ascii c + 32) else c.

Definition upper_char (c : ascii) : ascii :=
  if is_lower c then ascii_of_nat (nat_of_ascii c - 32) else c.

Fixpoint map_chars (f : ascii -> ascii) (s : string) : string :=
  match s with
  | EmptyString => EmptyString
  | String c s' => String (f c) (map_chars f s')
  end.

(** [s.lower()] and [s.upper()]. *)
Definition lower (s : string) : string := map_chars lower_char s.
Definition upper (s : string) : string := map_chars upper_char s.

(** [needle in hay] for two strings: [needle] starts at some position. *)
Fixpoint contains (needle hay : string) : bool :=
  match hay with
  | EmptyString => prefix needle EmptyString
  | String _ hay' => prefix needle hay || contains needle hay'
  end.

(** [sep.join(parts)]. *)
Definition join (sep : string) (parts : list string) : string :=
  String.concat sep parts.

(** [s.rstrip(';')]: drop every trailing semicolon. *)
Fixpoint rstrip_semicolon (s : string) : string :=
  match s with
  | EmptyString => EmptyString
  | String c s' =>
      match rstrip_semicolon s' with
      | EmptyString => if Ascii.eqb c ";" then EmptyString
                       else String c EmptyString
      | r => String c r
      end
  end.

(** What the regular-expression classes [\s] and [\d] of a [str] pattern
    accept among the ASCII characters: tab, line feed, vertical tab, form
    feed, carriage return, the four separators 28-31 and the space; the
    ten decimal digits. *)
Definition is_space (c : ascii) : bool :=
  let n := nat_of_ascii c in
  ((9 <=? n) && (n <=? 13)) || ((28 <=? n) && (n <=? 32)).

Definition is_digit (c : ascii) : bool :=
  let n := nat_of_ascii c in (48 <=? n) && (n <=? 57).

(** The longest prefix of [s] whose characters satisfy [p], and the rest. *)
Fixpoint span (p : ascii -> bool) (s : string) : string * string :=
  match s with
  | EmptyString => (EmptyString, EmptyString)
  | String c s' =>
      if p c then let (a, b) := span p s' in (String c a, b)
      else (EmptyString, s)
  end.

(** [s] without the prefix [p], when it starts with it. *)
Fixpoint strip_prefix (p s : string) : option string :=
  match p, s with
  | EmptyString, _ => Some s
  | String a p', String b s' =>
      if Ascii.eqb a b then strip_prefix p' s' else None
  | String _ _, EmptyString => None
  end.

(** [str(n)] for a natural number and for an integer. *)
Definition str_of_nat (n : nat) : string :=
  NilEmpty.string_of_uint (Nat.to_uint n).

Definition str_of_Z (z : Z) : string :=
  NilZero.string_of_int (Z.to_int z).

End PyStr.

(** ** Drawing random numbers *)

(** The global generator of [numpy.random] (and of Python's [random]): a
    state, seeding, and the draws the repository uses.  Draws are state
    transformers, sequenced with a small state monad. *)

Module Rand.

Record generator := {
  state : Type;
  seed : Z -> state;
(** [uniform(low, high)] *)
uniform : Q -> Q -> state -> Q * state;
(** [randint(low, high)], [high] excluded *)
randint : Z -> Z -> state -> Z * state;
(** [choice(values)] *)
choice : list Z -> state -> Z * state
}.

(** The documented ranges of the draws. *)
Record in_range (G : generator) : Prop := {
  uniform_range : forall lo hi g,
    (lo <= hi)%Q ->
    (lo <= fst (uniform G lo hi g))%Q /\ (fst (uniform G lo hi g) <= hi)%Q;
  randint_range : forall lo hi g,
    (lo < hi)%Z ->
    (lo <= fst (randint G lo hi g))%Z /\ (fst (randint G lo hi g) < hi)%Z;
  choice_range : forall values g,
    values <> [] -> In (fst (choice G values g)) values
}.

Definition rand (G : generator) (A : Type) : Type :=
  state G -> A * state G.

Definition ret {G : generator} {A : Type} (a : A) : rand G A :=
  fun g => (a, g).

Definition bind {G : generator} {A B : Type}
  (m : rand G A) (k : A -> rand G B) : rand G B :=
  fun g => let (a, g') := m g in k a g'.

(** [size=n]: an array of [n] successive draws. *)
Fixpoint draws {G : generator} {A : Type} (n : nat) (m : rand G A)
  : rand G (list A) :=
  match n with
  | O => ret []
  | S n' => bind m (fun a => bind (draws n' m) (fun l => ret (a :: l)))
  end.

(** A [for] loop that appends one drawn value per element. *)
Fixpoint for_each {G : generator} {A B : Type} (l : list A)
  (body : A -> rand G B) : rand G (list B) :=
  match l with
  | [] => ret []
  | a :: l' =>
      bind (body a) (fun b => bind (for_each l' body) (fun bs => ret (b :: bs)))
  end.

(** Python's [round(x)]: to the nearest integer, ties to the even one. *)
Definition round_half_even (x : Q) : Z :=
  let f := Qfloor x in
  let r := (x - inject_Z f)%Q in
  match Qcompare r (1 # 2) with
  | Lt => f
  | Gt => (f + 1)%Z
  | Eq => if Z.even f then f else (f + 1)%Z
  end.

(** [round(x, ndigits)] and numpy's [.round(ndigits)]. *)
Definition round_to (ndigits : nat) (x : Q) : Q :=
  let scale := inject_Z (10 ^ Z.of_nat ndigits) in
  (inject_Z (round_half_even (x * scale)) / scale)%Q.

End Rand.

Declare Scope rand_scope.
Notation "x <- m ;; k" := (Rand.bind m (fun x => k))
  (at level 61, m at next level, right associativity) : rand_scope.

(** ** The chat demo, app.py *)

Module Demo.

Import PyStr.
Local Open Scope string_scope.

(** *** NaturalLanguageParser *)

(** One entry of [self.patterns]; the dictionary keeps its insertion
    order, so the table is a list. *)
Record pattern_info := {
  keywords : list string;
  sql_template : string
}.

Record NaturalLanguageParser := {
  patterns : list (string * pattern_info)
}.

(** [NaturalLanguageParser.__init__]. *)
Definition init_parser : NaturalLanguageParser :=
  {| patterns :=
      [ ("salinity_near_equator",
         {| keywords := ["salinity"; "equator"; "near equator"];
            sql_template :=
              "SELECT * FROM argo_data WHERE lat BETWEEN -5 AND 5 AND time LIKE '%2023-03%'" |});
        ("temperature_by_depth",
         {| keywords := ["temperature"; "depth"];
            sql_template :=
              "SELECT depth, AVG(temperature) as avg_temperature FROM argo_data GROUP BY depth ORDER BY depth" |});
        ("all_march_data",
         {| keywords := ["march"; "2023"; "march 2023"];
            sql_template :=
              "SELECT * FROM argo_data WHERE time LIKE '%2023-03%'" |});
        ("surface_data",
         {| keywords := ["surface"; "surface water"];
            sql_template := "SELECT * FROM argo_data WHERE depth <= 50" |});
        ("deep_water",
         {| keywords := ["deep"; "deep water"];
            sql_template := "SELECT * FROM argo_data WHERE depth >= 500" |});
        ("float_specific",
         {| keywords := ["float"];
            sql_template :=
              "SELECT * FROM argo_data WHERE float_id = {float_id}" |});
        ("all_data",
         {| keywords := ["all"; "everything"; "show all"];
            sql_template := "SELECT * FROM argo_data" |}) ] |}.

(** [re.search(r'float\s+(\d+)', s)], returning [group(1)].

    At one position the pattern matches when [float] is followed by a
    non-empty run of white space and that whole run by a digit: giving
    back white space to [\s+] cannot help, since the character after a
    shorter run is white space and not a digit.  The group is the longest
    run of digits there.  [re.search] takes the leftmost position. *)
Definition match_float_at (s : string) : option string :=
  match strip_prefix "float" s with
  | None => None
  | Some r =>
      let (ws, r1) := span is_space r in
      match ws with
      | EmptyString => None
      | String _ _ =>
          match fst (span is_digit r1) with
          | EmptyString => None
          | ds => Some ds
          end
      end
  end.

Fixpoint search_float (s : string) : option string :=
  match match_float_at s with
  | Some ds => Some ds
  | None =>
      match s with
      | EmptyString => None
      | String _ s' => search_float s'
      end
  end.

(** The inner loop of [parse_query]: does some keyword of the entry occur
    in the lowercased query? *)
Fixpoint keyword_hit (kws : list string) (q : string) : bool :=
  match kws with
  | [] => false
  | k :: kws' => if contains k q then true else keyword_hit kws' q
  end.

(** The outer loop: the template of the first entry with a hit. *)
Fixpoint scan_patterns (ps : list (string * pattern_info)) (q : string)
  : option string :=
  match ps with
  | [] => None
  | (_, info) :: ps' =>
      if keyword_hit (keywords info) q then Some (sql_template info)
      else scan_patterns ps' q
  end.

Definition float_query (float_id : string) : string :=
  "SELECT * FROM argo_data WHERE float_id = " ++ float_id.

Definition default_query : string := "SELECT * FROM argo_data LIMIT 10".

(** [NaturalLanguageParser.parse_query]. *)
Definition parse_query (self : NaturalLanguageParser) (user_query : string)
  : string :=
  let user_query_lower := lower user_query in
  match search_float user_query_lower with
  | Some float_id => float_query float_id
  | None =>
      match scan_patterns (patterns self) user_query_lower with
      | Some sql => sql
      | None => default_query
      end
  end.

(** The table of [generate_explanation], in insertion order. *)
Definition explanations : list (string * string) :=
  [ ("salinity", "Analyzing salinity measurements");
    ("temperature", "Examining temperature data");
    ("equator", "Filtering data near the equatorial region");
    ("depth", "Grouping data by depth levels");
    ("march", "Focusing on March 2023 measurements");
    ("surface", "Looking at surface water data");
    ("deep", "Examining deep water measurements") ].

Fixpoint explanation_parts (table : list (string * string)) (q : string)
  : list string :=
  match table with
  | [] => []
  | (key, explanation) :: table' =>
      if contains key q then explanation :: explanation_parts table' q
      else explanation_parts table' q
  end.

(** [NaturalLanguageParser.generate_explanation]; the SQL argument is not
    used by the source either. *)
Definition generate_explanation (user_query sql_query : string) : string :=
  match explanation_parts explanations (lower user_query) with
  | [] => "Query interpretation: Retrieving ARGO ocean data"
  | parts => "Query interpretation: " ++ join ", " parts
  end.

(** *** ARGODataManager *)

(** The dictionary of columns that [create_sample_data] hands to
    [pd.DataFrame].  Times are days after 1 March 2023. *)
Record SampleColumns := {
  col_float_id : list Z;
  col_lat : list Q;
  col_lon : list Q;
  col_time : list Z;
  col_depth : list Z;
  col_temperature : list Q;
  col_salinity : list Q
}.

Definition column_names : list string :=
  ["float_id"; "lat"; "lon"; "time"; "depth"; "temperature"; "salinity"].

Definition n_records : nat := 30.

Section Sampling.

Variable G : Rand.generator.
Local Open Scope rand_scope.

(** The body of the temperature loop for one depth. *)
Definition draw_temperature (depth : Z) : Rand.rand G Q :=
  if (depth <=? 50)%Z then
    temp <- Rand.uniform G 25 30 ;; Rand.ret (Rand.round_to 2 temp)
  else if (depth <=? 200)%Z then
    temp <- Rand.uniform G 20 25 ;; Rand.ret (Rand.round_to 2 temp)
  else
    temp <- Rand.uniform G 2 8 ;; Rand.ret (Rand.round_to 2 temp).

(** [ARGODataManager.create_sample_data], run from [np.random.seed(42)]. *)
Definition create_sample_data : SampleColumns :=
  fst ((float_ids <- Rand.draws n_records (Rand.choice G [1001; 1002; 1003]%Z) ;;
        dates <- Rand.draws n_records (Rand.randint G 0 31) ;;
        latitudes <- Rand.draws n_records (Rand.uniform G (-10) 10) ;;
        longitudes <- Rand.draws n_records (Rand.uniform G 120 180) ;;
        depths <- Rand.draws n_records
                    (Rand.choice G [0; 10; 50; 100; 200; 500; 1000; 2000]%Z) ;;
        temperatures <- Rand.for_each depths draw_temperature ;;
        salinities <- Rand.draws n_records (Rand.uniform G 34 37) ;;
        Rand.ret {| col_float_id := float_ids;
                    col_lat := map (Rand.round_to 4) latitudes;
                    col_lon := map (Rand.round_to 4) longitudes;
                    col_time := dates;
                    col_depth := depths;
                    col_temperature := temperatures;
                    col_salinity := map (Rand.round_to 2) salinities |})
       (Rand.seed G 42)).

End Sampling.

(** One row of the frame built from the columns. *)
Record SampleRecord := {
  float_id : Z;
  lat : Q;
  lon : Q;
  time : Z;
  depth : Z;
  temperature : Q;
  salinity : Q
}.

(** The row at index [i], present when every column reaches that far. *)
Definition record_at (d : SampleColumns) (i : nat) : option SampleRecord :=
  match nth_error (col_float_id d) i, nth_error (col_lat d) i,
        nth_error (col_lon d) i, nth_error (col_time d) i,
        nth_error (col_depth d) i, nth_error (col_temperature d) i,
        nth_error (col_salinity d) i with
  | Some f, Some la, Some lo, Some t, Some de, Some te, Some sa =>
      Some {| float_id := f; lat := la; lon := lo; time := t;
              depth := de; temperature := te; salinity := sa |}
  | _, _, _, _, _, _, _ => None
  end.

(** A query result: column names and rows of values. *)
Record DataFrame := {
  columns : list string;
  records : list (list Q)
}.

(** [df.empty]: some axis has length zero. *)
Definition empty (df : DataFrame) : bool :=
  match columns df, records df with
  | [], _ => true
  | _, [] => true
  | _, _ => false
  end.

(** The sqlite3 connection under [pd.read_sql_query]: running a statement
    on a database gives the database afterwards and either the frame or
    the text of the exception. *)
Record SqlEngine := {
  database : Type;
  read_sql_query : string -> database -> database * (DataFrame + string)
}.

(** [ARGODataManager.execute_query]: the pair [(df, error)]. *)
Definition execute_query (E : SqlEngine) (sql_query : string)
  (conn : database E) : database E * (option DataFrame * option string) :=
  match read_sql_query E sql_query conn with
  | (conn', inl df) => (conn', (Some df, None))
  | (conn', inr e) => (conn', (None, Some e))
  end.

(** *** The chat turn *)

Definition no_data_summary : string := "No data found for your query.".
Definition no_data_response : string := "No data found matching your criteria.".

(** [generate_ai_summary].  The statistics of a frame with rows (counts,
    means and ranges rendered by f-strings) are the argument [describe]. *)
Definition generate_ai_summary (describe : DataFrame -> string)
  (df : option DataFrame) (user_query : string) : string :=
  match df with
  | None => no_data_summary
  | Some d => if empty d then no_data_summary else describe d
  end.

Record message := {
  role : string;
  content : string;
  data : option DataFrame
}.

(** What a turn shows under "Query Analysis". *)
Record analysis := {
  shown_sql : string;
  shown_explanation : string
}.

Record session (E : SqlEngine) := {
  conn : database E;
  messages : list message
}.

Arguments conn {E} s.
Arguments messages {E} s.

(** Python truth of the [error] component: [None] and the empty string
    are false. *)
Definition truthy (error : option string) : bool :=
  match error with
  | None => false
  | Some EmptyString => false
  | Some (String _ _) => true
  end.

Definition error_text (error : option string) : string :=
  match error with
  | None => "None"
  | Some e => e
  end.

(** The assistant message chosen after [execute_query] returned
    [(df, error)]: the [if error / elif df is None or df.empty / else]
    of [main].  Drawing the charts of the last branch is not modelled. *)
Definition respond (describe : DataFrame -> string) (prompt : string)
  (result : option DataFrame * option string) : message :=
  let (df, error) := result in
  if truthy error then
    {| role := "assistant";
       content := "Sorry, there was an error processing your query: "
                  ++ error_text error;
       data := None |}
  else
    match df with
    | None =>
        {| role := "assistant"; content := no_data_response; data := None |}
    | Some d =>
        if empty d then
          {| role := "assistant"; content := no_data_response; data := None |}
        else
          let summary := generate_ai_summary describe df prompt in
          {| role := "assistant";
             content := "Found " ++ str_of_nat (List.length (records d))
                        ++ " records. " ++ summary;
             data := Some d |}
    end.

(** One submitted prompt in [main]: record the user message, translate,
    execute, answer. *)
Definition chat_turn (E : SqlEngine) (describe : DataFrame -> string)
  (nl_parser : NaturalLanguageParser) (st : session E) (prompt : string)
  : session E * analysis :=
  let user_message := {| role := "user"; content := prompt; data := None |} in
  let sql_query := parse_query nl_parser prompt in
  let explanation := generate_explanation prompt sql_query in
  let (conn', result) := execute_query E sql_query (conn st) in
  ({| conn := conn';
      messages := messages st ++ [user_message; respond describe prompt result] |},
   {| shown_sql := sql_query; shown_explanation := explanation |}).

(** A statement that starts with the keyword [SELECT]. *)
Definition is_select (sql : string) : bool := prefix "SELECT " sql.

End Demo.

(** ** Exceptions *)

(** Code that may raise returns a [result]; [try_except] is a [try] block
    whose handler catches every [Exception]. *)

Module Exn.

Inductive exn :=
| TypeError
| ValidationError
| DatabaseError (detail : string)
| HTTPException (status : Z) (detail : string).

Inductive result (A : Type) :=
| Ok (a : A)
| Raise (e : exn).

Arguments Ok {A} a.
Arguments Raise {A} e.

Definition bind {A B : Type} (m : result A) (k : A -> result B) : result B :=
  match m with
  | Ok a => k a
  | Raise e => Raise e
  end.

Definition try_except {A : Type} (body : result A) (handler : exn -> result A)
  : result A :=
  match body with
  | Ok a => Ok a
  | Raise e => handler e
  end.

(** [str(e)]. *)
Definition message_of (e : exn) : string :=
  match e with
  | TypeError => "argument is not iterable"
  | ValidationError => "validation error"
  | DatabaseError detail => detail
  | HTTPException _ detail => detail
  end.

End Exn.

Declare Scope exn_scope.
Notation "x <-- m ;; k" := (Exn.bind m (fun x => k))
  (at level 61, m at next level, right associativity) : exn_scope.

(** ** The prototype service, backend/app/simple_main.py *)

Module Prototype.

Import PyStr Exn.
Local Open Scope string_scope.

(** [any(word in query_lower for word in words)]. *)
Fixpoint any_in (words : list string) (q : string) : bool :=
  match words with
  | [] => false
  | w :: words' => if contains w q then true else any_in words' q
  end.

(** [process_natural_language_query]: the pair [(sql, explanation)]. *)
Definition process_natural_language_query (query : string) : string * string :=
  let query_lower := lower query in
  if any_in ["temperature"; "temp"; "thermal"; "warm"; "cold"; "heat"] query_lower then
    if contains "high" query_lower || contains "warm" query_lower
       || contains "hot" query_lower then
      ("SELECT * FROM argo_profiles WHERE ocean_temperature IS NOT NULL ORDER BY ocean_temperature DESC LIMIT 10",
       "Finding the highest/warmest ocean temperature measurements")
    else if contains "low" query_lower || contains "cold" query_lower
            || contains "cool" query_lower then
      ("SELECT * FROM argo_profiles WHERE ocean_temperature IS NOT NULL ORDER BY ocean_temperature ASC LIMIT 10",
       "Finding the lowest/coldest ocean temperature measurements")
    else
      ("SELECT float_id, ocean_temperature, latitude, longitude, date_time FROM argo_profiles WHERE ocean_temperature IS NOT NULL ORDER BY date_time DESC LIMIT 15",
       "Retrieving recent ocean temperature data from ARGO profiles")
  else if any_in ["salinity"; "salt"; "saline"] query_lower then
    if contains "high" query_lower then
      ("SELECT * FROM argo_profiles WHERE salinity IS NOT NULL ORDER BY salinity DESC LIMIT 10",
       "Finding areas with highest salinity levels")
    else if contains "low" query_lower then
      ("SELECT * FROM argo_profiles WHERE salinity IS NOT NULL ORDER BY salinity ASC LIMIT 10",
       "Finding areas with lowest salinity levels")
    else
      ("SELECT float_id, salinity, latitude, longitude, date_time FROM argo_profiles WHERE salinity IS NOT NULL ORDER BY date_time DESC LIMIT 15",
       "Retrieving recent salinity measurements from ARGO profiles")
  else if any_in ["pressure"; "depth"; "deep"; "shallow"] query_lower then
    if contains "deep" query_lower || contains "high" query_lower then
      ("SELECT * FROM argo_profiles WHERE pressure IS NOT NULL ORDER BY pressure DESC LIMIT 10",
       "Finding measurements from deepest locations (highest pressure)")
    else
      ("SELECT float_id, pressure, ocean_temperature, salinity, date_time FROM argo_profiles WHERE pressure IS NOT NULL ORDER BY pressure DESC LIMIT 15",
       "Retrieving pressure/depth data from ARGO profiles")
  else if any_in ["pacific"; "atlantic"; "indian"; "ocean"; "location"; "where"] query_lower then
    ("SELECT float_id, latitude, longitude, project_name, status FROM argo_floats ORDER BY deployment_date DESC LIMIT 15",
     "Showing ARGO float locations and deployment information")
  else if any_in ["anomal"; "unusual"; "strange"; "alert"; "problem"; "issue"] query_lower then
    if contains "temperature" query_lower then
      ("SELECT * FROM ocean_anomalies WHERE anomaly_type LIKE '%temperature%' ORDER BY detected_at DESC LIMIT 10",
       "Retrieving temperature-related anomalies detected by the system")
    else if contains "salinity" query_lower then
      ("SELECT * FROM ocean_anomalies WHERE anomaly_type LIKE '%salinity%' ORDER BY detected_at DESC LIMIT 10",
       "Retrieving salinity-related anomalies detected by the system")
    else
      ("SELECT * FROM ocean_anomalies ORDER BY confidence DESC, detected_at DESC LIMIT 10",
       "Retrieving recent ocean anomalies detected by the system")
  else if any_in ["float"; "buoy"; "sensor"; "device"; "platform"] query_lower then
    if contains "active" query_lower then
      ("SELECT * FROM argo_floats WHERE status = 'active' ORDER BY deployment_date DESC",
       "Retrieving information about currently active ARGO floats")
    else if contains "project" query_lower then
      ("SELECT project_name, COUNT(*) as float_count, data_center FROM argo_floats GROUP BY project_name, data_center ORDER BY float_count DESC",
       "Showing ARGO float distribution by research projects")
    else
      ("SELECT * FROM argo_floats ORDER BY deployment_date DESC LIMIT 10",
       "Retrieving information about ARGO floats")
  else if any_in ["data"; "measurement"; "profile"; "sample"; "record"] query_lower then
    if contains "recent" query_lower || contains "latest" query_lower
       || contains "new" query_lower then
      ("SELECT * FROM argo_profiles ORDER BY date_time DESC LIMIT 15",
       "Showing the most recent oceanographic measurements")
    else
      ("SELECT COUNT(*) as total_profiles, AVG(ocean_temperature) as avg_temp, AVG(salinity) as avg_salinity FROM argo_profiles",
       "Providing summary statistics of all oceanographic data")
  else if any_in ["scientist"; "researcher"; "pi"; "principal"; "investigator"] query_lower then
    ("SELECT pi_name, project_name, COUNT(*) as float_count FROM argo_floats GROUP BY pi_name, project_name ORDER BY float_count DESC",
     "Showing research projects and principal investigators")
  else if any_in ["today"; "yesterday"; "week"; "month"; "year"; "recent"] query_lower then
    ("SELECT * FROM argo_profiles ORDER BY date_time DESC LIMIT 20",
     "Showing recent oceanographic measurements ordered by date")
  else
    ("SELECT * FROM argo_floats LIMIT 8",
     "Showing sample ARGO float data for query: '" ++ query
     ++ "'. Try asking about temperature, salinity, anomalies, floats, locations, or recent data!").

(** *** The query endpoint *)

(** The sqlite3 file behind the service: running a statement gives the
    database afterwards and the rows, or raises. *)
Record Sqlite := {
  db : Type;
  row : Type;
  execute : string -> db -> db * result (list row)
}.

Record QueryResponse (S : Sqlite) := {
  sql_query : string;
  results : list (row S);
  explanation : string;
  confidence_score : Q;
  execution_time : Z
}.

Arguments sql_query {S} q.
Arguments results {S} q.
Arguments explanation {S} q.
Arguments confidence_score {S} q.
Arguments execution_time {S} q.

(** [natural_language_query]; the two readings of the clock are inputs. *)
Definition natural_language_query (S : Sqlite) (start_time end_time : Z)
  (d : db S) (query : string) : db S * result (QueryResponse S) :=
  let (sql, expl) := process_natural_language_query query in
  let (d', rows) := execute S sql d in
  (d',
   try_except
     (Exn.bind rows (fun rs =>
        Ok {| sql_query := sql;
              results := rs;
              explanation := expl;
              confidence_score := 9 # 10;
              execution_time := (end_time - start_time)%Z |}))
     (fun e => Raise (HTTPException 500
                        ("Query processing error: " ++ message_of e)))).

(** *** The login endpoint *)

(** A JSON value of the request body. *)
Local Unset Elimination Schemes.
Inductive json :=
| JNull
| JBool (b : bool)
| JNumber (q : Q)
| JString (s : string)
| JArray (items : list json)
| JObject (members : list (string * json)).
Local Set Elimination Schemes.

(** [credentials.get(key, default)]; a dictionary binds a key once, so the
    first binding found is the binding. *)
Fixpoint dict_get (key : string) (credentials : list (string * json))
  (default : json) : json :=
  match credentials with
  | [] => default
  | (k, v) :: rest => if String.eqb k key then v else dict_get key rest default
  end.

Definition is_string (s : string) (v : json) : bool :=
  match v with
  | JString s' => String.eqb s s'
  | _ => false
  end.

(** [needle in v] for a string [needle]: substring of a string, element
    of a list, key of a dictionary; [None], booleans and numbers are not
    iterable. *)
Definition py_in (needle : string) (v : json) : result bool :=
  match v with
  | JString s => Ok (contains needle s)
  | JArray items => Ok (existsb (is_string needle) items)
  | JObject members => Ok (existsb (fun kv => String.eqb (fst kv) needle) members)
  | JNull | JBool _ | JNumber _ => Raise TypeError
  end.

Record User := {
  id : string;
  email : string;
  full_name : string;
  user_role : string
}.

(** Building [User(id=..., email=..., full_name=..., role=...)]: the
    model validates that [email] is a string.  Of the values that get
    this far (the [in] tests have passed) lists and dictionaries are
    refused. *)
Definition make_user (uid : string) (email_value : json) (name role : string)
  : result User :=
  match email_value with
  | JString e => Ok {| id := uid; email := e; full_name := name; user_role := role |}
  | _ => Raise ValidationError
  end.

Record LoginResponse := {
  user : User;
  access_token : string;
  token_type : string
}.

Local Open Scope exn_scope.

(** [login]. *)
Definition login (credentials : list (string * json)) : result LoginResponse :=
  let email_value := dict_get "email" credentials (JString "") in
  role_name <--
    (is_scientist <-- py_in "scientist" email_value ;;
     if is_scientist : bool then Ok ("scientist", "Dr. Ocean Scientist")
     else
       is_policy <-- py_in "policy" email_value ;;
       if is_policy : bool then Ok ("policy_maker", "Policy Maker")
       else
         is_student <-- py_in "student" email_value ;;
         if is_student : bool then Ok ("student", "Marine Student")
         else Ok ("scientist", "Demo User")) ;;
  let (role, name) := role_name : string * string in
  u <-- make_user ("demo_" ++ role) email_value name role ;;
  Ok {| user := u;
        access_token := "demo_token_" ++ role;
        token_type := "bearer" |}.

End Prototype.

(** ** The alert service, backend/app/services/alert_service.py *)

Module Alerts.

Local Open Scope R_scope.

Inductive severity := low | medium | high | extreme.

(** [_calculate_severity]. *)
Definition _calculate_severity (deviation std_dev : R) : severity :=
  if Rlt_dec (3 * std_dev) deviation then extreme
  else if Rlt_dec (2 * std_dev) deviation then high
  else if Rlt_dec (1.5 * std_dev) deviation then medium
  else low.

(** A measurement joined with its profile, as stored. *)
Record JoinedRow := {
  latitude : R;
  longitude : R;
  profile_date : Z;
  temperature : option R;
  salinity : option R;
  depth : option R
}.

(** A row fetched by one of the two detector queries; [value] is the
    selected variable. *)
Record Measurement := {
  m_latitude : R;
  m_longitude : R;
  m_profile_date : Z;
  m_value : R;
  m_depth : R
}.

(** The [select ... where] of the detectors: profiles since [since_date],
    the variable present, depth at most 10. *)
Definition surface_query (field : JoinedRow -> option R) (since_date : Z)
  (table : list JoinedRow) : list Measurement :=
  flat_map
    (fun r =>
       match field r, depth r with
       | Some v, Some d =>
           if (since_date <=? profile_date r)%Z then
             if Rle_dec d 10 then
               [ {| m_latitude := latitude r; m_longitude := longitude r;
                    m_profile_date := profile_date r; m_value := v;
                    m_depth := d |} ]
             else []
           else []
       | _, _ => []
       end)
    table.

(** [np.mean] and [np.std] (population standard deviation). *)
Definition np_mean (xs : list R) : R :=
  fold_right Rplus 0 xs / INR (List.length xs).

Definition np_std (xs : list R) : R :=
  sqrt (np_mean (map (fun x => Rsqr (Rabs (x - np_mean xs))) xs)).

(** Python's [round(x)]: nearest integer, ties to the even one. *)
Definition py_round (x : R) : Z :=
  let f := Zfloor x in
  let r := x - IZR f in
  if Rlt_dec r (1 / 2) then f
  else if Rlt_dec (1 / 2) r then (f + 1)%Z
  else if Z.even f then f else (f + 1)%Z.

Definition cell : Type := (Z * Z)%type.

Definition cell_eqb (a b : cell) : bool :=
  (fst a =? fst b)%Z && (snd a =? snd b)%Z.

(** The key of a measurement on the one-degree grid. *)
Definition cell_of (m : Measurement) : cell :=
  (py_round (m_latitude m), py_round (m_longitude m)).

(** One step of the grouping loop on the dictionary [location_groups],
    kept in insertion order: append to the list of the key, which is
    created at the end when absent. *)
Fixpoint add_to_group (key : cell) (m : Measurement)
  (groups : list (cell * list Measurement)) : list (cell * list Measurement) :=
  match groups with
  | [] => [(key, [m])]
  | (k, g) :: rest =>
      if cell_eqb k key then (k, g ++ [m]) :: rest
      else (k, g) :: add_to_group key m rest
  end.

Definition location_groups (measurements : list Measurement)
  : list (cell * list Measurement) :=
  fold_left (fun groups m => add_to_group (cell_of m) m groups) measurements [].

(** [min] and [max] of the dates of a group; groups are never empty. *)
Definition min_date (group : list Measurement) : Z :=
  match map m_profile_date group with
  | [] => 0%Z
  | d :: ds => fold_left Z.min ds d
  end.

Definition max_date (group : list Measurement) : Z :=
  match map m_profile_date group with
  | [] => 0%Z
  | d :: ds => fold_left Z.max ds d
  end.

(** What differs between the temperature and the salinity detector. *)
Record variable := {
  field : JoinedRow -> option R;
  multiplier : R;
  confidence_divisor : R;
  type_above : string;
  type_below : string
}.

Definition temperature_variable : variable :=
  {| field := temperature; multiplier := 2; confidence_divisor := 3;
     type_above := "heatwave"; type_below := "cold_spell" |}.

Definition salinity_variable : variable :=
  {| field := salinity; multiplier := 1.5; confidence_divisor := 2;
     type_above := "high_salinity"; type_below := "low_salinity" |}.

(** An emitted anomaly.  [deviation] stands for the description, which
    is that number rendered in a sentence. *)
Record Anomaly := {
  anomaly_type : string;
  anomaly_severity : severity;
  start_date : Z;
  end_date : Z;
  anomaly_latitude : Z;
  anomaly_longitude : Z;
  deviation : R;
  confidence_score : R;
  data_source : string
}.

(** The dictionary appended for a flagged cell. *)
Definition make_anomaly (v : variable) (std : R) (key : cell)
  (group : list Measurement) (dev : R) : Anomaly :=
  {| anomaly_type := if Rlt_dec 0 dev then type_above v else type_below v;
     anomaly_severity := _calculate_severity (Rabs dev) std;
     start_date := min_date group;
     end_date := max_date group;
     anomaly_latitude := fst key;
     anomaly_longitude := snd key;
     deviation := dev;
     confidence_score := Rmin 0.95 (Rabs dev / (confidence_divisor v * std));
     data_source := "ARGO" |}.

(** The body of the loop over [location_groups.items()]. *)
Definition check_group (v : variable) (mean std : R)
  (entry : cell * list Measurement) : list Anomaly :=
  let (key, group) := entry in
  let group_mean := np_mean (map m_value group) in
  let dev := group_mean - mean in
  if Rlt_dec (multiplier v * std) (Rabs dev) then
    [make_anomaly v std key group dev]
  else [].

(** The detector on the fetched measurements: the part shared by
    [_detect_temperature_anomalies] and [_detect_salinity_anomalies]. *)
Definition detect (v : variable) (measurements : list Measurement)
  : list Anomaly :=
  if (List.length measurements <? 10)%nat then []
  else
    let values := map m_value measurements in
    let mean := np_mean values in
    let std := np_std values in
    flat_map (check_group v mean std) (location_groups measurements).

Definition _detect_temperature_anomalies (table : list JoinedRow)
  (since_date : Z) : list Anomaly :=
  detect temperature_variable (surface_query temperature since_date table).

Definition _detect_salinity_anomalies (table : list JoinedRow)
  (since_date : Z) : list Anomaly :=
  detect salinity_variable (surface_query salinity since_date table).

End Alerts.

(** ** The detectors in the arithmetic of the program, alert_service.py *)

Module Detection.

Local Open Scope string_scope.

(** The numbers of the program and what the detectors do with them: a
    number written in the source, [-], [*], [/], [abs], [>], [<], the
    [<=] of the database, Python's [round] to an integer, which raises
    on an infinity or a NaN, [np.mean] and [np.std]. *)
Record Arithmetic := {
  number : Type;
  literal : Q -> number;
  sub : number -> number -> number;
  mul : number -> number -> number;
  div : number -> number -> number;
  absolute : number -> number;
  greater : number -> number -> bool;
  less : number -> number -> bool;
  at_most : number -> number -> bool;
  round : number -> option Z;
  np_mean : list number -> number;
  np_std : list number -> number
}.

Section Detectors.

Variable A : Arithmetic.

(** [_calculate_severity]. *)
Definition _calculate_severity (deviation std_dev : number A) : Alerts.severity :=
  if greater A deviation (mul A (literal A 3) std_dev) then Alerts.extreme
  else if greater A deviation (mul A (literal A 2) std_dev) then Alerts.high
  else if greater A deviation (mul A (literal A 1.5) std_dev) then Alerts.medium
  else Alerts.low.

(** A measurement joined with its profile, as stored. *)
Record JoinedRow := {
  latitude : number A;
  longitude : number A;
  profile_date : Z;
  temperature : option (number A);
  salinity : option (number A);
  depth : option (number A)
}.

(** A row fetched by one of the two detector queries. *)
Record Measurement := {
  m_latitude : number A;
  m_longitude : number A;
  m_profile_date : Z;
  m_value : number A;
  m_depth : number A
}.

(** The [select ... where] of the detectors: profiles since
    [since_date], the variable present, depth at most 10. *)
Definition surface_query (field : JoinedRow -> option (number A)) (since_date : Z)
  (table : list JoinedRow) : list Measurement :=
  flat_map
    (fun r =>
       match field r, depth r with
       | Some v, Some d =>
           if (since_date <=? profile_date r)%Z then
             if at_most A d (literal A 10) then
               [ {| m_latitude := latitude r; m_longitude := longitude r;
                    m_profile_date := profile_date r; m_value := v;
                    m_depth := d |} ]
             else []
           else []
       | _, _ => []
       end)
    table.

(** The key of a measurement on the one-degree grid, when both
    coordinates can be rounded. *)
Definition cell_of (m : Measurement) : option Alerts.cell :=
  match round A (m_latitude m), round A (m_longitude m) with
  | Some lat_key, Some lon_key => Some (lat_key, lon_key)
  | _, _ => None
  end.

(** The measurements with their keys; nothing when a [round] raises. *)
Fixpoint located (measurements : list Measurement)
  : option (list (Alerts.cell * Measurement)) :=
  match measurements with
  | [] => Some []
  | m :: rest =>
      match cell_of m, located rest with
      | Some key, Some keyed => Some ((key, m) :: keyed)
      | _, _ => None
      end
  end.

(** One step of the grouping loop on the dictionary [location_groups],
    kept in insertion order. *)
Fixpoint add_to_group (key : Alerts.cell) (m : Measurement)
  (groups : list (Alerts.cell * list Measurement))
  : list (Alerts.cell * list Measurement) :=
  match groups with
  | [] => [(key, [m])]
  | (k, g) :: rest =>
      if Alerts.cell_eqb k key then (k, (g ++ [m])%list) :: rest
      else (k, g) :: add_to_group key m rest
  end.

Definition location_groups (keyed : list (Alerts.cell * Measurement))
  : list (Alerts.cell * list Measurement) :=
  fold_left (fun groups km => add_to_group (fst km) (snd km) groups) keyed [].

(** [min] and [max] of the dates of a group; groups are never empty. *)
Definition min_date (group : list Measurement) : Z :=
  match map m_profile_date group with
  | [] => 0%Z
  | d :: ds => fold_left Z.min ds d
  end.

Definition max_date (group : list Measurement) : Z :=
  match map m_profile_date group with
  | [] => 0%Z
  | d :: ds => fold_left Z.max ds d
  end.

(** What differs between the temperature and the salinity detector. *)
Record variable := {
  field : JoinedRow -> option (number A);
  multiplier : Q;
  confidence_divisor : Q;
  type_above : string;
  type_below : string
}.

Definition temperature_variable : variable :=
  {| field := temperature; multiplier := 2; confidence_divisor := 3;
     type_above := "heatwave"; type_below := "cold_spell" |}.

Definition salinity_variable : variable :=
  {| field := salinity; multiplier := 1.5; confidence_divisor := 2;
     type_above := "high_salinity"; type_below := "low_salinity" |}.

(** An emitted anomaly.  [deviation] stands for the description, which
    is that number rendered in a sentence. *)
Record Anomaly := {
  anomaly_type : string;
  anomaly_severity : Alerts.severity;
  start_date : Z;
  end_date : Z;
  anomaly_latitude : Z;
  anomaly_longitude : Z;
  deviation : number A;
  confidence_score : number A;
  data_source : string
}.

(** [min(0.95, x)]: the second argument when it is less than the
    first. *)
Definition capped (x : number A) : number A :=
  if less A x (literal A 0.95) then x else literal A 0.95.

(** The dictionary appended for a flagged cell. *)
Definition make_anomaly (v : variable) (std : number A) (key : Alerts.cell)
  (group : list Measurement) (dev : number A) : Anomaly :=
  {| anomaly_type := if greater A dev (literal A 0) then type_above v
                     else type_below v;
     anomaly_severity := _calculate_severity (absolute A dev) std;
     start_date := min_date group;
     end_date := max_date group;
     anomaly_latitude := fst key;
     anomaly_longitude := snd key;
     deviation := dev;
     confidence_score :=
       capped (div A (absolute A dev)
                 (mul A (literal A (confidence_divisor v)) std));
     data_source := "ARGO" |}.

(** The body of the loop over [location_groups.items()]. *)
Definition check_group (v : variable) (mean std : number A)
  (entry : Alerts.cell * list Measurement) : list Anomaly :=
  let (key, group) := entry in
  let group_mean := np_mean A (map m_value group) in
  let dev := sub A group_mean mean in
  if greater A (absolute A dev) (mul A (literal A (multiplier v)) std) then
    [make_anomaly v std key group dev]
  else [].

(** The detector on the fetched measurements; an exception, which only
    [round] can raise here, ends it with the empty list. *)
Definition detect (v : variable) (measurements : list Measurement)
  : list Anomaly :=
  if (List.length measurements <? 10)%nat then []
  else
    let values := map m_value measurements in
    let mean := np_mean A values in
    let std := np_std A values in
    match located measurements with
    | None => []
    | Some keyed => flat_map (check_group v mean std) (location_groups keyed)
    end.

Definition _detect_temperature_anomalies (table : list JoinedRow)
  (since_date : Z) : list Anomaly :=
  detect temperature_variable (surface_query temperature since_date table).

Definition _detect_salinity_anomalies (table : list JoinedRow)
  (since_date : Z) : list Anomaly :=
  detect salinity_variable (surface_query salinity since_date table).

End Detectors.

Arguments latitude {A} j.
Arguments longitude {A} j.
Arguments profile_date {A} j.
Arguments temperature {A} j.
Arguments salinity {A} j.
Arguments depth {A} j.
Arguments m_latitude {A} m.
Arguments m_longitude {A} m.
Arguments m_profile_date {A} m.
Arguments m_value {A} m.
Arguments m_depth {A} m.
Arguments field {A} v j.
Arguments multiplier {A} v.
Arguments confidence_divisor {A} v.
Arguments type_above {A} v.
Arguments type_below {A} v.
Arguments anomaly_type {A} a.
Arguments anomaly_severity {A} a.
Arguments start_date {A} a.
Arguments end_date {A} a.
Arguments anomaly_latitude {A} a.
Arguments anomaly_longitude {A} a.
Arguments deviation {A} a.
Arguments confidence_score {A} a.
Arguments data_source {A} a.

(** *** Two arithmetics *)

(** IEEE 754 binary64 with rounding to nearest, ties to even: the
    floats of Python and of NumPy.  [float_of_Z] is the float of an
    integer below 2^63 in absolute value: a count, or a part of a
    literal. *)
Definition float_of_Z (z : Z) : PrimFloat.float :=
  match z with
  | Z0 => PrimFloat.zero
  | Zpos _ => PrimFloat.of_uint63 (Uint63.of_Z z)
  | Zneg p => PrimFloat.opp (PrimFloat.of_uint63 (Uint63.of_Z (Zpos p)))
  end.

(** The float nearest to a decimal written in the source, such as
    [0.95]: the quotient of two integers that are floats themselves. *)
Definition float_literal (q : Q) : PrimFloat.float :=
  PrimFloat.div (float_of_Z (Qnum q)) (float_of_Z (Zpos (Qden q))).

(** [round(x)] of a float: the nearest integer, ties to the even one;
    nothing for an infinity or a NaN, where Python raises. *)
Definition float_round (x : PrimFloat.float) : option Z :=
  match FloatOps.Prim2SF x with
  | SpecFloat.S754_zero _ => Some 0%Z
  | SpecFloat.S754_finite negative m e =>
      let n := Zpos m in
      let magnitude :=
        if (0 <=? e)%Z then (n * 2 ^ e)%Z
        else
          let d := (2 ^ (- e))%Z in
          let q := (n / d)%Z in
          match (2 * (n mod d) ?= d)%Z with
          | Lt => q
          | Gt => (q + 1)%Z
          | Eq => if Z.even q then q else (q + 1)%Z
          end in
      Some (if negative then (- magnitude)%Z else magnitude)
  | SpecFloat.S754_infinity _ => None
  | SpecFloat.S754_nan => None
  end.

(** The sum of NumPy over a one-dimensional array, [pairwise_sum] in
    its inner loop for floats: fewer than 8 items are added from left
    to right; up to 128 items are added in eight lanes, the item at
    place [i] to lane [i mod 8], the lanes are added two by two, and
    the items after the last whole block of eight are added at the end;
    a longer array is cut near its middle, at a multiple of 8. *)
Definition sum_from (res : PrimFloat.float) (a : list PrimFloat.float)
  : PrimFloat.float :=
  fold_left PrimFloat.add a res.

(** The loop [r[j] += a[i + j]] over the whole blocks of eight. *)
Fixpoint add_lanes (blocks : nat) (r a : list PrimFloat.float)
  : list PrimFloat.float :=
  match blocks with
  | O => r
  | S blocks' =>
      add_lanes blocks'
        (map (fun ra => PrimFloat.add (fst ra) (snd ra)) (combine r (firstn 8 a)))
        (skipn 8 a)
  end.

Definition add_pairs (r : list PrimFloat.float) : PrimFloat.float :=
  match r with
  | [r0; r1; r2; r3; r4; r5; r6; r7] =>
      PrimFloat.add
        (PrimFloat.add (PrimFloat.add r0 r1) (PrimFloat.add r2 r3))
        (PrimFloat.add (PrimFloat.add r4 r5) (PrimFloat.add r6 r7))
  | _ => PrimFloat.zero
  end.

(** [fuel] bounds the depth of the halving; the length of the array is
    enough. *)
Fixpoint pairwise_sum (fuel : nat) (a : list PrimFloat.float) : PrimFloat.float :=
  let n := List.length a in
  if (n <? 8)%nat then sum_from PrimFloat.zero a
  else if (n <=? 128)%nat then
    let blocks := (n / 8 - 1)%nat in
    let res := add_pairs (add_lanes blocks (firstn 8 a) (skipn 8 a)) in
    sum_from res (skipn (8 + 8 * blocks) a)
  else
    match fuel with
    | O => PrimFloat.zero
    | S fuel' =>
        let n2 := (n / 2 - (n / 2) mod 8)%nat in
        PrimFloat.add (pairwise_sum fuel' (firstn n2 a))
          (pairwise_sum fuel' (skipn n2 a))
    end.

(** [np.add.reduce]: the sum is added to the identity, whose sign, when
    the sum is a zero, no comparison sees. *)
Definition float_sum (xs : list PrimFloat.float) : PrimFloat.float :=
  PrimFloat.add PrimFloat.zero (pairwise_sum (List.length xs) xs).

(** [np.mean]: the sum divided by the number of items. *)
Definition float_mean (xs : list PrimFloat.float) : PrimFloat.float :=
  PrimFloat.div (float_sum xs) (float_of_Z (Z.of_nat (List.length xs))).

(** [np.std]: the square root of the mean of the squares of the
    differences to the mean. *)
Definition float_std (xs : list PrimFloat.float) : PrimFloat.float :=
  let mean := float_mean xs in
  PrimFloat.sqrt
    (float_mean (map (fun x => let d := PrimFloat.sub x mean in PrimFloat.mul d d) xs)).

(** Binary64 arithmetic, with the mean and the standard deviation of
    NumPy. *)
Definition binary64 : Arithmetic :=
  {| number := PrimFloat.float;
     literal := float_literal;
     sub := PrimFloat.sub;
     mul := PrimFloat.mul;
     div := PrimFloat.div;
     absolute := PrimFloat.abs;
     greater := fun x y => PrimFloat.ltb y x;
     less := PrimFloat.ltb;
     at_most := PrimFloat.leb;
     round := float_round;
     np_mean := float_mean;
     np_std := float_std |}.

(** Exact arithmetic on real numbers: the arithmetic of [Alerts]. *)
Definition exact : Arithmetic :=
  {| number := R;
     literal := Q2R;
     sub := Rminus;
     mul := Rmult;
     div := Rdiv;
     absolute := Rabs;
     greater := fun x y => if Rlt_dec y x then true else false;
     less := fun x y => if Rlt_dec x y then true else false;
     at_most := fun x y => if Rle_dec x y then true else false;
     round := fun x => Some (Alerts.py_round x);
     np_mean := Alerts.np_mean;
     np_std := Alerts.np_std |}.

End Detection.

(** ** The data service, backend/app/services/data_service.py *)

Module DataService.

Import PyStr Exn.
Local Open Scope string_scope.

(** A value in a result dictionary. *)
Inductive value :=
| VNone
| VInt (z : Z)
| VFloat (q : Q)
| VStr (s : string)
| VDate (day : Z).

(** A result dictionary, keys in insertion order. *)
Definition record : Type := list (string * value).

(** A row of the fallback join; the three measured columns are
    nullable. *)
Record JoinRow := {
  latitude : Q;
  longitude : Q;
  profile_date : Z;
  depth : option Q;
  temperature : option Q;
  salinity : option Q;
  float_id : string
}.

(** The [AsyncSession]: running SQL text gives the column names and the
    rows, running the join of [get_sample_data] with a limit gives its
    rows; either may raise, and both leave a session behind. *)
Record Session := {
  session : Type;
  execute_text : string -> session -> session * result (list string * list (list value));
  execute_sample_join : nat -> session -> session * result (list JoinRow)
}.

Record DataService := {
  max_query_results : Z
}.

(** [DataService.__init__]. *)
Definition init_service : DataService := {| max_query_results := 10000 |}.

(** [float(x) if x else None]: [None] and zero are both false. *)
Definition float_or_none (x : option Q) : value :=
  match x with
  | None => VNone
  | Some q => if Qeq_bool q 0 then VNone else VFloat q
  end.

Section Sampling.

Variable G : Rand.generator.
(** [datetime.now()], as a day number. *)
Variable now : Z.
Local Open Scope rand_scope.

(** One iteration of the loop of [_generate_sample_data]. *)
Definition sample_record (i : nat) : Rand.rand G record :=
  lat <- Rand.uniform G (-60) 60 ;;
  lon <- Rand.uniform G (-180) 180 ;;
  depth <- Rand.choice G [0; 10; 50; 100; 200; 500; 1000]%Z ;;
  temp <- (if (depth <=? 50)%Z then Rand.uniform G 15 30
           else if (depth <=? 200)%Z then Rand.uniform G 8 20
           else Rand.uniform G 2 8) ;;
  salinity <- Rand.uniform G 34 37 ;;
  days <- Rand.randint G 0 365 ;;
  Rand.ret [ ("latitude", VFloat (Rand.round_to 4 lat));
             ("longitude", VFloat (Rand.round_to 4 lon));
             ("profile_date", VDate (now - days));
             ("depth", VInt depth);
             ("temperature", VFloat (Rand.round_to 2 temp));
             ("salinity", VFloat (Rand.round_to 2 salinity));
             ("float_id", VStr ("FLOAT_" ++ str_of_nat (1000 + i mod 10))) ].

(** [DataService._generate_sample_data], run from
    [np.random.seed(42)]. *)
Definition _generate_sample_data : list record :=
  fst (Rand.for_each (seq 0 50) sample_record (Rand.seed G 42)).

Variable S : Session.

Definition row_to_record (r : JoinRow) : record :=
  [ ("latitude", VFloat (latitude r));
    ("longitude", VFloat (longitude r));
    ("profile_date", VDate (profile_date r));
    ("depth", float_or_none (depth r));
    ("temperature", float_or_none (temperature r));
    ("salinity", float_or_none (salinity r));
    ("float_id", VStr (float_id r)) ].

(** [DataService.get_sample_data]: the join, and the synthetic
    records when it raises. *)
Definition get_sample_data (db : session S) (limit : nat)
  : session S * result (list record) :=
  let (db', rows) := execute_sample_join S limit db in
  (db',
   try_except (Exn.bind rows (fun rs => Ok (map row_to_record rs)))
              (fun _ => Ok _generate_sample_data)).

(** The statement sent to the database: a limit is appended unless
    the text mentions one. *)
Definition with_limit (self : DataService) (sql_query : string) : string :=
  if negb (contains "LIMIT" (upper sql_query)) then
    rstrip_semicolon sql_query ++ " LIMIT "
    ++ str_of_Z (max_query_results self) ++ ";"
  else sql_query.

(** [dict(zip(columns, row))] for each row. *)
Definition rows_to_records (columns : list string) (rows : list (list value))
  : list record :=
  match rows with
  | [] => []
  | _ => map (fun r => combine columns r) rows
  end.

(** [DataService.execute_query]: the [except] branch answers with
    [get_sample_data] on the same session. *)
Definition execute_query (self : DataService) (sql_query : string)
  (db : session S) : session S * result (list record) :=
  let (db', outcome) := execute_text S (with_limit self sql_query) db in
  match outcome with
  | Ok (columns, rows) => (db', Ok (rows_to_records columns rows))
  | Raise _ => get_sample_data db' 100
  end.

End Sampling.

End DataService.

(** ** The sample-data script, data/generate_sample_data.py *)

Module Generator.

(** One entry of the list built by [generate_measurements]. *)
Record measurement := {
  depth : Z;
  pressure : Q;
  temperature : Q;
  salinity : Q;
  oxygen : Q;
  quality_flag : string
}.

Definition depths : list Z :=
  [0; 10; 20; 30; 50; 75; 100; 125; 150; 200; 250; 300; 400; 500; 600;
   750; 1000; 1250; 1500; 1750; 2000]%Z.

Section Sampling.

Variable G : Rand.generator.
Local Open Scope rand_scope.

(** The loop body of [generate_measurements]. *)
Definition generate_measurement (depth : Z) : Rand.rand G measurement :=
  temperature <- (if (depth <=? 50)%Z then Rand.uniform G 20 30
                  else if (depth <=? 200)%Z then Rand.uniform G 10 20
                  else if (depth <=? 1000)%Z then Rand.uniform G 4 12
                  else Rand.uniform G 1 5) ;;
  salinity <- (if (depth <=? 100)%Z then Rand.uniform G 34.5 36.5
               else Rand.uniform G 34 35) ;;
  oxygen <- (if (depth <=? 100)%Z then Rand.uniform G 200 300
             else if (depth <=? 500)%Z then Rand.uniform G 100 200
             else Rand.uniform G 150 250) ;;
  (* the flags are the one-character strings 1, 1, 1, 2, 3 *)
  flag <- Rand.choice G [1; 1; 1; 2; 3]%Z ;;
  Rand.ret {| depth := depth;
              pressure := inject_Z depth * 1.02;
              temperature := Rand.round_to 2 temperature;
              salinity := Rand.round_to 2 salinity;
              oxygen := Rand.round_to 1 oxygen;
              quality_flag := PyStr.str_of_Z flag |}.

(** [ARGODataGenerator.generate_measurements]. *)
Definition generate_measurements : Rand.rand G (list measurement) :=
  Rand.for_each depths generate_measurement.

End Sampling.

End Generator.

(** ** Charts and the sidebar of the demo, app.py *)

Module Charts.

Import PyStr Demo.
Local Open Scope string_scope.

(** A step that may stop the run with a [KeyError] naming the missing
    columns. *)
Inductive outcome (A : Type) :=
| Done (a : A)
| KeyError (missing : list string).

Arguments Done {A} a.
Arguments KeyError {A} missing.

(** [name in df.columns]. *)
Definition has_column (name : string) (df : DataFrame) : bool :=
  existsb (String.eqb name) (columns df).

Fixpoint index_of (name : string) (cols : list string) : option nat :=
  match cols with
  | [] => None
  | c :: cols' =>
      if String.eqb c name then Some O
      else option_map S (index_of name cols')
  end.

(** The values of one column, row by row. *)
Definition column (name : string) (df : DataFrame) : list Q :=
  match index_of name (columns df) with
  | Some i => map (fun r => nth i r 0%Q) (records df)
  | None => []
  end.

(** The distinct values of a list, in order of first appearance. *)
Fixpoint distinct (l : list Q) : list Q :=
  match l with
  | [] => []
  | x :: l' => x :: filter (fun y => negb (Qeq_bool y x)) (distinct l')
  end.

(** [len(df.groupby(name))]. *)
Definition n_groups (name : string) (df : DataFrame) : nat :=
  List.length (distinct (column name df)).

Inductive colour := red | orange | blue.

(** The colour code of the map markers. *)
Definition marker_colour (temp : Q) : colour :=
  if Qlt_le_dec 25 temp then red
  else if Qlt_le_dec 15 temp then orange
  else blue.

(** What a drawing function hands back; of a figure only its kind is
    kept, and of the map the colours of its markers. *)
Inductive figure :=
| TimeSeries
| DepthProfile
| MapView (markers : list colour).

(** The columns among [names] that the frame lacks. *)
Definition missing_columns (names : list string) (df : DataFrame) : list string :=
  filter (fun n => negb (has_column n df)) names.

(** [VisualizationEngine.create_time_series_plot]: [None] without a time
    column; the traces read [df['temperature']] and then
    [df['salinity']]. *)
Definition create_time_series_plot (df : DataFrame) : outcome (option figure) :=
  if negb (has_column "time" df) then Done None
  else if negb (has_column "temperature" df) then KeyError ["temperature"]
  else if negb (has_column "salinity" df) then KeyError ["salinity"]
  else Done (Some TimeSeries).

(** [VisualizationEngine.create_depth_profile]: [None] without a depth
    column; the aggregation of [temperature] and [salinity] by depth
    raises when one of them does not exist. *)
Definition create_depth_profile (df : DataFrame) : outcome (option figure) :=
  if negb (has_column "depth" df) then Done None
  else
    match missing_columns ["temperature"; "salinity"] df with
    | [] => Done (Some DepthProfile)
    | missing => KeyError missing
    end.

(** [VisualizationEngine.create_map_visualization]: [None] without both
    coordinates; the popup of each row reads the five other columns in the
    order of its text.  [main] calls it on frames with rows only. *)
Definition create_map_visualization (df : DataFrame) : outcome (option figure) :=
  if negb (has_column "lat" df) || negb (has_column "lon" df) then Done None
  else
    match records df with
    | [] => Done (Some (MapView []))
    | _ :: _ =>
        match missing_columns
                ["float_id"; "time"; "depth"; "temperature"; "salinity"] df with
        | [] => Done (Some (MapView (map marker_colour (column "temperature" df))))
        | k :: _ => KeyError [k]
        end
    end.

Definition shown (fig : option figure) : list figure :=
  match fig with
  | Some f => [f]
  | None => []
  end.

(** The two columns of charts that [main] draws for a frame with rows:
    the figures put on the page, or the [KeyError] that ends the run. *)
Definition draw_charts (df : DataFrame) : outcome (list figure) :=
  match (if has_column "time" df && (1 <? List.length (records df))%nat
         then create_time_series_plot df else Done None) with
  | KeyError k => KeyError k
  | Done fig_ts =>
      match (if has_column "depth" df && (1 <? n_groups "depth" df)%nat
             then create_depth_profile df else Done None) with
      | KeyError k => KeyError k
      | Done fig_depth =>
          match (if has_column "lat" df && has_column "lon" df
                 then create_map_visualization df else Done None) with
          | KeyError k => KeyError k
          | Done map_viz => Done (shown fig_ts ++ shown fig_depth ++ shown map_viz)%list
          end
      end
  end.

(** One submitted prompt in [main] with the drawing of the charts: the
    assistant message is appended to the history after the charts, so a
    [KeyError] leaves the prompt without an answer. *)
Definition chat_turn_drawn (E : SqlEngine) (describe : DataFrame -> string)
  (nl_parser : NaturalLanguageParser) (st : session E) (prompt : string)
  : session E * outcome (list figure) :=
  let user_message := {| role := "user"; content := prompt; data := None |} in
  let sql_query := parse_query nl_parser prompt in
  let (conn', result) := execute_query E sql_query (conn st) in
  let answered :=
    {| conn := conn';
       messages := messages st ++ [user_message; respond describe prompt result] |} in
  match result with
  | (Some df, error) =>
      if truthy error || empty df then (answered, Done [])
      else
        match draw_charts df with
        | Done figures => (answered, Done figures)
        | KeyError k =>
            ({| conn := conn'; messages := messages st ++ [user_message] |},
             KeyError k)
        end
  | (None, _) => (answered, Done [])
  end.

(** The sample queries of the sidebar. *)
Definition sample_queries : list string :=
  [ "Show salinity near equator in March 2023";
    "What's the temperature by depth?";
    "Show all March 2023 data";
    "Display surface water data";
    "Show deep water measurements";
    "Show data from float 1001" ].

(** What a user does: click a sample query of the sidebar, or submit a
    prompt in the chat input. *)
Inductive event :=
| Click (query : string)
| Submit (prompt : string).

(** A click appends the query to the history as a user message and reruns
    the page; the rerun has no chat input, so nothing is translated or
    executed. *)
Definition handle_event (E : SqlEngine) (describe : DataFrame -> string)
  (nl_parser : NaturalLanguageParser) (st : session E) (ev : event) : session E :=
  match ev with
  | Click query =>
      {| conn := conn st;
         messages := messages st
                     ++ [{| role := "user"; content := query; data := None |}] |}
  | Submit prompt => fst (chat_turn_drawn E describe nl_parser st prompt)
  end.

Definition run_events (E : SqlEngine) (describe : DataFrame -> string)
  (nl_parser : NaturalLanguageParser) (st : session E) (evs : list event)
  : session E :=
  fold_left (handle_event E describe nl_parser) evs st.

End Charts.

(** ** Start-up of the prototype service, backend/app/simple_main.py *)

Module Startup.

Local Open Scope string_scope.

(** The columns of [argo_floats] after the row id. *)
Record FloatData := {
  float_id : string;
  platform_number : string;
  project_name : string;
  pi_name : string;
  data_center : string;
  deployment_date : string;
  status : string;
  latitude : Q;
  longitude : Q;
  created_at : string
}.

(** The columns of [argo_profiles] after the row id. *)
Record ProfileData := {
  profile_float_id : string;
  profile_number : Z;
  cycle_number : Z;
  date_time : string;
  profile_latitude : Q;
  profile_longitude : Q;
  ocean_temperature : Q;
  salinity : Q;
  pressure : Q;
  profile_created_at : string
}.

(** The columns of [ocean_anomalies] after the row id. *)
Record AnomalyData := {
  anomaly_float_id : string;
  anomaly_type : string;
  description : string;
  severity : string;
  anomaly_latitude : Q;
  anomaly_longitude : Q;
  detected_at : string;
  confidence : Q
}.

(** The three tables of [argo_platform.db]; a row is its [INTEGER PRIMARY
    KEY] and its data. *)
Record Database := {
  argo_floats : list (Z * FloatData);
  argo_profiles : list (Z * ProfileData);
  ocean_anomalies : list (Z * AnomalyData)
}.

(** The row id given to a new row: one more than the largest in use. *)
Definition next_id {A : Type} (table : list (Z * A)) : Z :=
  (fold_right Z.max 0 (map fst table) + 1)%Z.

(** An insert into a table without uniqueness constraint. *)
Definition insert {A : Type} (row : A) (table : list (Z * A)) : list (Z * A) :=
  (table ++ [(next_id table, row)])%list.

(** [INSERT OR IGNORE INTO argo_floats]: [float_id] is [UNIQUE], and a row
    whose [float_id] is already there is dropped. *)
Definition insert_float_or_ignore (row : FloatData) (table : list (Z * FloatData))
  : list (Z * FloatData) :=
  if existsb (fun r => String.eqb (float_id (snd r)) (float_id row)) table
  then table
  else insert row table.

Definition sample_floats : list FloatData :=
  [ {| float_id := "ARGO_1001"; platform_number := "1001";
       project_name := "Global Ocean Monitoring"; pi_name := "Dr. Ocean Smith";
       data_center := "AOML"; deployment_date := "2023-01-15"; status := "active";
       latitude := 145.5; longitude := -25.3;
       created_at := "2023-01-15T10:00:00" |};
    {| float_id := "ARGO_1002"; platform_number := "1002";
       project_name := "Pacific Climate Study"; pi_name := "Dr. Marine Johnson";
       data_center := "PMEL"; deployment_date := "2023-02-20"; status := "active";
       latitude := 175.2; longitude := -35.7;
       created_at := "2023-02-20T10:00:00" |};
    {| float_id := "ARGO_1003"; platform_number := "1003";
       project_name := "Atlantic Research"; pi_name := "Dr. Deep Waters";
       data_center := "WHOI"; deployment_date := "2023-03-10"; status := "active";
       latitude := -45.8; longitude := 20.1;
       created_at := "2023-03-10T10:00:00" |} ].

Definition sample_profiles : list ProfileData :=
  [ {| profile_float_id := "ARGO_1001"; profile_number := 1; cycle_number := 1;
       date_time := "2023-01-20T12:00:00";
       profile_latitude := 145.6; profile_longitude := -25.4;
       ocean_temperature := 18.5; salinity := 35.2; pressure := 10.0;
       profile_created_at := "2023-01-20T12:00:00" |};
    {| profile_float_id := "ARGO_1002"; profile_number := 1; cycle_number := 1;
       date_time := "2023-02-25T12:00:00";
       profile_latitude := 175.3; profile_longitude := -35.8;
       ocean_temperature := 16.8; salinity := 34.8; pressure := 15.0;
       profile_created_at := "2023-02-25T12:00:00" |};
    {| profile_float_id := "ARGO_1003"; profile_number := 1; cycle_number := 1;
       date_time := "2023-03-15T12:00:00";
       profile_latitude := -45.7; profile_longitude := 20.2;
       ocean_temperature := 22.1; salinity := 36.5; pressure := 5.0;
       profile_created_at := "2023-03-15T12:00:00" |} ].

Definition sample_anomalies : list AnomalyData :=
  [ {| anomaly_float_id := "ARGO_1001"; anomaly_type := "temperature_spike";
       description := "Unusual temperature increase detected";
       severity := "medium"; anomaly_latitude := 145.6; anomaly_longitude := -25.4;
       detected_at := "2023-01-25T12:00:00"; confidence := 0.8 |};
    {| anomaly_float_id := "ARGO_1002"; anomaly_type := "salinity_drop";
       description := "Significant salinity decrease observed";
       severity := "high"; anomaly_latitude := 175.3; anomaly_longitude := -35.8;
       detected_at := "2023-02-28T12:00:00"; confidence := 0.9 |} ].

(** [init_database]: the tables exist already or are created empty, which
    is the same here; then the three loops of inserts.  The tables of
    profiles and anomalies have no uniqueness constraint besides the row
    id, so their [OR IGNORE] never applies. *)
Definition init_database (d : Database) : Database :=
  {| argo_floats := fold_left (fun t row => insert_float_or_ignore row t)
                      sample_floats (argo_floats d);
     argo_profiles := fold_left (fun t row => insert row t)
                        sample_profiles (argo_profiles d);
     ocean_anomalies := fold_left (fun t row => insert row t)
                          sample_anomalies (ocean_anomalies d) |}.

(** The database file before the first start. *)
Definition no_tables : Database :=
  {| argo_floats := []; argo_profiles := []; ocean_anomalies := [] |}.

(** The counts of [get_dashboard_data]. *)
Definition total_floats (d : Database) : nat := List.length (argo_floats d).
Definition active_floats (d : Database) : nat :=
  List.length (filter (fun r => String.eqb (status (snd r)) "active") (argo_floats d)).
Definition total_profiles (d : Database) : nat := List.length (argo_profiles d).
Definition recent_anomalies (d : Database) : nat := List.length (ocean_anomalies d).

End Startup.

(** ** Recent activity, backend/app/services/data_service.py *)

Module Activity.

Import PyStr Exn.
Local Open Scope string_scope.

(** A profile joined with its float, and an anomaly, as the two queries
    of [get_recent_activity] return them.  Times are numbers: the source
    compares ISO texts of one format, whose order is that of the times. *)
Record ProfileRow := {
  float_name : string;
  profile_created_at : Z;
  profile_latitude : Q;
  profile_longitude : Q
}.

Record AnomalyRow := {
  anomaly_type : string;
  severity : option string;
  anomaly_created_at : Z;
  anomaly_latitude : Q;
  anomaly_longitude : Q
}.

(** An entry of the result. *)
Record activity := {
  kind : string;
  description : string;
  timestamp : Z;
  location : Q * Q
}.

(** The session: the newest profiles, each read with the name of its
    float through [profile.float], and the newest anomalies, with the
    limit handed to the database.  An operation raises when the query or
    the reading of a row does. *)
Record Session := {
  session : Type;
  newest_profiles : Z -> session -> session * result (list ProfileRow);
  newest_anomalies : Z -> session -> session * result (list AnomalyRow)
}.

Definition profile_activity (p : ProfileRow) : activity :=
  {| kind := "new_profile";
     description := "New profile from float " ++ float_name p;
     timestamp := profile_created_at p;
     location := (profile_latitude p, profile_longitude p) |}.

(** [str(x)] of a nullable text. *)
Definition str_of_option (x : option string) : string :=
  match x with
  | Some s => s
  | None => "None"
  end.

Definition anomaly_activity (a : AnomalyRow) : activity :=
  {| kind := "anomaly_detected";
     description := anomaly_type a ++ " detected ("
                    ++ str_of_option (severity a) ++ " severity)";
     timestamp := anomaly_created_at a;
     location := (anomaly_latitude a, anomaly_longitude a) |}.

(** One step of [list.sort(key=timestamp, reverse=True)]: the sort is
    stable, so an entry goes before the entries that are not newer. *)
Fixpoint insert_desc (x : activity) (l : list activity) : list activity :=
  match l with
  | [] => [x]
  | y :: l' =>
      if (timestamp x <? timestamp y)%Z then y :: insert_desc x l'
      else x :: y :: l'
  end.

Definition sort_desc (l : list activity) : list activity :=
  fold_right insert_desc [] l.

(** [l[:limit]], also for a negative [limit]. *)
Definition slice_to {A : Type} (limit : Z) (l : list A) : list A :=
  if (0 <=? limit)%Z then firstn (Z.to_nat limit) l
  else firstn (List.length l - Z.to_nat (- limit)) l.

(** [DataService.get_recent_activity]; an exception of either query gives
    the empty list. *)
Definition get_recent_activity (S : Session) (db : session S) (limit : Z)
  : session S * list activity :=
  let (db1, profiles) := newest_profiles S (limit / 2) db in
  match profiles with
  | Raise _ => (db1, [])
  | Ok ps =>
      let (db2, anomalies) := newest_anomalies S (limit / 2) db1 in
      match anomalies with
      | Raise _ => (db2, [])
      | Ok ans =>
          (db2,
           slice_to limit
             (sort_desc (map profile_activity ps ++ map anomaly_activity ans)))
      end
  end.

End Activity.

(** ** Profiles, satellite and buoy records of the sample-data script *)

Module Script.

Import PyStr.
Local Open Scope string_scope.

(** [s.split(sep)] for a separator of one character. *)
Fixpoint split_on (sep : ascii) (s : string) : list string :=
  match s with
  | EmptyString => [EmptyString]
  | String c s' =>
      let rest := split_on sep s' in
      if Ascii.eqb c sep then EmptyString :: rest
      else
        match rest with
        | head :: tail => String c head :: tail
        | [] => [String c EmptyString]
        end
  end.

(** [s.replace(a, b)] for single characters. *)
Definition replace_char (a b : ascii) (s : string) : string :=
  map_chars (fun c => if Ascii.eqb c a then b else c) s.

(** [s.title()]: a letter that follows a letter is lowered, any other
    letter is raised. *)
Fixpoint title_from (after_letter : bool) (s : string) : string :=
  match s with
  | EmptyString => EmptyString
  | String c s' =>
      let letter := is_upper c || is_lower c in
      String (if letter then (if after_letter then lower_char c else upper_char c)
              else c)
        (title_from letter s')
  end.

Definition title (s : string) : string := title_from false s.

(** An entry of [self.regions]: its name and the bounds of latitude and
    longitude. *)
Record region := {
  region_name : string;
  lat_bounds : Z * Z;
  lon_bounds : Z * Z
}.

Definition regions : list region :=
  [ {| region_name := "north_atlantic"; lat_bounds := (40, 60); lon_bounds := (-60, -10) |};
    {| region_name := "south_atlantic"; lat_bounds := (-40, -10); lon_bounds := (-50, 10) |};
    {| region_name := "north_pacific"; lat_bounds := (20, 50); lon_bounds := (120, 180) |};
    {| region_name := "south_pacific"; lat_bounds := (-50, -20); lon_bounds := (120, 180) |};
    {| region_name := "indian_ocean"; lat_bounds := (-40, 20); lon_bounds := (40, 120) |};
    {| region_name := "southern_ocean"; lat_bounds := (-70, -40); lon_bounds := (-180, 180) |} ]%Z.

(** [self.float_ids]. *)
Definition float_ids : list string :=
  map (fun i => "ARGO_" ++ str_of_nat (1000 + i)) (seq 0 20).

Definition satellites : list string :=
  ["MODIS-Aqua"; "MODIS-Terra"; "VIIRS-SNPP"; "Sentinel-3A"; "Sentinel-3B"].

Definition data_types : list string := ["SST"; "chlorophyll"; "sea_level_anomaly"].

Record profile := {
  float_id : string;
  platform_number : string;
  profile_date : Z;
  latitude : Q;
  longitude : Q;
  cycle_number : Z;
  profile_type : string;
  data_mode : string;
  project_name : string;
  measurements : list Generator.measurement
}.

Record satellite_record := {
  satellite_name : string;
  instrument : string;
  data_type : string;
  measurement_date : Z;
  satellite_latitude : Q;
  satellite_longitude : Q;
  value : Q;
  unit : string;
  quality_level : string
}.

Record buoy_record := {
  buoy_id : string;
  buoy_type : string;
  buoy_date : Z;
  buoy_latitude : Q;
  buoy_longitude : Q;
  sea_surface_temperature : Q;
  air_temperature : Q;
  wind_speed : Q;
  wind_direction : Z;
  wave_height : Q;
  atmospheric_pressure : Q
}.

Section Sampling.

Variable G : Rand.generator.
(** [datetime.now()], counted in days for profiles and satellite
    records, in hours for buoy records. *)
Variable now : Z.
Local Open Scope rand_scope.

(** [random.choice(options)]: the draw picks a position of the list. *)
Definition pick {A : Type} (default : A) (options : list A) : Rand.rand G A :=
  i <- Rand.choice G (map Z.of_nat (seq 0 (List.length options))) ;;
  Rand.ret (nth (Z.to_nat i) options default).

(** [random.randint(a, b)], both ends included. *)
Definition randint_incl (a b : Z) : Rand.rand G Z := Rand.randint G a (b + 1).

Definition no_region : region :=
  {| region_name := ""; lat_bounds := (0, 0)%Z; lon_bounds := (0, 0)%Z |}.

(** The loop body of [generate_argo_profiles]. *)
Definition generate_argo_profile : Rand.rand G profile :=
  region <- pick no_region regions ;;
  float_id <- pick "" float_ids ;;
  days <- randint_incl 0 365 ;;
  latitude <- Rand.uniform G (inject_Z (fst (lat_bounds region)))
                (inject_Z (snd (lat_bounds region))) ;;
  longitude <- Rand.uniform G (inject_Z (fst (lon_bounds region)))
                 (inject_Z (snd (lon_bounds region))) ;;
  measurements <- Generator.generate_measurements G ;;
  cycle <- randint_incl 1 200 ;;
  mode <- pick "" ["R"; "D"] ;;
  Rand.ret {| float_id := float_id;
              platform_number := nth 1 (split_on "_" float_id) "";
              profile_date := now - days;
              latitude := Rand.round_to 4 latitude;
              longitude := Rand.round_to 4 longitude;
              cycle_number := cycle;
              profile_type := "primary";
              data_mode := mode;
              project_name :=
                title (replace_char "_" " " (region_name region)) ++ " Study";
              measurements := measurements |}.

(** [ARGODataGenerator.generate_argo_profiles]. *)
Definition generate_argo_profiles (num_profiles : nat) : Rand.rand G (list profile) :=
  Rand.draws num_profiles generate_argo_profile.

(** The loop body of [generate_satellite_data]. *)
Definition generate_satellite_record : Rand.rand G satellite_record :=
  latitude <- Rand.uniform G (-70) 70 ;;
  longitude <- Rand.uniform G (-180) 180 ;;
  days <- randint_incl 0 30 ;;
  satellite <- pick "" satellites ;;
  data_type <- pick "" data_types ;;
  value_unit <-
    (if String.eqb data_type "SST" then
       v <- Rand.uniform G (-2) 35 ;; Rand.ret (v, "Celsius")
     else if String.eqb data_type "chlorophyll" then
       v <- Rand.uniform G 0.1 10.0 ;; Rand.ret (v, "mg/m^3")
     else
       v <- Rand.uniform G (-0.5) 0.5 ;; Rand.ret (v, "meters")) ;;
  level <- pick "" ["L2"; "L3"] ;;
  Rand.ret {| satellite_name := satellite;
              instrument := nth 0 (split_on "-" satellite) "";
              data_type := data_type;
              measurement_date := now - days;
              satellite_latitude := Rand.round_to 4 latitude;
              satellite_longitude := Rand.round_to 4 longitude;
              value := Rand.round_to 2 (fst value_unit);
              unit := snd value_unit;
              quality_level := level |}.

(** [ARGODataGenerator.generate_satellite_data]. *)
Definition generate_satellite_data (num_records : nat)
  : Rand.rand G (list satellite_record) :=
  Rand.draws num_records generate_satellite_record.

(** The loop body of [generate_buoy_data]. *)
Definition generate_buoy_record : Rand.rand G buoy_record :=
  latitude <- Rand.uniform G (-60) 60 ;;
  longitude <- Rand.uniform G (-180) 180 ;;
  hours <- randint_incl 0 (24 * 7) ;;
  number <- randint_incl 10000 99999 ;;
  kind <- pick "" ["moored"; "drifting"] ;;
  sst <- Rand.uniform G 0 35 ;;
  air <- Rand.uniform G (-10) 40 ;;
  speed <- Rand.uniform G 0 25 ;;
  direction <- randint_incl 0 360 ;;
  wave <- Rand.uniform G 0 8 ;;
  pressure <- Rand.uniform G 980 1030 ;;
  Rand.ret {| buoy_id := "BUOY_" ++ str_of_Z number;
              buoy_type := kind;
              buoy_date := now - hours;
              buoy_latitude := Rand.round_to 4 latitude;
              buoy_longitude := Rand.round_to 4 longitude;
              sea_surface_temperature := Rand.round_to 2 sst;
              air_temperature := Rand.round_to 2 air;
              wind_speed := Rand.round_to 1 speed;
              wind_direction := direction;
              wave_height := Rand.round_to 1 wave;
              atmospheric_pressure := Rand.round_to 1 pressure |}.

(** [ARGODataGenerator.generate_buoy_data]. *)
Definition generate_buoy_data (num_records : nat) : Rand.rand G (list buoy_record) :=
  Rand.draws num_records generate_buoy_record.

End Sampling.

End Script.

(** ** Exceptions of the services *)

Module Raising.

Inductive error :=
| KeyError (key : string)
| TypeError
| ValueError
| AttributeError
| DataError
| IntegrityError (column : string)
| MultipleResultsFound.

Inductive outcome (A : Type) :=
| Done (a : A)
| Raised (e : error).

Arguments Done {A} a.
Arguments Raised {A} e.

Definition bind {A B : Type} (m : outcome A) (k : A -> outcome B) : outcome B :=
  match m with
  | Done a => k a
  | Raised e => Raised e
  end.

End Raising.

Declare Scope raising_scope.
Notation "x <~ m ;; k" := (Raising.bind m (fun x => k))
  (at level 61, m at next level, right associativity) : raising_scope.

(** ** Anomalies and alerts in the database, alert_service.py and models.py *)

Module AlertStore.

Import PyStr Raising Alerts.
Local Open Scope string_scope.

(** A row of [ocean_anomalies]: the columns that the detectors fill,
    and [location], a [Geometry('POINT')] declared [nullable=False]. *)
Record OceanAnomaly := {
  detected : Anomaly;
  location : option (R * R)
}.

Record User := {
  ident : string;
  email : string;
  full_name : option string;
  role : string;
  is_active : bool
}.

Record UserAlert := {
  alert_id : string;
  user_id : string;
  anomaly_id : option string;
  alert_type : string;
  message : string;
  is_read : bool;
  sent_at : Z
}.

Record Database := {
  measurements : list JoinedRow;
  ocean_anomalies : list OceanAnomaly;
  users : list User;
  user_alerts : list UserAlert
}.

(** The row that [OceanAnomaly] builds from the keys of a dictionary of
    a detector, which has no key [location]. *)
Definition new_OceanAnomaly (anomaly_data : Anomaly) : OceanAnomaly :=
  {| detected := anomaly_data; location := None |}.

Definition has_location (row : OceanAnomaly) : bool :=
  match location row with
  | Some _ => true
  | None => false
  end.

(** [db.commit()] with pending rows of [ocean_anomalies]: the insert
    is refused when a row has no value in a column that is not
    nullable. *)
Definition commit_anomalies (pending : list OceanAnomaly) (db : Database)
  : outcome Database :=
  if forallb has_location pending then
    Done {| measurements := measurements db;
            ocean_anomalies := ocean_anomalies db ++ pending;
            users := users db;
            user_alerts := user_alerts db |}
  else Raised (IntegrityError "location").

(** [timedelta(days=n)]; dates are counted in microseconds. *)
Definition timedelta_days (n : Z) : Z := (n * 86400000000)%Z.

(** The [where] clause of [_send_anomaly_alerts]. *)
Definition receives_alerts (u : User) : bool :=
  is_active u &&
  (String.eqb (role u) "scientist" || String.eqb (role u) "policymaker"
   || String.eqb (role u) "admin").

(** The two nested loops: for each user, for each anomaly. *)
Definition alerts_due {A : Type} (recipients : list User) (anomalies : list A)
  : list (User * A) :=
  flat_map (fun user => map (fun anomaly => (user, anomaly)) anomalies) recipients.

(** The entry of an alert in the answer of [get_user_alerts]. *)
Record AlertView := {
  view_id : string;
  view_alert_type : string;
  view_message : string;
  view_is_read : bool;
  view_sent_at : Z
}.

Definition view_of (alert : UserAlert) : AlertView :=
  {| view_id := alert_id alert;
     view_alert_type := alert_type alert;
     view_message := message alert;
     view_is_read := is_read alert;
     view_sent_at := sent_at alert |}.

(** [order_by(UserAlert.sent_at.desc())]; rows of equal date are kept
    in the order of the table. *)
Fixpoint insert_by {A : Type} (key : A -> Z) (x : A) (l : list A) : list A :=
  match l with
  | [] => [x]
  | y :: l' => if (key y <=? key x)%Z then x :: y :: l' else y :: insert_by key x l'
  end.

Definition order_by_desc {A : Type} (key : A -> Z) (l : list A) : list A :=
  fold_right (insert_by key) [] l.

(** [get_user_alerts]. *)
Definition get_user_alerts (user : string) (unread_only : bool) (db : Database)
  : list AlertView :=
  let of_user := filter (fun a => String.eqb (user_id a) user) (user_alerts db) in
  let selected :=
    if unread_only then filter (fun a => Bool.eqb (is_read a) false) of_user
    else of_user in
  map view_of (order_by_desc sent_at selected).

Definition selects (alert user : string) (a : UserAlert) : bool :=
  String.eqb (alert_id a) alert && String.eqb (user_id a) user.

Definition set_read (a : UserAlert) : UserAlert :=
  {| alert_id := alert_id a; user_id := user_id a; anomaly_id := anomaly_id a;
     alert_type := alert_type a; message := message a; is_read := true;
     sent_at := sent_at a |}.

(** [mark_alert_read]: [scalar_one_or_none] gives the row when exactly
    one is selected and no row when none is; with several it raises,
    and the handler returns [False] as well. *)
Definition mark_alert_read (alert user : string) (db : Database)
  : Database * bool :=
  match filter (selects alert user) (user_alerts db) with
  | [_] =>
      ({| measurements := measurements db;
          ocean_anomalies := ocean_anomalies db;
          users := users db;
          user_alerts :=
            map (fun a => if selects alert user a then set_read a else a)
              (user_alerts db) |},
       true)
  | _ => (db, false)
  end.

Section Service.

(** [uuid.uuid4()], as the identifier given to the row of a number;
    the f-string of the message, which renders the description and the
    position of an anomaly; [datetime.utcnow()]. *)
Variable uuid4 : nat -> string.
Variable render : Anomaly -> string.
Variable utcnow : Z.

Definition new_alert (number : nat) (due : User * Anomaly) : UserAlert :=
  {| alert_id := uuid4 number;
     user_id := ident (fst due);
     anomaly_id := None;
     alert_type := "anomaly_" ++ anomaly_type (snd due);
     message := render (snd due);
     is_read := false;
     sent_at := utcnow |}.

Fixpoint number_from {A B : Type} (f : nat -> A -> B) (start : nat) (l : list A)
  : list B :=
  match l with
  | [] => []
  | a :: l' => f start a :: number_from f (S start) l'
  end.

(** [_send_anomaly_alerts]; the e-mails leave the database as it is. *)
Definition _send_anomaly_alerts (anomalies : list Anomaly) (db : Database)
  : Database :=
  let recipients := filter receives_alerts (users db) in
  {| measurements := measurements db;
     ocean_anomalies := ocean_anomalies db;
     users := users db;
     user_alerts :=
       user_alerts db
       ++ number_from new_alert (List.length (user_alerts db))
            (alerts_due recipients anomalies) |}.

(** [run_anomaly_detection]: detect, add the rows, commit, alert;
    on an exception roll back. *)
Definition run_anomaly_detection (db : Database) : Database :=
  let seven_days_ago := (utcnow - timedelta_days 7)%Z in
  let temp_anomalies := _detect_temperature_anomalies (measurements db) seven_days_ago in
  let salinity_anomalies := _detect_salinity_anomalies (measurements db) seven_days_ago in
  let all_anomalies := (temp_anomalies ++ salinity_anomalies)%list in
  match commit_anomalies (map new_OceanAnomaly all_anomalies) db with
  | Done stored =>
      match all_anomalies with
      | [] => stored
      | _ :: _ => _send_anomaly_alerts all_anomalies stored
      end
  | Raised _ => db
  end.

End Service.

End AlertStore.

(** ** Ingestion, data_service.py and models.py *)

Module Ingestion.

Import PyStr Raising.
Import Prototype.
Local Open Scope string_scope.
Local Open Scope raising_scope.

(** A record of the request body. *)
Definition record : Type := list (string * json).

(** [key in record]. *)
Definition has_key (key : string) (r : record) : bool :=
  existsb (fun binding => String.eqb (fst binding) key) r.

(** [record[key]]. *)
Definition item (key : string) (r : record) : outcome json :=
  if has_key key r then Done (dict_get key r JNull) else Raised (KeyError key).

(** The truth value of a JSON value. *)
Definition truth (v : json) : bool :=
  match v with
  | JNull => false
  | JBool b => b
  | JNumber q => negb (Qeq_bool q 0)
  | JString s => negb (String.eqb s "")
  | JArray items => match items with [] => false | _ :: _ => true end
  | JObject members => match members with [] => false | _ :: _ => true end
  end.

Definition is_null (v : json) : bool :=
  match v with
  | JNull => true
  | _ => false
  end.

Record ArgoFloat := {
  float_id : string;
  platform_number : json;
  project_name : json;
  status : json;
  deployment_date : option Z
}.

(** [float_id] is the foreign key, standing for the float's row. *)
Record ArgoProfile := {
  profile_float : string;
  cycle_number : json;
  profile_date : Z;
  latitude : json;
  longitude : json;
  location : option (Q * Q);
  profile_type : json;
  data_mode : json
}.

(** [profile_id] is the number of the profile's row. *)
Record ArgoMeasurement := {
  profile_id : nat;
  pressure : json;
  depth : json;
  temperature : json;
  salinity : json;
  oxygen : json;
  ph : json;
  nitrate : json;
  quality_flag : json
}.

Record SatelliteData := {
  satellite_name : json;
  instrument : json;
  data_type : json;
  measurement_date : Z;
  satellite_latitude : json;
  satellite_longitude : json;
  satellite_location : option (Q * Q);
  value : json;
  unit : json;
  quality_level : json
}.

Record Tables := {
  argo_floats : list ArgoFloat;
  argo_profiles : list ArgoProfile;
  argo_measurements : list ArgoMeasurement;
  satellite_data : list SatelliteData
}.

Section Service.

(** [datetime.fromisoformat] on a string; [None] when it raises
    [ValueError]. *)
Variable fromisoformat : string -> option Z.

Definition parse_date (v : json) : outcome Z :=
  match v with
  | JString text =>
      match fromisoformat text with
      | Some date => Done date
      | None => Raised ValueError
      end
  | _ => Raised TypeError
  end.

(** [datetime.fromisoformat(record["deployment_date"]) if
    record.get("deployment_date") else None]. *)
Definition deployment_of (r : record) : outcome (option Z) :=
  if truth (dict_get "deployment_date" r JNull) then
    v <~ item "deployment_date" r ;;
    date <~ parse_date v ;;
    Done (Some date)
  else Done None.

Definition with_float (s : Tables) (float_obj : ArgoFloat) : Tables :=
  {| argo_floats := argo_floats s ++ [float_obj];
     argo_profiles := argo_profiles s;
     argo_measurements := argo_measurements s;
     satellite_data := satellite_data s |}.

(** [_get_or_create_float] on the tables of the open transaction.  The
    column [float_id] is text and not nullable: no row is found for
    [None], and the flush refuses the new row; a value that is neither
    text nor [None] cannot be compared with the column. *)
Definition _get_or_create_float (s : Tables) (r : record)
  : outcome (Tables * ArgoFloat) :=
  float_id_value <~ item "float_id" r ;;
  match float_id_value with
  | JString name =>
      match filter (fun f => String.eqb (float_id f) name) (argo_floats s) with
      | [float_obj] => Done (s, float_obj)
      | _ :: _ :: _ => Raised MultipleResultsFound
      | [] =>
          deployment <~ deployment_of r ;;
          let float_obj :=
            {| float_id := name;
               platform_number := dict_get "platform_number" r JNull;
               project_name := dict_get "project_name" r (JString "Unknown");
               status := dict_get "status" r (JString "active");
               deployment_date := deployment |} in
          Done (with_float s float_obj, float_obj)
      end
  | JNull =>
      deployment <~ deployment_of r ;;
      Raised (IntegrityError "float_id")
  | _ => Raised DataError
  end.

(** [db.flush()] with a pending profile: the columns that are not
    nullable. *)
Definition flush_profile (s : Tables) (profile_obj : ArgoProfile)
  : outcome (Tables * nat) :=
  if is_null (latitude profile_obj) then Raised (IntegrityError "latitude")
  else if is_null (longitude profile_obj) then Raised (IntegrityError "longitude")
  else
    match location profile_obj with
    | None => Raised (IntegrityError "location")
    | Some _ =>
        Done ({| argo_floats := argo_floats s;
                 argo_profiles := argo_profiles s ++ [profile_obj];
                 argo_measurements := argo_measurements s;
                 satellite_data := satellite_data s |},
              List.length (argo_profiles s))
    end.

(** [_create_profile]; the constructor is given no [location]. *)
Definition _create_profile (s : Tables) (float_obj : ArgoFloat) (r : record)
  : outcome (Tables * nat) :=
  date_value <~ item "profile_date" r ;;
  date <~ parse_date date_value ;;
  lat <~ item "latitude" r ;;
  lon <~ item "longitude" r ;;
  flush_profile s
    {| profile_float := float_id float_obj;
       cycle_number := dict_get "cycle_number" r (JNumber 1);
       profile_date := date;
       latitude := lat;
       longitude := lon;
       location := None;
       profile_type := dict_get "profile_type" r (JString "primary");
       data_mode := dict_get "data_mode" r (JString "R") |}.

(** The loop [for measurement in measurements] with a [.get] on each
    element: the elements of a list must be dictionaries; the elements
    of a string or of a dictionary are strings, which have no [.get];
    other values are not iterable. *)
Fixpoint dictionaries (items : list json) : outcome (list record) :=
  match items with
  | [] => Done []
  | JObject members :: rest =>
      others <~ dictionaries rest ;;
      Done (members :: others)
  | _ :: _ => Raised AttributeError
  end.

Definition iterate (measurements : json) : outcome (list record) :=
  match measurements with
  | JArray items => dictionaries items
  | JString text => if String.eqb text "" then Done [] else Raised AttributeError
  | JObject [] => Done []
  | JObject (_ :: _) => Raised AttributeError
  | _ => Raised TypeError
  end.

Definition new_measurement (profile : nat) (measurement : record) : ArgoMeasurement :=
  {| profile_id := profile;
     pressure := dict_get "pressure" measurement JNull;
     depth := dict_get "depth" measurement JNull;
     temperature := dict_get "temperature" measurement JNull;
     salinity := dict_get "salinity" measurement JNull;
     oxygen := dict_get "oxygen" measurement JNull;
     ph := dict_get "ph" measurement JNull;
     nitrate := dict_get "nitrate" measurement JNull;
     quality_flag := dict_get "quality_flag" measurement (JString "1") |}.

(** [_create_measurements]. *)
Definition _create_measurements (s : Tables) (profile : nat) (measurements : json)
  : outcome Tables :=
  rows <~ iterate measurements ;;
  Done {| argo_floats := argo_floats s;
          argo_profiles := argo_profiles s;
          argo_measurements :=
            argo_measurements s ++ map (new_measurement profile) rows;
          satellite_data := satellite_data s |}.

(** The loop of [ingest_argo_data]. *)
Fixpoint ingest_records (data : list record) (s : Tables) : outcome Tables :=
  match data with
  | [] => Done s
  | r :: rest =>
      found <~ _get_or_create_float s r ;;
      created <~ _create_profile (fst found) (snd found) r ;;
      s' <~ (if has_key "measurements" r then
               measurements <~ item "measurements" r ;;
               _create_measurements (fst created) (snd created) measurements
             else Done (fst created)) ;;
      ingest_records rest s'
  end.

(** [ingest_argo_data]: commit after the loop, roll back on an
    exception. *)
Definition ingest_argo_data (data : list record) (db : Tables) : Tables :=
  match ingest_records data db with
  | Done s => s
  | Raised _ => db
  end.

(** The rows that the loop of [ingest_satellite_data] adds. *)
Fixpoint satellite_rows (data : list record) : outcome (list SatelliteData) :=
  match data with
  | [] => Done []
  | r :: rest =>
      date_value <~ item "measurement_date" r ;;
      date <~ parse_date date_value ;;
      lat <~ item "latitude" r ;;
      lon <~ item "longitude" r ;;
      rows <~ satellite_rows rest ;;
      Done ({| satellite_name := dict_get "satellite_name" r JNull;
               instrument := dict_get "instrument" r JNull;
               data_type := dict_get "data_type" r JNull;
               measurement_date := date;
               satellite_latitude := lat;
               satellite_longitude := lon;
               satellite_location := None;
               value := dict_get "value" r JNull;
               unit := dict_get "unit" r JNull;
               quality_level := dict_get "quality_level" r (JString "L2") |}
            :: rows)
  end.

Definition satellite_complete (row : SatelliteData) : bool :=
  negb (is_null (satellite_name row)) &&
  negb (is_null (satellite_latitude row)) &&
  negb (is_null (satellite_longitude row)) &&
  match satellite_location row with
  | Some _ => true
  | None => false
  end.

(** [db.commit()] with pending satellite rows. *)
Definition commit_satellite (pending : list SatelliteData) (s : Tables)
  : outcome Tables :=
  if forallb satellite_complete pending then
    Done {| argo_floats := argo_floats s;
            argo_profiles := argo_profiles s;
            argo_measurements := argo_measurements s;
            satellite_data := satellite_data s ++ pending |}
  else Raised (IntegrityError "satellite_data").

(** [ingest_satellite_data]. *)
Definition ingest_satellite_data (data : list record) (db : Tables) : Tables :=
  match (rows <~ satellite_rows data ;; commit_satellite rows db) with
  | Done s => s
  | Raised _ => db
  end.

End Service.

End Ingestion.

(** ** The dashboard summary, data_service.py *)

Module Dashboard.

Import PyStr.
Local Open Scope string_scope.

(** The columns that the summary reads: the status of each float, the
    date of each profile, the start date of each anomaly. *)
Record Tables := {
  float_status : list (option string);
  profile_dates : list Z;
  anomaly_starts : list Z
}.

(** A session: its tables, and whether the statement of a given number
    in a call is answered or raises. *)
Record Session := {
  tables : Tables;
  answers : nat -> bool
}.

(** [db.execute(select(func.count(...)).where(...))] followed by
    [result.scalar() or 0], as the statement of number [k]. *)
Definition count_where {A : Type} (db : Session) (k : nat)
  (table : Tables -> list A) (condition : A -> bool) : option Z :=
  if answers db k
  then Some (Z.of_nat (List.length (filter condition (table (tables db)))))
  else None.

Definition and_then {A B : Type} (m : option A) (k : A -> option B) : option B :=
  match m with
  | Some a => k a
  | None => None
  end.

(** The dictionary returned; of [key_indicators] the keys are kept. *)
Record Summary := {
  total_floats : Z;
  active_floats : Z;
  total_profiles : Z;
  recent_profiles : Z;
  data_sources : list string;
  recent_anomalies : Z;
  system_health : string;
  research_datasets : option Z;
  quality_controlled_data : option Z;
  alert_level : option string;
  key_indicators : option (list string)
}.

Definition sources : list string := ["ARGO Floats"; "Satellite"; "Buoys"; "Gliders"].

(** The dictionary of the [except] branch. *)
Definition fallback : Summary :=
  {| total_floats := 1523;
     active_floats := 1247;
     total_profiles := 145623;
     recent_profiles := 3421;
     data_sources := sources;
     recent_anomalies := 12;
     system_health := "healthy";
     research_datasets := None;
     quality_controlled_data := None;
     alert_level := None;
     key_indicators := None |}.

Definition is_active (status : option string) : bool :=
  match status with
  | Some text => String.eqb text "active"
  | None => false
  end.

(** [get_dashboard_summary]; [int(n * 0.85)] on rationals. *)
Definition get_dashboard_summary (utcnow : Z) (db : Session) (user_role : string)
  : Summary :=
  let thirty_days_ago := (utcnow - AlertStore.timedelta_days 30)%Z in
  let summary :=
    and_then (count_where db 0 float_status (fun _ => true)) (fun floats =>
    and_then (count_where db 1 float_status is_active) (fun active =>
    and_then (count_where db 2 profile_dates (fun _ => true)) (fun profiles =>
    and_then (count_where db 3 profile_dates
                (fun date => (thirty_days_ago <=? date)%Z)) (fun recent =>
    and_then (count_where db 4 anomaly_starts
                (fun date => (thirty_days_ago <=? date)%Z)) (fun anomalies =>
    let scientist := String.eqb user_role "scientist" in
    let policymaker := negb scientist && String.eqb user_role "policymaker" in
    Some {| total_floats := floats;
            active_floats := active;
            total_profiles := profiles;
            recent_profiles := recent;
            data_sources := sources;
            recent_anomalies := anomalies;
            system_health := "healthy";
            research_datasets := if scientist then Some profiles else None;
            quality_controlled_data :=
              if scientist then Some (Qfloor (inject_Z profiles * 0.85)) else None;
            alert_level := if policymaker then Some "normal" else None;
            key_indicators :=
              if policymaker
              then Some ["ocean_temperature_trend"; "sea_level_trend"]
              else None |}))))) in
  match summary with
  | Some s => s
  | None => fallback
  end.

End Dashboard.

(* ===================================================================== *)
(** * Part II: properties                                                 *)
(* ===================================================================== *)

(** ** Substrings *)

Module PyStrFacts.

Import PyStr.
Local Open Scope string_scope.

(** [k] occurs in [s]: some text, then [k], then some text. *)
Definition occurs (k s : string) : Prop :=
  exists a b, s = a ++ k ++ b.

Lemma prefix_spec (k s : string) :
  prefix k s = true <-> exists b, s = k ++ b.
Proof.
  revert s; induction k as [|c k IH]; intros s; simpl.
  - destruct s; split; intros _; try reflexivity; eexists; reflexivity.
  - destruct s as [|d s]; simpl.
    + split; [discriminate | intros [b Hb]; discriminate].
    + destruct (ascii_dec c d) as [->|Hcd].
      * rewrite IH. split; intros [b Hb]; exists b.
        -- now rewrite Hb.
        -- now inversion Hb.
      * split; [discriminate|]. intros [b Hb]. inversion Hb. congruence.
Qed.

Lemma contains_nil (k : string) : contains k "" = prefix k "".
Proof. reflexivity. Qed.

Lemma contains_cons (k : string) (c : ascii) (s : string) :
  contains k (String c s) = prefix k (String c s) || contains k s.
Proof. reflexivity. Qed.

Lemma contains_spec (k s : string) :
  contains k s = true <-> occurs k s.
Proof.
  unfold occurs. induction s as [|c s IH].
  - rewrite contains_nil, prefix_spec. split.
    + intros [b Hb]. exists "", b. exact Hb.
    + intros [a [b Hab]]. destruct a as [|x a]; simpl in Hab.
      * now exists b.
      * discriminate.
  - rewrite contains_cons, orb_true_iff, IH, prefix_spec. split.
    + intros [[b Hb]|[a [b Hab]]].
      * exists "", b. exact Hb.
      * exists (String c a), b. simpl. now rewrite Hab.
    + intros [a [b Hab]]. destruct a as [|x a]; simpl in Hab.
      * left. now exists b.
      * right. inversion Hab. now exists a, b.
Qed.

Lemma contains_false (k s : string) :
  contains k s = false <-> ~ occurs k s.
Proof.
  rewrite <- contains_spec. destruct (contains k s); split; intros H;
    try reflexivity; try discriminate; try (intros E; discriminate).
  exfalso. now apply H.
Qed.


End PyStrFacts.

(** ** First match in a list *)

Section FirstMatch.

Variable A : Type.
Variable hit : A -> bool.




End FirstMatch.


(** ** The demo parser on the sample queries *)

Example parse_march :
  Demo.parse_query Demo.init_parser "Show all March 2023 data"
  = "SELECT * FROM argo_data WHERE time LIKE '%2023-03%'"%string.
Proof. reflexivity. Qed.

Example parse_float_1001 :
  Demo.parse_query Demo.init_parser "Show data from float 1001"
  = "SELECT * FROM argo_data WHERE float_id = 1001"%string.
Proof. reflexivity. Qed.

Example parse_salinity_float :
  Demo.parse_query Demo.init_parser "salinity float 1"
  = "SELECT * FROM argo_data WHERE float_id = 1"%string.
Proof. reflexivity. Qed.

Example parse_float_placeholder :
  Demo.parse_query Demo.init_parser "show floats"
  = "SELECT * FROM argo_data WHERE float_id = {float_id}"%string.
Proof. reflexivity. Qed.

(** ** The float-id pattern *)

Module FloatId.

Import PyStr.
Local Open Scope string_scope.

(** Every character of the string satisfies [p]. *)
Fixpoint all_chars (p : ascii -> bool) (s : string) : bool :=
  match s with
  | EmptyString => true
  | String c s' => p c && all_chars p s'
  end.

(** The text holds [float], then white space, then digits [ds]. *)
Definition names_float (s ds : string) : Prop :=
  exists before ws rest,
    s = before ++ "float" ++ ws ++ ds ++ rest /\
    ws <> "" /\ all_chars is_space ws = true /\
    ds <> "" /\ all_chars is_digit ds = true.

Lemma strip_prefix_spec (p s r : string) :
  strip_prefix p s = Some r <-> s = p ++ r.
Proof.
  revert s. induction p as [|a p IH]; intros s; simpl.
  - split; [now intros [= ->]|now intros ->].
  - destruct s as [|b s].
    + split; discriminate.
    + destruct (Ascii.eqb_spec a b) as [->|Hab].
      * rewrite IH. split; [now intros ->|now intros [= ->]].
      * split; [discriminate|]. intros [= E _]. congruence.
Qed.

Lemma span_spec (p : ascii -> bool) (s : string) :
  s = fst (span p s) ++ snd (span p s) /\ all_chars p (fst (span p s)) = true.
Proof.
  induction s as [|c s [IH1 IH2]]; simpl; [now split|].
  destruct (p c) eqn:Hc; [|now split].
  destruct (span p s) as [a b]. simpl in *. rewrite Hc, IH2.
  split; [now rewrite IH1 at 1|reflexivity].
Qed.

Lemma span_all (p : ascii -> bool) (a b : string) :
  all_chars p a = true ->
  (b = "" \/ exists c b', b = String c b' /\ p c = false) ->
  span p (a ++ b) = (a, b).
Proof.
  intros Ha Hb. induction a as [|x a IH]; simpl in *.
  - destruct Hb as [->|(c & b' & -> & Hc)]; simpl; [reflexivity|now rewrite Hc].
  - apply andb_true_iff in Ha. destruct Ha as [Hx Ha].
    rewrite Hx, (IH Ha). reflexivity.
Qed.

Lemma digit_not_space (c : ascii) : is_digit c = true -> is_space c = false.
Proof.
  unfold is_digit, is_space. intros H.
  apply andb_true_iff in H. destruct H as [H1 H2].
  apply Nat.leb_le in H1, H2.
  apply orb_false_iff. split; apply andb_false_iff;
    right; apply Nat.leb_gt; lia.
Qed.



Lemma match_float_at_complete (ws ds rest : string) :
  ws <> "" -> all_chars is_space ws = true ->
  ds <> "" -> all_chars is_digit ds = true ->
  Demo.match_float_at ("float" ++ ws ++ ds ++ rest) <> None.
Proof.
  intros Hws Hsp Hds Hdg. unfold Demo.match_float_at.
  rewrite (proj2 (strip_prefix_spec "float" _ (ws ++ ds ++ rest)) eq_refl).
  destruct ds as [|d ds]; [congruence|]. cbn [all_chars] in Hdg.
  apply andb_true_iff in Hdg. destruct Hdg as [Hd Hdg].
  rewrite (span_all is_space ws (String d ds ++ rest) Hsp).
  - destruct ws; [congruence|]. cbn. rewrite Hd.
    destruct (span is_digit (ds ++ rest)). cbn. discriminate.
  - right. exists d, (ds ++ rest). split; [reflexivity|].
    now apply digit_not_space.
Qed.

(** A text that holds [float], white space and digits is answered by the
    search. *)
Lemma search_float_complete (s ds : string) :
  names_float s ds -> Demo.search_float s <> None.
Proof.
  intros (before & ws & rest & -> & Hws & Hsp & Hds & Hdg).
  induction before as [|c before IH].
  - pose proof (match_float_at_complete ws ds rest Hws Hsp Hds Hdg) as H.
    change ("" ++ "float" ++ ws ++ ds ++ rest) with ("float" ++ ws ++ ds ++ rest).
    destruct ("float" ++ ws ++ ds ++ rest) as [|x y] eqn:E; [discriminate|].
    cbn [Demo.search_float].
    destruct (Demo.match_float_at (String x y)); [discriminate|congruence].
  - change (String c before ++ "float" ++ ws ++ ds ++ rest)
      with (String c (before ++ "float" ++ ws ++ ds ++ rest)).
    cbn [Demo.search_float].
    destruct (Demo.match_float_at _); [discriminate|exact IH].
Qed.

(** *** The first number *)

(** The text is over, or goes on with a character that is not a digit. *)
Definition no_digit_ahead (rest : string) : Prop :=
  rest = "" \/ exists c r, rest = String c r /\ is_digit c = false.

(** [ds] is the number that [re.search] captures: it stands at the
    leftmost place where the text holds [float], white space and
    digits, and it is the whole run of digits there. *)
Definition first_float_number (s ds : string) : Prop :=
  exists before ws rest,
    s = before ++ "float" ++ ws ++ ds ++ rest /\
    ws <> "" /\ all_chars is_space ws = true /\
    ds <> "" /\ all_chars is_digit ds = true /\
    no_digit_ahead rest /\
    forall before' ws' ds' rest',
      s = before' ++ "float" ++ ws' ++ ds' ++ rest' ->
      ws' <> "" -> all_chars is_space ws' = true ->
      ds' <> "" -> all_chars is_digit ds' = true ->
      (String.length before <= String.length before')%nat.

Lemma span_rest (p : ascii -> bool) (s : string) :
  snd (span p s) = "" \/
  exists c r, snd (span p s) = String c r /\ p c = false.
Proof.
  induction s as [|c s IH]; simpl; [now left|].
  destruct (p c) eqn:Hc.
  - destruct (span p s) as [a b]. exact IH.
  - right. exists c, s. now split.
Qed.

Lemma match_float_at_whole (s ds : string) :
  Demo.match_float_at s = Some ds ->
  exists ws rest,
    s = "float" ++ ws ++ ds ++ rest /\
    ws <> "" /\ all_chars is_space ws = true /\
    ds <> "" /\ all_chars is_digit ds = true /\
    no_digit_ahead rest.
Proof.
  unfold Demo.match_float_at.
  destruct (strip_prefix "float" s) as [r|] eqn:Hr; [|discriminate].
  apply strip_prefix_spec in Hr.
  pose proof (span_spec is_space r) as [Hr1 Hws].
  destruct (span is_space r) as [ws r1]. cbn [fst snd] in *.
  destruct ws as [|w ws]; [discriminate|].
  pose proof (span_spec is_digit r1) as [Hr2 Hds].
  pose proof (span_rest is_digit r1) as Hrest.
  destruct (fst (span is_digit r1)) as [|d ds'] eqn:Hd; [discriminate|].
  intros [= <-]. exists (String w ws), (snd (span is_digit r1)).
  split; [now rewrite <- Hr2, <- Hr1|].
  repeat split; try discriminate; trivial.
Qed.

Lemma app_same_length (a b x y : string) :
  a ++ x = b ++ y -> String.length a = String.length b -> a = b /\ x = y.
Proof.
  revert b. induction a as [|c a IH]; intros [|d b] H L; simpl in *;
    try discriminate.
  - now split.
  - injection H as -> H. injection L as L.
    destruct (IH b H L) as [-> ->]. now split.
Qed.

(** The number found by the search is the first one. *)
Lemma search_float_first (s ds : string) :
  Demo.search_float s = Some ds -> first_float_number s ds.
Proof.
  induction s as [|c s IH].
  - cbn. discriminate.
  - cbn [Demo.search_float].
    destruct (Demo.match_float_at (String c s)) as [ds'|] eqn:Hm.
    + intros [= <-]. apply match_float_at_whole in Hm.
      destruct Hm as (ws & rest & E & Hws & Hsp & Hds & Hdg & Hrest).
      exists "", ws, rest. repeat split; trivial.
      intros. simpl. lia.
    + intros H.
      destruct (IH H) as (before & ws & rest & -> & Hws & Hsp & Hds & Hdg & Hrest & Hleft).
      exists (String c before), ws, rest. repeat split; trivial.
      intros before' ws' ds' rest' E Hws' Hsp' Hds' Hdg'.
      destruct before' as [|c' before'].
      * exfalso.
        change ("" ++ "float" ++ ws' ++ ds' ++ rest')
          with ("float" ++ ws' ++ ds' ++ rest') in E.
        apply (match_float_at_complete ws' ds' rest' Hws' Hsp' Hds' Hdg').
        rewrite <- E. exact Hm.
      * simpl in E. injection E as _ E. simpl.
        apply le_n_S. exact (Hleft before' ws' ds' rest' E Hws' Hsp' Hds' Hdg').
Qed.

(** A text has one first number at most. *)
Lemma first_float_number_unique (s ds1 ds2 : string) :
  first_float_number s ds1 -> first_float_number s ds2 -> ds1 = ds2.
Proof.
  intros (b1 & ws1 & r1 & E1 & Hws1 & Hsp1 & Hds1 & Hdg1 & Hr1 & L1)
         (b2 & ws2 & r2 & E2 & Hws2 & Hsp2 & Hds2 & Hdg2 & Hr2 & L2).
  pose proof (L1 b2 ws2 ds2 r2 E2 Hws2 Hsp2 Hds2 Hdg2) as L12.
  pose proof (L2 b1 ws1 ds1 r1 E1 Hws1 Hsp1 Hds1 Hdg1) as L21.
  rewrite E1 in E2.
  destruct (app_same_length _ _ _ _ E2 ltac:(lia)) as [_ E].
  simpl in E. injection E as E.
  assert (S1 : span is_space (ws1 ++ ds1 ++ r1) = (ws1, ds1 ++ r1)).
  { apply span_all; [exact Hsp1|]. right.
    destruct ds1 as [|d ds1]; [congruence|]. exists d, (ds1 ++ r1).
    split; [reflexivity|]. apply digit_not_space.
    simpl in Hdg1. now apply andb_true_iff in Hdg1. }
  assert (S2 : span is_space (ws2 ++ ds2 ++ r2) = (ws2, ds2 ++ r2)).
  { apply span_all; [exact Hsp2|]. right.
    destruct ds2 as [|d ds2]; [congruence|]. exists d, (ds2 ++ r2).
    split; [reflexivity|]. apply digit_not_space.
    simpl in Hdg2. now apply andb_true_iff in Hdg2. }
  rewrite E, S2 in S1. injection S1 as _ E'.
  pose proof (span_all is_digit ds1 r1 Hdg1 Hr1) as D1.
  pose proof (span_all is_digit ds2 r2 Hdg2 Hr2) as D2.
  rewrite <- E', D2 in D1. now injection D1.
Qed.

(** The search finds the first number, and nothing else. *)
Lemma search_float_spec (s ds : string) :
  Demo.search_float s = Some ds <-> first_float_number s ds.
Proof.
  split; [apply search_float_first|]. intros H.
  assert (Hn : names_float s ds).
  { destruct H as (b & ws & r & E & Hws & Hsp & Hds & Hdg & _).
    now exists b, ws, r. }
  apply search_float_complete in Hn.
  destruct (Demo.search_float s) as [ds'|] eqn:E; [|congruence].
  f_equal. apply (first_float_number_unique s); [|exact H].
  now apply search_float_first.
Qed.

End FloatId.

(** ** Keyword matching decides the translation *)

Module Translation.

Import PyStr PyStrFacts.
Local Open Scope string_scope.











(** *** The categories of the prototype service *)




Ltac split_tests :=
  repeat match goal with
    | |- context [if ?b then _ else _] => destruct b
    end.


(** *** The float-id shortcut *)








(** In a text with several numbers the statement carries the first one,
    whole: 12, and neither 7 nor 1. *)
Example first_of_two_numbers :
  Demo.parse_query Demo.init_parser "Float 12 or float 7?" = Demo.float_query "12" /\
  FloatId.first_float_number (lower "Float 12 or float 7?") "12" /\
  ~ FloatId.first_float_number (lower "Float 12 or float 7?") "7" /\
  ~ FloatId.first_float_number (lower "Float 12 or float 7?") "1".
Proof.
  assert (H : FloatId.first_float_number (lower "Float 12 or float 7?") "12")
    by (apply FloatId.search_float_first; reflexivity).
  split; [reflexivity|]. split; [exact H|].
  split; intros H'; pose proof (FloatId.first_float_number_unique _ _ _ H H');
    discriminate.
Qed.

End Translation.

(** ** The chat turn: what is shown, what is answered, what is stored *)

Module Chat.

Import PyStr PyStrFacts Exn.
Local Open Scope string_scope.

(** A small engine over a table of rows, to exercise the statements on:
    a [SELECT] returns the table unless the text still holds a brace,
    anything else clears the table and fails. *)
Definition table_engine : Demo.SqlEngine :=
  {| Demo.database := list (list Q);
     Demo.read_sql_query := fun sql d =>
       if Demo.is_select sql then
         if contains "{" sql then (d, inr "unrecognized token")
         else (d, inl {| Demo.columns := Demo.column_names; Demo.records := d |})
       else ([], inr "not a query") |}.

(** The engine changes nothing when it runs a [SELECT]. *)
Definition select_reads_only (E : Demo.SqlEngine) : Prop :=
  forall sql d,
    Demo.is_select sql = true -> fst (Demo.read_sql_query E sql d) = d.

(** The result shown no rows: the frame is absent or empty. *)
Definition no_rows (df : option Demo.DataFrame) : Prop :=
  df = None \/ exists d, df = Some d /\ Demo.empty d = true.

(** The rule as the specification words it, for one execution result:
    a no-data message whenever the frame is absent or empty. *)
Definition no_data_rule (describe : Demo.DataFrame -> string) (prompt : string)
  (result : option Demo.DataFrame * option string) : Prop :=
  no_rows (fst result) ->
  Demo.content (Demo.respond describe prompt result) = Demo.no_data_response.

Lemma scan_patterns_in (ps : list (string * Demo.pattern_info)) (q sql : string) :
  Demo.scan_patterns ps q = Some sql ->
  exists e, In e ps /\ sql = Demo.sql_template (snd e).
Proof.
  induction ps as [|[name info] ps IH]; simpl; [discriminate|].
  destruct (Demo.keyword_hit (Demo.keywords info) q).
  - intros E. inversion E. exists (name, info). split; [now left|reflexivity].
  - intros E. destruct (IH E) as (e & He & Hsql). exists e. split; [now right|exact Hsql].
Qed.

Lemma templates_are_select :
  forall e, In e (Demo.patterns Demo.init_parser) ->
            Demo.is_select (Demo.sql_template (snd e)) = true.
Proof.
  intros e He. simpl in He.
  repeat (destruct He as [<-|He]; [reflexivity|]). destruct He.
Qed.

Lemma parse_query_is_select (user_query : string) :
  Demo.is_select (Demo.parse_query Demo.init_parser user_query) = true.
Proof.
  unfold Demo.parse_query.
  destruct (Demo.search_float (lower user_query)) as [float_id|].
  - reflexivity.
  - destruct (Demo.scan_patterns _ _) as [sql|] eqn:Hscan.
    + apply scan_patterns_in in Hscan. destruct Hscan as (e & He & ->).
      now apply templates_are_select.
    + reflexivity.
Qed.

Lemma chat_turn_conn (E : Demo.SqlEngine) (describe : Demo.DataFrame -> string)
  (self : Demo.NaturalLanguageParser) (st : Demo.session E) (prompt : string) :
  Demo.conn (fst (Demo.chat_turn E describe self st prompt))
  = fst (Demo.read_sql_query E (Demo.parse_query self prompt) (Demo.conn st)).
Proof.
  unfold Demo.chat_turn, Demo.execute_query.
  destruct (Demo.read_sql_query E _ _) as [c [df|e]]; reflexivity.
Qed.

Lemma table_engine_reads_only : select_reads_only table_engine.
Proof.
  intros sql d Hsel. simpl. rewrite Hsel.
  now destruct (contains "{" sql).
Qed.

(** C8.  Every SQL string the demo parser returns starts with [SELECT];
    hence, on an engine whose [SELECT]s change nothing, a chat turn leaves
    the database as it was, whatever the prompt. *)
Theorem demo_dataset_unchanged :
  (forall user_query,
      Demo.is_select (Demo.parse_query Demo.init_parser user_query) = true) /\
  (forall (E : Demo.SqlEngine),
      select_reads_only E ->
      forall (describe : Demo.DataFrame -> string) (st : Demo.session E)
             (prompt : string),
        Demo.conn (fst (Demo.chat_turn E describe Demo.init_parser st prompt))
        = Demo.conn st).
Proof.
  split.
  - exact parse_query_is_select.
  - intros E HE describe st prompt. rewrite chat_turn_conn.
    apply HE, parse_query_is_select.
Qed.

Lemma demo_dataset_unchanged_witness :
  Demo.conn (fst (Demo.chat_turn table_engine (fun _ => "summary")
                    Demo.init_parser
                    {| Demo.conn := [[1001%Q; 3%Q]] : Demo.database table_engine;
                       Demo.messages := [] |}
                    "show floats"))
  = [[1001%Q; 3%Q]].
Proof.
  exact (proj2 demo_dataset_unchanged table_engine table_engine_reads_only
           (fun _ => "summary")
           {| Demo.conn := [[1001%Q; 3%Q]] : Demo.database table_engine;
              Demo.messages := [] |}
           "show floats").
Defined.

(** A failed execution returns no frame and the text of the exception;
    the answer is then the error message, not a no-data message. *)
Lemma no_data_rule_fails_on_error :
  ~ no_data_rule (fun _ => "summary") "show floats"
      (None, Some "unrecognized token").
Proof.
  unfold no_data_rule. intros H.
  assert (Hrows : no_rows (fst (@None Demo.DataFrame, Some "unrecognized token")))
    by now left.
  specialize (H Hrows). vm_compute in H. discriminate H.
Qed.

(** C4 (amended).  When execution reports no error (the error is [None]
    or the empty string) and the frame is absent or empty, the chat
    handler answers "No data found matching your criteria."; the summary
    of an absent or empty frame is "No data found for your query."; when
    execution reports an error text, the handler answers with the error
    message built from that text.  [respond] is a total function: each
    case produces a message. *)
Theorem empty_result_no_data
  (describe : Demo.DataFrame -> string) (prompt : string)
  (df : option Demo.DataFrame) (error : option string) :
  (Demo.truthy error = false -> no_rows df ->
   Demo.respond describe prompt (df, error)
   = {| Demo.role := "assistant"; Demo.content := Demo.no_data_response;
        Demo.data := None |}) /\
  (no_rows df ->
   Demo.generate_ai_summary describe df prompt = Demo.no_data_summary) /\
  (Demo.truthy error = true ->
   Demo.respond describe prompt (df, error)
   = {| Demo.role := "assistant";
        Demo.content := "Sorry, there was an error processing your query: "
                        ++ Demo.error_text error;
        Demo.data := None |}).
Proof.
  unfold Demo.respond, Demo.generate_ai_summary. repeat split.
  - intros -> [->|(d & -> & ->)]; reflexivity.
  - intros [->|(d & -> & ->)]; reflexivity.
  - now intros ->.
Qed.

Lemma empty_result_no_data_witness :
  Demo.content (Demo.respond (fun _ => "summary") "deep water"
                  (Some {| Demo.columns := Demo.column_names; Demo.records := [] |},
                   None))
    = "No data found matching your criteria." /\
  Demo.generate_ai_summary (fun _ => "summary") None "deep water"
    = "No data found for your query." /\
  Demo.content (Demo.respond (fun _ => "summary") "show floats"
                  (None, Some "unrecognized token"))
    = "Sorry, there was an error processing your query: unrecognized token".
Proof.
  split; [|split].
  - rewrite (proj1 (empty_result_no_data (fun _ => "summary") "deep water"
                      (Some {| Demo.columns := Demo.column_names; Demo.records := [] |})
                      None) eq_refl).
    + reflexivity.
    + right. eexists. split; reflexivity.
  - apply (proj1 (proj2 (empty_result_no_data (fun _ => "summary") "deep water"
                           None None))).
    now left.
  - rewrite (proj2 (proj2 (empty_result_no_data (fun _ => "summary") "show floats"
                             None (Some "unrecognized token"))) eq_refl).
    reflexivity.
Defined.

(** The demo turn on "show floats" with [table_engine]: the parser hands
    back the float template with its placeholder, execution fails, and the
    answer is the error message. *)
Example show_floats_turn :
  Demo.messages
    (fst (Demo.chat_turn table_engine (fun _ => "summary") Demo.init_parser
            {| Demo.conn := [] : Demo.database table_engine; Demo.messages := [] |}
            "show floats"))
  = [ {| Demo.role := "user"; Demo.content := "show floats"; Demo.data := None |};
      {| Demo.role := "assistant";
         Demo.content :=
           "Sorry, there was an error processing your query: unrecognized token";
         Demo.data := None |} ].
Proof. reflexivity. Qed.

End Chat.

(** ** The prototype login *)

Module Login.

Import PyStr Exn.
Local Open Scope string_scope.

(** The role and display name that the email text selects. *)
Definition role_for_email (e : string) : string * string :=
  if contains "scientist" e then ("scientist", "Dr. Ocean Scientist")
  else if contains "policy" e then ("policy_maker", "Policy Maker")
  else if contains "student" e then ("student", "Marine Student")
  else ("scientist", "Demo User").

(** With a string under [email], or no [email] at all, the login
    succeeds: the role follows the substrings of the email in the order
    scientist, policy, student, and the token is [demo_token_] followed
    by the role. *)
Lemma login_accepts_string_email (credentials : list (string * Prototype.json))
  (e : string) :
  Prototype.dict_get "email" credentials (Prototype.JString "") = Prototype.JString e ->
  Prototype.login credentials
  = Ok {| Prototype.user :=
            {| Prototype.id := "demo_" ++ fst (role_for_email e);
               Prototype.email := e;
               Prototype.full_name := snd (role_for_email e);
               Prototype.user_role := fst (role_for_email e) |};
          Prototype.access_token := "demo_token_" ++ fst (role_for_email e);
          Prototype.token_type := "bearer" |}.
Proof.
  unfold Prototype.login, role_for_email. intros ->. simpl.
  destruct (contains "scientist" e); [reflexivity|].
  destruct (contains "policy" e); [reflexivity|].
  destruct (contains "student" e); reflexivity.
Qed.

Example login_without_email :
  Prototype.login [("password", Prototype.JString "x")]
  = Ok {| Prototype.user :=
            {| Prototype.id := "demo_scientist"; Prototype.email := "";
               Prototype.full_name := "Demo User";
               Prototype.user_role := "scientist" |};
          Prototype.access_token := "demo_token_scientist";
          Prototype.token_type := "bearer" |}.
Proof. reflexivity. Qed.

(** C10 (the code at the failing input).  The credentials dictionary
    whose [email] is JSON [null] makes the first substring test raise
    [TypeError]: the endpoint answers with an error instead of a login.
    A list under [email] passes the tests and fails when the user record
    is built. *)
Theorem login_raises_on_null_email :
  Prototype.login [("email", Prototype.JNull)] = Raise TypeError /\
  Prototype.login [("email", Prototype.JArray [Prototype.JString "scientist"])]
  = Raise ValidationError.
Proof. split; reflexivity. Qed.

End Login.

(** ** The anomaly detector *)

Module AlertFacts.

Import Alerts.
Local Open Scope R_scope.

(** *** Severity *)

(** The order [low < medium < high < extreme]. *)
Definition rank (s : severity) : nat :=
  match s with
  | low => 0
  | medium => 1
  | high => 2
  | extreme => 3
  end.

(** C3.  For a fixed standard deviation and deviations [d1 >= d2 >= 0],
    the severity of [d1] is at least the severity of [d2] in the order
    [low < medium < high < extreme]. *)
Theorem severity_monotone (std_dev d1 d2 : R) :
  0 <= d2 -> d2 <= d1 ->
  (rank (_calculate_severity d2 std_dev) <= rank (_calculate_severity d1 std_dev))%nat.
Proof.
  intros H0 Hle. unfold _calculate_severity.
  destruct (Rlt_dec (3 * std_dev) d2), (Rlt_dec (3 * std_dev) d1),
    (Rlt_dec (2 * std_dev) d2), (Rlt_dec (2 * std_dev) d1),
    (Rlt_dec (1.5 * std_dev) d2), (Rlt_dec (1.5 * std_dev) d1);
    simpl; try lia; exfalso; lra.
Qed.

Lemma severity_monotone_witness :
  0 <= 1.6 /\ 1.6 <= 2.5 /\
  (rank (_calculate_severity 1.6 1) <= rank (_calculate_severity 2.5 1))%nat.
Proof.
  split; [lra|]. split; [lra|].
  apply (severity_monotone 1 2.5 1.6); lra.
Defined.

Example severity_tiers :
  _calculate_severity 1.6 1 = medium /\ _calculate_severity 2.5 1 = high /\
  _calculate_severity 3.5 1 = extreme /\ _calculate_severity 1.5 1 = low.
Proof.
  unfold _calculate_severity. repeat split;
    repeat match goal with
      | |- context [Rlt_dec ?a ?b] => destruct (Rlt_dec a b); try lra
      end; reflexivity.
Qed.

(** *** Grouping by cell *)

Lemma cell_eqb_eq (a b : cell) : cell_eqb a b = true <-> a = b.
Proof.
  destruct a as [a1 a2], b as [b1 b2]. unfold cell_eqb; simpl.
  rewrite andb_true_iff, !Z.eqb_eq. split.
  - now intros [-> ->].
  - intros E. now inversion E.
Qed.

Lemma cell_eqb_refl (a : cell) : cell_eqb a a = true.
Proof. now apply cell_eqb_eq. Qed.

Lemma cell_eqb_sym (a b : cell) : cell_eqb a b = cell_eqb b a.
Proof.
  destruct (cell_eqb a b) eqn:E1, (cell_eqb b a) eqn:E2; trivial.
  - apply cell_eqb_eq in E1. subst. now rewrite cell_eqb_refl in E2.
  - apply cell_eqb_eq in E2. subst. now rewrite cell_eqb_refl in E1.
Qed.

(** The measurement falls into the cell. *)
Definition in_cell (c : cell) (m : Measurement) : bool := cell_eqb (cell_of m) c.

(** The entry belongs to another cell. *)
Definition other_key (c : cell) (e : cell * list Measurement) : bool :=
  negb (cell_eqb (fst e) c).

(** The dictionary after the grouping loop, by recursion on the
    measurements: the cell of the first one comes first, with all its
    members; the other cells follow as they do for the rest. *)
Fixpoint grouped (ms : list Measurement) : list (cell * list Measurement) :=
  match ms with
  | [] => []
  | m :: ms' =>
      (cell_of m, m :: filter (in_cell (cell_of m)) ms')
        :: filter (other_key (cell_of m)) (grouped ms')
  end.

Lemma filter_other_key_cons (c k : cell) (g : list Measurement)
  (gs : list (cell * list Measurement)) :
  filter (other_key c) ((k, g) :: gs)
  = if cell_eqb k c then filter (other_key c) gs
    else (k, g) :: filter (other_key c) gs.
Proof.
  cbn [filter]. unfold other_key at 1. cbn [fst].
  now destruct (cell_eqb k c).
Qed.

Lemma other_key_add_same (c : cell) (m : Measurement)
  (gs : list (cell * list Measurement)) :
  filter (other_key c) (add_to_group c m gs) = filter (other_key c) gs.
Proof.
  induction gs as [|[k g] gs IH]; cbn [add_to_group].
  - rewrite filter_other_key_cons, cell_eqb_refl. reflexivity.
  - destruct (cell_eqb k c) eqn:Hk.
    + rewrite !filter_other_key_cons, Hk. reflexivity.
    + rewrite !filter_other_key_cons, Hk, IH. reflexivity.
Qed.

Lemma other_key_add_other (c key : cell) (m : Measurement)
  (gs : list (cell * list Measurement)) :
  cell_eqb c key = false ->
  filter (other_key c) (add_to_group key m gs)
  = add_to_group key m (filter (other_key c) gs).
Proof.
  intros Hc. assert (Hc' : cell_eqb key c = false) by now rewrite cell_eqb_sym.
  induction gs as [|[k g] gs IH]; cbn [add_to_group].
  - rewrite filter_other_key_cons, Hc'. reflexivity.
  - destruct (cell_eqb k key) eqn:Hk.
    + assert (k = key) by now apply cell_eqb_eq. subst k.
      rewrite !filter_other_key_cons, Hc'. cbn [add_to_group].
      now rewrite cell_eqb_refl.
    + rewrite !filter_other_key_cons.
      destruct (cell_eqb k c).
      * exact IH.
      * cbn [add_to_group]. now rewrite Hk, IH.
Qed.

Lemma add_grouped (m : Measurement) (ms : list Measurement) :
  add_to_group (cell_of m) m (grouped ms) = grouped (ms ++ [m]).
Proof.
  induction ms as [|m1 ms IH]; [reflexivity|].
  cbn [grouped app add_to_group]. rewrite <- IH, filter_app.
  cbn [filter].
  replace (in_cell (cell_of m1) m) with (cell_eqb (cell_of m1) (cell_of m))
    by (unfold in_cell; apply cell_eqb_sym).
  destruct (cell_eqb (cell_of m1) (cell_of m)) eqn:Hk.
  - assert (E : cell_of m1 = cell_of m) by now apply cell_eqb_eq.
    rewrite E, other_key_add_same. reflexivity.
  - rewrite other_key_add_other by exact Hk. now rewrite app_nil_r.
Qed.

Lemma fold_grouped (ms2 ms1 : list Measurement) :
  fold_left (fun groups m => add_to_group (cell_of m) m groups) ms2 (grouped ms1)
  = grouped (ms1 ++ ms2).
Proof.
  revert ms1. induction ms2 as [|m ms2 IH]; intros ms1; simpl.
  - now rewrite app_nil_r.
  - rewrite add_grouped, IH, <- app_assoc. reflexivity.
Qed.

Lemma location_groups_grouped (ms : list Measurement) :
  location_groups ms = grouped ms.
Proof. unfold location_groups. exact (fold_grouped ms []). Qed.

(** The distinct cells of a list, in order of first appearance. *)
Fixpoint distinct_cells (l : list cell) : list cell :=
  match l with
  | [] => []
  | c :: l' => c :: filter (fun c' => negb (cell_eqb c' c)) (distinct_cells l')
  end.

(** The occupied cells of the grid. *)
Definition cells (ms : list Measurement) : list cell :=
  distinct_cells (map cell_of ms).

(** The measurements of one cell. *)
Definition members (ms : list Measurement) (c : cell) : list Measurement :=
  filter (in_cell c) ms.

Lemma filter_map_entry (f : cell -> list Measurement) (c1 : cell) (l : list cell) :
  filter (other_key c1) (map (fun c => (c, f c)) l)
  = map (fun c => (c, f c)) (filter (fun c' => negb (cell_eqb c' c1)) l).
Proof.
  induction l as [|c l IH]; simpl; [reflexivity|].
  unfold other_key at 1; simpl.
  destruct (cell_eqb c c1); simpl; now rewrite IH.
Qed.

(** Each occupied cell once, with exactly its members. *)
Lemma grouped_members (ms : list Measurement) :
  grouped ms = map (fun c => (c, members ms c)) (cells ms).
Proof.
  unfold cells, members. induction ms as [|m ms IH]; simpl; [reflexivity|].
  unfold in_cell at 2. rewrite cell_eqb_refl. f_equal.
  rewrite IH, filter_map_entry. apply map_ext_in.
  intros c Hc. apply filter_In in Hc. destruct Hc as [_ Hc].
  unfold in_cell at 2. rewrite (cell_eqb_sym (cell_of m) c).
  apply negb_true_iff in Hc. now rewrite Hc.
Qed.

Lemma in_distinct_cells (c : cell) (l : list cell) :
  In c (distinct_cells l) <-> In c l.
Proof.
  induction l as [|c1 l IH]; simpl; [tauto|].
  rewrite filter_In, IH. split.
  - intros [H|[H _]]; auto.
  - intros [H|H]; auto.
    destruct (cell_eqb c c1) eqn:E.
    + left. apply cell_eqb_eq in E. now subst.
    + right. now split.
Qed.

Lemma filter_distinct_nodup (p : cell -> bool) (l : list cell) :
  NoDup l -> NoDup (filter p l).
Proof.
  induction 1 as [|x l Hx Hl IH]; simpl; [constructor|].
  destruct (p x); [|exact IH]. constructor; [|exact IH].
  rewrite filter_In. tauto.
Qed.

Lemma distinct_cells_nodup (l : list cell) : NoDup (distinct_cells l).
Proof.
  induction l as [|c l IH]; simpl; constructor.
  - rewrite filter_In, cell_eqb_refl. simpl. intros [_ H]. discriminate.
  - now apply filter_distinct_nodup.
Qed.

(** A cell is occupied when some measurement rounds to it. *)
Lemma in_cells (ms : list Measurement) (c : cell) :
  In c (cells ms) <-> exists m, In m ms /\ cell_of m = c.
Proof.
  unfold cells. rewrite in_distinct_cells, in_map_iff.
  split; intros (m & H1 & H2); exists m; tauto.
Qed.

(** *** Detection follows the deviation rule *)

Definition values (ms : list Measurement) : list R := map m_value ms.

(** How far the mean of a cell lies from the mean of all measurements. *)
Definition cell_deviation (ms : list Measurement) (c : cell) : R :=
  np_mean (values (members ms c)) - np_mean (values ms).

(** The cell deviates by more than [k] standard deviations. *)
Definition flagged (k : R) (ms : list Measurement) (c : cell) : Prop :=
  k * np_std (values ms) < Rabs (cell_deviation ms c).

Definition flaggedb (k : R) (ms : list Measurement) (c : cell) : bool :=
  if Rlt_dec (k * np_std (values ms)) (Rabs (cell_deviation ms c))
  then true else false.

Lemma flaggedb_spec (k : R) (ms : list Measurement) (c : cell) :
  flaggedb k ms c = true <-> flagged k ms c.
Proof.
  unfold flaggedb, flagged.
  destruct (Rlt_dec _ _); split; trivial; try discriminate. contradiction.
Qed.

(** The anomaly reported for a cell. *)
Definition anomaly_of (v : variable) (ms : list Measurement) (c : cell) : Anomaly :=
  make_anomaly v (np_std (values ms)) c (members ms c) (cell_deviation ms c).

(** The rule in the words of the specification: one anomaly for each
    occupied cell that deviates by more than [multiplier] standard
    deviations, and for no other. *)
Definition flagged_cells (v : variable) (ms : list Measurement) : list Anomaly :=
  map (anomaly_of v ms) (filter (flaggedb (multiplier v) ms) (cells ms)).

Lemma check_members (v : variable) (ms : list Measurement) (l : list cell) :
  flat_map (check_group v (np_mean (values ms)) (np_std (values ms)))
    (map (fun c => (c, members ms c)) l)
  = map (anomaly_of v ms) (filter (flaggedb (multiplier v) ms) l).
Proof.
  induction l as [|c l IH]; [reflexivity|].
  cbn [map flat_map filter]. rewrite IH.
  unfold check_group at 1, flaggedb at 2, cell_deviation, values.
  destruct (Rlt_dec _ _); reflexivity.
Qed.

Lemma detect_small (v : variable) (ms : list Measurement) :
  (List.length ms < 10)%nat -> detect v ms = [].
Proof.
  intros H. unfold detect. apply Nat.ltb_lt in H. now rewrite H.
Qed.

Lemma detect_large (v : variable) (ms : list Measurement) :
  (10 <= List.length ms)%nat -> detect v ms = flagged_cells v ms.
Proof.
  intros H. unfold detect, flagged_cells.
  destruct (Nat.ltb_spec (List.length ms) 10) as [Hlt|_]; [lia|].
  rewrite location_groups_grouped, grouped_members.
  apply check_members.
Qed.

(** With ten measurements or more, an anomaly is emitted exactly for the
    occupied cells that deviate, one for each. *)
Lemma detect_in (v : variable) (ms : list Measurement) (a : Anomaly) :
  (10 <= List.length ms)%nat ->
  In a (detect v ms)
  <-> exists c, In c (cells ms) /\ flagged (multiplier v) ms c /\ a = anomaly_of v ms c.
Proof.
  intros H. rewrite (detect_large v ms H). unfold flagged_cells.
  rewrite in_map_iff. split.
  - intros (c & <- & Hc). apply filter_In in Hc. destruct Hc as [Hc Hf].
    exists c. repeat split; trivial. now apply flaggedb_spec.
  - intros (c & Hc & Hf & ->). exists c. split; trivial.
    apply filter_In. split; trivial. now apply flaggedb_spec.
Qed.

(** Whatever the number of measurements, an emitted anomaly comes from a
    group whose deviation passed the test of the detector. *)
Lemma detect_emitted (v : variable) (ms : list Measurement) (a : Anomaly) :
  In a (detect v ms) ->
  exists std dev,
    multiplier v * std < Rabs dev /\
    anomaly_severity a = _calculate_severity (Rabs dev) std.
Proof.
  unfold detect. destruct (List.length ms <? 10)%nat; [intros []|].
  intros H. apply in_flat_map in H. destruct H as ([key group] & _ & H).
  unfold check_group in H.
  destruct (Rlt_dec _ _) as [Hlt|_]; [|destruct H].
  destruct H as [<-|[]]. eexists. eexists. split; [exact Hlt|reflexivity].
Qed.

(** The rule without the size condition, for the temperature detector on
    one table. *)
Definition temperature_rule (table : list JoinedRow) (since_date : Z) : Prop :=
  _detect_temperature_anomalies table since_date
  = flagged_cells temperature_variable (surface_query temperature since_date table).

(** *** Concrete seas *)

Lemma py_round_IZR (z : Z) : py_round (IZR z) = z.
Proof.
  unfold py_round. rewrite ZfloorZ.
  destruct (Rlt_dec (IZR z - IZR z) (1 / 2)) as [_|H]; [reflexivity|].
  exfalso. apply H. lra.
Qed.

(** A surface reading at integer coordinates on day 0, and the row that
    stores it (the value under both variables). *)
Definition reading (t : cell * R) : Measurement :=
  let '(la, lo, x) := t in
  {| m_latitude := IZR la; m_longitude := IZR lo; m_profile_date := 0;
     m_value := x; m_depth := 0 |}.

Definition stored (t : cell * R) : JoinedRow :=
  let '(la, lo, x) := t in
  {| latitude := IZR la; longitude := IZR lo; profile_date := 0;
     temperature := Some x; salinity := Some x; depth := Some 0 |}.

Lemma surface_query_stored (l : list (cell * R)) :
  surface_query temperature 0 (map stored l) = map reading l /\
  surface_query salinity 0 (map stored l) = map reading l.
Proof.
  induction l as [|[[la lo] x] l [IHt IHs]]; [split; reflexivity|].
  cbn [map]. unfold surface_query in *. cbn [flat_map]. rewrite IHt, IHs.
  cbn. destruct (Rle_dec 0 10) as [_|H]; [split; reflexivity|]. exfalso. lra.
Qed.

Lemma cell_of_reading (t : cell * R) : cell_of (reading t) = fst t.
Proof.
  destruct t as [[la lo] x]. unfold cell_of. cbn.
  now rewrite !py_round_IZR.
Qed.

Lemma cells_readings (l : list (cell * R)) :
  cells (map reading l) = distinct_cells (map fst l).
Proof.
  unfold cells. rewrite map_map. f_equal. apply map_ext. exact cell_of_reading.
Qed.

Lemma members_readings (l : list (cell * R)) (c : cell) :
  members (map reading l) c = map reading (filter (fun t => cell_eqb (fst t) c) l).
Proof.
  unfold members. induction l as [|t l IH]; [reflexivity|].
  cbn [map filter]. unfold in_cell at 1. rewrite cell_of_reading, IH.
  destruct (cell_eqb (fst t) c); reflexivity.
Qed.

Lemma values_readings (l : list (cell * R)) :
  values (map reading l) = map snd l.
Proof.
  unfold values. rewrite map_map. apply map_ext. now intros [[la lo] x].
Qed.

Lemma np_mean_IZR (xs : list R) :
  np_mean xs = fold_right Rplus 0 xs / IZR (Z.of_nat (List.length xs)).
Proof. unfold np_mean. now rewrite INR_IZR_INZ. Qed.

Definition calm : cell * R := ((0, 0)%Z, 0).

(** Nine readings: eight at 0 degrees in one cell, one at 9 degrees in
    another.  Mean 1, standard deviation [sqrt 8]. *)
Definition nine : list (cell * R) :=
  [calm; calm; calm; calm; calm; calm; calm; calm; ((5, 5)%Z, 9)].

(** Ten readings: nine at 0 degrees in one cell, one at 10 degrees in
    another.  Mean 1, standard deviation 3. *)
Definition ten : list (cell * R) :=
  [calm; calm; calm; calm; calm; calm; calm; calm; calm; ((5, 5)%Z, 10)].

Lemma nine_mean : np_mean (map snd nine) = 1.
Proof. rewrite np_mean_IZR. cbn. lra. Qed.

Lemma nine_std : np_std (map snd nine) = sqrt 8.
Proof.
  unfold np_std. rewrite nine_mean. f_equal.
  rewrite np_mean_IZR. cbn. rewrite <- !Rsqr_abs. unfold Rsqr. lra.
Qed.

Lemma sqrt_8_lt_4 : sqrt 8 < 4.
Proof.
  replace 4 with (sqrt (Rsqr 4)) by (apply sqrt_Rsqr; lra).
  apply sqrt_lt_1_alt. unfold Rsqr. lra.
Qed.

Lemma nine_flagged : flagged 2 (map reading nine) (5, 5)%Z.
Proof.
  unfold flagged, cell_deviation.
  rewrite members_readings, !values_readings, nine_std, nine_mean.
  cbn. rewrite np_mean_IZR. cbn.
  replace ((9 + 0) / 1 - 1) with 8 by lra. rewrite Rabs_pos_eq by lra.
  pose proof sqrt_8_lt_4. lra.
Qed.

Lemma ten_mean : np_mean (map snd ten) = 1.
Proof. rewrite np_mean_IZR. cbn. lra. Qed.

Lemma ten_std : np_std (map snd ten) = 3.
Proof.
  unfold np_std. rewrite ten_mean.
  replace (np_mean _) with (Rsqr 3).
  - apply sqrt_Rsqr. lra.
  - rewrite np_mean_IZR. cbn. rewrite <- !Rsqr_abs. unfold Rsqr. lra.
Qed.

Lemma ten_deviation : cell_deviation (map reading ten) (5, 5)%Z = 9.
Proof.
  unfold cell_deviation.
  rewrite members_readings, !values_readings, ten_mean.
  cbn. rewrite np_mean_IZR. cbn. lra.
Qed.

Lemma ten_flagged (k : R) : k <= 2 -> flagged k (map reading ten) (5, 5)%Z.
Proof.
  intros Hk. unfold flagged.
  rewrite ten_deviation, values_readings, ten_std, Rabs_pos_eq by lra. lra.
Qed.

Lemma ten_hot_cell : In (5, 5)%Z (cells (map reading ten)).
Proof. rewrite cells_readings. cbn. auto. Qed.

(** On the ten readings the temperature detector reports the hot cell,
    with severity high: 9 degrees over a standard deviation of 3. *)
Example ten_detected :
  In (anomaly_of temperature_variable (map reading ten) (5, 5)%Z)
     (_detect_temperature_anomalies (map stored ten) 0) /\
  anomaly_severity (anomaly_of temperature_variable (map reading ten) (5, 5)%Z)
  = high.
Proof.
  split.
  - unfold _detect_temperature_anomalies.
    rewrite (proj1 (surface_query_stored ten)).
    apply detect_in; [cbn; lia|].
    exists (5, 5)%Z. repeat split; [exact ten_hot_cell|].
    apply ten_flagged. cbn. lra.
  - unfold anomaly_of, make_anomaly, anomaly_severity.
    rewrite ten_deviation, values_readings, ten_std, Rabs_pos_eq by lra.
    unfold _calculate_severity.
    destruct (Rlt_dec (3 * 3) 9); [lra|].
    destruct (Rlt_dec (2 * 3) 9); [reflexivity|lra].
Qed.

(** On the nine readings the hot cell deviates by more than two standard
    deviations, and the detector, which wants ten measurements, reports
    nothing. *)
Lemma temperature_rule_fails_below_ten :
  ~ temperature_rule (map stored nine) 0.
Proof.
  unfold temperature_rule, _detect_temperature_anomalies.
  rewrite (proj1 (surface_query_stored nine)).
  rewrite detect_small by (cbn; lia).
  intros H.
  assert (Hin : In (anomaly_of temperature_variable (map reading nine) (5, 5)%Z)
                   (flagged_cells temperature_variable (map reading nine))).
  { unfold flagged_cells. apply in_map. apply filter_In. split.
    - rewrite cells_readings. cbn. auto.
    - apply flaggedb_spec. exact nine_flagged. }
  rewrite <- H in Hin. destruct Hin.
Qed.

(** C9.  Every anomaly emitted by the temperature detector has severity
    high or extreme, and every anomaly emitted by the salinity detector
    has severity medium, high or extreme: the label low is never
    emitted. *)
Theorem detected_severity_not_low
  (table : list JoinedRow) (since_date : Z) (a : Anomaly) :
  (In a (_detect_temperature_anomalies table since_date) ->
   anomaly_severity a = high \/ anomaly_severity a = extreme) /\
  (In a (_detect_salinity_anomalies table since_date) ->
   anomaly_severity a = medium \/ anomaly_severity a = high
   \/ anomaly_severity a = extreme).
Proof.
  unfold _detect_temperature_anomalies, _detect_salinity_anomalies.
  split; intros H; apply detect_emitted in H;
    destruct H as (std & dev & Hlt & ->); cbn in Hlt;
    unfold _calculate_severity;
    destruct (Rlt_dec (3 * std) (Rabs dev)); auto;
    destruct (Rlt_dec (2 * std) (Rabs dev)); auto;
    try (exfalso; lra);
    destruct (Rlt_dec (1.5 * std) (Rabs dev)); auto;
    exfalso; lra.
Qed.

Lemma detected_severity_not_low_witness :
  (anomaly_severity (anomaly_of temperature_variable (map reading ten) (5, 5)%Z) = high
   \/ anomaly_severity (anomaly_of temperature_variable (map reading ten) (5, 5)%Z)
      = extreme) /\
  (anomaly_severity (anomaly_of salinity_variable (map reading ten) (5, 5)%Z) = medium
   \/ anomaly_severity (anomaly_of salinity_variable (map reading ten) (5, 5)%Z) = high
   \/ anomaly_severity (anomaly_of salinity_variable (map reading ten) (5, 5)%Z)
      = extreme).
Proof.
  split.
  - apply (proj1 (detected_severity_not_low (map stored ten) 0 _)).
    exact (proj1 ten_detected).
  - apply (proj2 (detected_severity_not_low (map stored ten) 0 _)).
    unfold _detect_salinity_anomalies.
    rewrite (proj2 (surface_query_stored ten)).
    apply detect_in; [cbn; lia|].
    exists (5, 5)%Z. repeat split; [exact ten_hot_cell|].
    apply ten_flagged. cbn. lra.
Defined.

End AlertFacts.

(** ** The detectors in the arithmetic of the program *)

Module DetectionFacts.

Import Detection.

Section Grouping.

Variable A : Arithmetic.

(** The keyed measurement falls into the cell. *)
Definition keyed_in (c : Alerts.cell) (km : Alerts.cell * Measurement A) : bool :=
  Alerts.cell_eqb (fst km) c.

(** The entry belongs to another cell. *)
Definition keyed_other (c : Alerts.cell) (e : Alerts.cell * list (Measurement A))
  : bool :=
  negb (Alerts.cell_eqb (fst e) c).

(** The dictionary after the grouping loop, by recursion on the keyed
    measurements. *)
Fixpoint regrouped (keyed : list (Alerts.cell * Measurement A))
  : list (Alerts.cell * list (Measurement A)) :=
  match keyed with
  | [] => []
  | km :: rest =>
      (fst km, snd km :: map snd (filter (keyed_in (fst km)) rest))
        :: filter (keyed_other (fst km)) (regrouped rest)
  end.

Lemma keyed_other_cons (c k : Alerts.cell) (g : list (Measurement A))
  (gs : list (Alerts.cell * list (Measurement A))) :
  filter (keyed_other c) ((k, g) :: gs)
  = if Alerts.cell_eqb k c then filter (keyed_other c) gs
    else (k, g) :: filter (keyed_other c) gs.
Proof.
  cbn [filter]. unfold keyed_other at 1. cbn [fst].
  now destruct (Alerts.cell_eqb k c).
Qed.

Lemma keyed_add_same (c : Alerts.cell) (m : Measurement A)
  (gs : list (Alerts.cell * list (Measurement A))) :
  filter (keyed_other c) (add_to_group A c m gs) = filter (keyed_other c) gs.
Proof.
  induction gs as [|[k g] gs IH]; cbn [add_to_group].
  - now rewrite keyed_other_cons, AlertFacts.cell_eqb_refl.
  - destruct (Alerts.cell_eqb k c) eqn:Hk.
    + now rewrite !keyed_other_cons, Hk.
    + now rewrite !keyed_other_cons, Hk, IH.
Qed.

Lemma keyed_add_other (c key : Alerts.cell) (m : Measurement A)
  (gs : list (Alerts.cell * list (Measurement A))) :
  Alerts.cell_eqb c key = false ->
  filter (keyed_other c) (add_to_group A key m gs)
  = add_to_group A key m (filter (keyed_other c) gs).
Proof.
  intros Hc.
  assert (Hc' : Alerts.cell_eqb key c = false)
    by now rewrite AlertFacts.cell_eqb_sym.
  induction gs as [|[k g] gs IH]; cbn [add_to_group].
  - now rewrite keyed_other_cons, Hc'.
  - destruct (Alerts.cell_eqb k key) eqn:Hk.
    + assert (k = key) by now apply AlertFacts.cell_eqb_eq. subst k.
      rewrite !keyed_other_cons, Hc'. cbn [add_to_group].
      now rewrite AlertFacts.cell_eqb_refl.
    + rewrite !keyed_other_cons.
      destruct (Alerts.cell_eqb k c); [exact IH|].
      cbn [add_to_group]. now rewrite Hk, IH.
Qed.

Lemma regrouped_add (km : Alerts.cell * Measurement A)
  (keyed : list (Alerts.cell * Measurement A)) :
  add_to_group A (fst km) (snd km) (regrouped keyed) = regrouped (keyed ++ [km]).
Proof.
  induction keyed as [|km1 keyed IH]; [reflexivity|].
  cbn [regrouped app add_to_group]. rewrite <- IH, filter_app, map_app.
  cbn [filter map].
  replace (keyed_in (fst km1) km) with (Alerts.cell_eqb (fst km1) (fst km))
    by (unfold keyed_in; apply AlertFacts.cell_eqb_sym).
  destruct (Alerts.cell_eqb (fst km1) (fst km)) eqn:Hk; cbn [map].
  - assert (E : fst km1 = fst km) by now apply AlertFacts.cell_eqb_eq.
    rewrite E, keyed_add_same. reflexivity.
  - rewrite keyed_add_other by exact Hk. now rewrite app_nil_r.
Qed.

Lemma regrouped_fold (keyed2 keyed1 : list (Alerts.cell * Measurement A)) :
  fold_left (fun groups km => add_to_group A (fst km) (snd km) groups)
    keyed2 (regrouped keyed1)
  = regrouped (keyed1 ++ keyed2).
Proof.
  revert keyed1. induction keyed2 as [|km keyed2 IH]; intros keyed1; simpl.
  - now rewrite app_nil_r.
  - now rewrite regrouped_add, IH, <- app_assoc.
Qed.

Lemma location_groups_regrouped (keyed : list (Alerts.cell * Measurement A)) :
  location_groups A keyed = regrouped keyed.
Proof. unfold location_groups. exact (regrouped_fold keyed []). Qed.

(** The occupied cells, in order of first appearance, and the
    measurements of one cell. *)
Definition cells (keyed : list (Alerts.cell * Measurement A)) : list Alerts.cell :=
  AlertFacts.distinct_cells (map fst keyed).

Definition members (keyed : list (Alerts.cell * Measurement A)) (c : Alerts.cell)
  : list (Measurement A) :=
  map snd (filter (keyed_in c) keyed).

Lemma keyed_filter_entries (f : Alerts.cell -> list (Measurement A))
  (c1 : Alerts.cell) (l : list Alerts.cell) :
  filter (keyed_other c1) (map (fun c => (c, f c)) l)
  = map (fun c => (c, f c)) (filter (fun c' => negb (Alerts.cell_eqb c' c1)) l).
Proof.
  induction l as [|c l IH]; simpl; [reflexivity|].
  unfold keyed_other at 1; simpl.
  destruct (Alerts.cell_eqb c c1); simpl; now rewrite IH.
Qed.

(** Each occupied cell once, with exactly its members. *)
Lemma regrouped_members (keyed : list (Alerts.cell * Measurement A)) :
  regrouped keyed = map (fun c => (c, members keyed c)) (cells keyed).
Proof.
  unfold cells, members. induction keyed as [|km keyed IH]; simpl; [reflexivity|].
  unfold keyed_in at 2. rewrite AlertFacts.cell_eqb_refl. cbn [map]. f_equal.
  rewrite IH, keyed_filter_entries. apply map_ext_in.
  intros c Hc. apply filter_In in Hc. destruct Hc as [_ Hc].
  unfold keyed_in at 2. rewrite (AlertFacts.cell_eqb_sym (fst km) c).
  apply negb_true_iff in Hc. now rewrite Hc.
Qed.

(** A keyed list holds the measurements in their order, each with the
    cell it rounds to. *)
Lemma located_keys (ms : list (Measurement A))
  (keyed : list (Alerts.cell * Measurement A)) :
  located A ms = Some keyed ->
  map snd keyed = ms /\
  Forall (fun km =>
            round A (m_latitude (snd km)) = Some (fst (fst km)) /\
            round A (m_longitude (snd km)) = Some (snd (fst km)))
    keyed.
Proof.
  revert keyed. induction ms as [|m ms IH]; intros keyed; cbn [located].
  - intros [= <-]. split; constructor.
  - destruct (cell_of A m) as [key|] eqn:Hk; [|discriminate].
    destruct (located A ms) as [rest|]; [|discriminate].
    intros [= <-]. destruct (IH rest eq_refl) as [Hms Hall].
    split; [cbn; now rewrite Hms|]. constructor; [|exact Hall].
    cbn [fst snd]. unfold cell_of in Hk.
    destruct (round A (m_latitude m)) as [la|]; [|discriminate Hk].
    destruct (round A (m_longitude m)) as [lo|]; [|discriminate Hk].
    injection Hk as <-. now split.
Qed.

(** *** Detection follows the computed deviation *)

Definition values (ms : list (Measurement A)) : list (number A) := map m_value ms.

(** The mean of a cell minus the mean of all measurements, as computed. *)
Definition cell_deviation (ms : list (Measurement A))
  (keyed : list (Alerts.cell * Measurement A)) (c : Alerts.cell) : number A :=
  sub A (np_mean A (values (members keyed c))) (np_mean A (values ms)).

(** The test [abs(deviation) > k * std], as computed. *)
Definition flagged (k : Q) (ms : list (Measurement A))
  (keyed : list (Alerts.cell * Measurement A)) (c : Alerts.cell) : bool :=
  greater A (absolute A (cell_deviation ms keyed c))
    (mul A (literal A k) (np_std A (values ms))).

(** The anomaly reported for a cell. *)
Definition anomaly_of (v : variable A) (ms : list (Measurement A))
  (keyed : list (Alerts.cell * Measurement A)) (c : Alerts.cell) : Anomaly A :=
  make_anomaly A v (np_std A (values ms)) c (members keyed c)
    (cell_deviation ms keyed c).

Lemma check_regrouped (v : variable A) (ms : list (Measurement A))
  (keyed : list (Alerts.cell * Measurement A)) (l : list Alerts.cell) :
  flat_map (check_group A v (np_mean A (values ms)) (np_std A (values ms)))
    (map (fun c => (c, members keyed c)) l)
  = map (anomaly_of v ms keyed) (filter (flagged (multiplier v) ms keyed) l).
Proof.
  induction l as [|c l IH]; [reflexivity|].
  cbn [map flat_map filter]. rewrite IH.
  unfold check_group at 1, flagged at 2, cell_deviation, values.
  destruct (greater A _ _); reflexivity.
Qed.

Lemma detect_few (v : variable A) (ms : list (Measurement A)) :
  (List.length ms < 10)%nat -> detect A v ms = [].
Proof.
  intros H. unfold detect. apply Nat.ltb_lt in H. now rewrite H.
Qed.

Lemma detect_unrounded (v : variable A) (ms : list (Measurement A)) :
  located A ms = None -> detect A v ms = [].
Proof.
  intros H. unfold detect. rewrite H.
  now destruct (List.length ms <? 10)%nat.
Qed.

Lemma detect_enough (v : variable A) (ms : list (Measurement A))
  (keyed : list (Alerts.cell * Measurement A)) :
  (10 <= List.length ms)%nat ->
  located A ms = Some keyed ->
  detect A v ms
  = map (anomaly_of v ms keyed) (filter (flagged (multiplier v) ms keyed) (cells keyed)).
Proof.
  intros H Hk. unfold detect.
  destruct (Nat.ltb_spec (List.length ms) 10) as [Hlt|_]; [lia|].
  rewrite Hk, location_groups_regrouped, regrouped_members.
  apply check_regrouped.
Qed.

End Grouping.

Arguments cells {A} keyed.
Arguments members {A} keyed c.
Arguments values {A} ms.

(** *** Readings in binary64 *)

(** A stored surface reading, at depth 5, with the same number for
    temperature and salinity. *)
Definition surface_reading (lat lon value : Q) : JoinedRow binary64 :=
  {| latitude := literal binary64 lat;
     longitude := literal binary64 lon;
     profile_date := 0%Z;
     temperature := Some (literal binary64 value);
     salinity := Some (literal binary64 value);
     depth := Some (literal binary64 5) |}.

(** Eight readings of 0 in one cell and two of 33 in another: a
    deviation of 26.4, which is twice the standard deviation 13.2 in
    exact arithmetic and more than twice the computed one. *)
Definition warm_pool : list (JoinedRow binary64) :=
  (repeat (surface_reading 0.2 0.4 0) 8 ++ repeat (surface_reading 5.2 4.6 33) 2)%list.

(** Nine readings of 0 and one of 7: a deviation of 6.3, three times
    the standard deviation 2.1 in exact arithmetic. *)
Definition single_warm_reading : list (JoinedRow binary64) :=
  (repeat (surface_reading 0.2 0.4 0) 9 ++ [surface_reading 5.2 4.6 7])%list.

(** The keyed measurements, when all of them can be rounded. *)
Definition keyed_of (A : Arithmetic) (ms : list (Measurement A))
  : list (Alerts.cell * Measurement A) :=
  match located A ms with
  | Some keyed => keyed
  | None => []
  end.

(** Can every measurement be given its cell? *)
Definition all_rounded (A : Arithmetic) (ms : list (Measurement A)) : bool :=
  match located A ms with
  | Some _ => true
  | None => false
  end.

Lemma keyed_of_located (A : Arithmetic) (ms : list (Measurement A)) :
  all_rounded A ms = true -> located A ms = Some (keyed_of A ms).
Proof.
  unfold all_rounded, keyed_of.
  destruct (located A ms); [reflexivity|discriminate].
Qed.

(** What an anomaly says: its type, its severity and its cell. *)
Definition headline (A : Arithmetic) (a : Anomaly A)
  : string * Alerts.severity * Z * Z :=
  (anomaly_type a, anomaly_severity a, anomaly_latitude a, anomaly_longitude a).

(** C2 (amended).  Each detector, run over the recent surface
    measurements of its variable, reports nothing when there are fewer
    than ten of them, and nothing when a latitude or a longitude cannot
    be rounded.  Otherwise it groups them into one-degree cells by
    rounding latitude and longitude, takes [np.mean] and [np.std] of the
    variable over all of them, and emits one anomaly exactly for each
    occupied cell for which the program computes
    [abs(group_mean - mean) > k * std], with [k] 2 (temperature) or 1.5
    (salinity), in the order in which the cells were first met; the
    anomaly carries the cell and the severity that [_calculate_severity]
    gives to the computed deviation.  This holds in every arithmetic:
    the test is the one the program evaluates, roundings included. *)
Theorem detector_follows_computed_deviation
  (A : Arithmetic) (table : list (JoinedRow A)) (since_date : Z) :
  let temps := surface_query A temperature since_date table in
  let sals := surface_query A salinity since_date table in
  ((List.length temps < 10)%nat \/ located A temps = None ->
   _detect_temperature_anomalies A table since_date = []) /\
  (forall keyed,
      (10 <= List.length temps)%nat ->
      located A temps = Some keyed ->
      _detect_temperature_anomalies A table since_date
      = map (anomaly_of A (temperature_variable A) temps keyed)
          (filter (flagged A 2 temps keyed) (cells keyed))) /\
  ((List.length sals < 10)%nat \/ located A sals = None ->
   _detect_salinity_anomalies A table since_date = []) /\
  (forall keyed,
      (10 <= List.length sals)%nat ->
      located A sals = Some keyed ->
      _detect_salinity_anomalies A table since_date
      = map (anomaly_of A (salinity_variable A) sals keyed)
          (filter (flagged A 1.5 sals keyed) (cells keyed))) /\
  (forall ms keyed,
      located A ms = Some keyed ->
      map snd keyed = ms /\
      Forall (fun km =>
                round A (m_latitude (snd km)) = Some (fst (fst km)) /\
                round A (m_longitude (snd km)) = Some (snd (fst km)))
        keyed) /\
  (forall v ms keyed c,
      anomaly_severity (anomaly_of A v ms keyed c)
      = _calculate_severity A (absolute A (cell_deviation A ms keyed c))
          (np_std A (values ms)) /\
      (anomaly_latitude (anomaly_of A v ms keyed c),
       anomaly_longitude (anomaly_of A v ms keyed c)) = c).
Proof.
  cbv zeta. unfold _detect_temperature_anomalies, _detect_salinity_anomalies.
  split; [intros [H|H]; [now apply detect_few|now apply detect_unrounded]|].
  split; [intros keyed; apply (detect_enough A (temperature_variable A))|].
  split; [intros [H|H]; [now apply detect_few|now apply detect_unrounded]|].
  split; [intros keyed; apply (detect_enough A (salinity_variable A))|].
  split.
  - intros ms keyed H. exact (located_keys A ms keyed H).
  - intros v ms keyed [la lo]. split; reflexivity.
Qed.

Lemma detector_follows_computed_deviation_witness :
  let temps := surface_query binary64 temperature 0 warm_pool in
  let sals := surface_query binary64 salinity 0 warm_pool in
  _detect_temperature_anomalies binary64 (firstn 9 warm_pool) 0 = [] /\
  _detect_temperature_anomalies binary64 warm_pool 0
  = map (anomaly_of binary64 (temperature_variable binary64) temps
           (keyed_of binary64 temps))
      (filter (flagged binary64 2 temps (keyed_of binary64 temps))
         (cells (keyed_of binary64 temps))) /\
  _detect_salinity_anomalies binary64 (firstn 9 warm_pool) 0 = [] /\
  _detect_salinity_anomalies binary64 warm_pool 0
  = map (anomaly_of binary64 (salinity_variable binary64) sals
           (keyed_of binary64 sals))
      (filter (flagged binary64 1.5 sals (keyed_of binary64 sals))
         (cells (keyed_of binary64 sals))).
Proof.
  cbv zeta. split; [|split; [|split]].
  - apply (proj1 (detector_follows_computed_deviation binary64 (firstn 9 warm_pool) 0)).
    left. vm_compute. lia.
  - apply (proj1 (proj2 (detector_follows_computed_deviation binary64 warm_pool 0))).
    + vm_compute. lia.
    + apply keyed_of_located. vm_compute. reflexivity.
  - apply (proj1 (proj2 (proj2
             (detector_follows_computed_deviation binary64 (firstn 9 warm_pool) 0)))).
    left. vm_compute. lia.
  - apply (proj1 (proj2 (proj2 (proj2
             (detector_follows_computed_deviation binary64 warm_pool 0))))).
    + vm_compute. lia.
    + apply keyed_of_located. vm_compute. reflexivity.
Defined.

(** In binary64 the standard deviation of the warm pool is computed a
    little below 13.2, and the warm cell is reported, with severity
    high. *)
Example warm_pool_reported :
  map (headline binary64) (_detect_temperature_anomalies binary64 warm_pool 0)
  = [("heatwave"%string, Alerts.high, 5%Z, 5%Z)] /\
  map (headline binary64) (_detect_salinity_anomalies binary64 warm_pool 0)
  = [("high_salinity"%string, Alerts.high, 5%Z, 5%Z)].
Proof. split; vm_compute; reflexivity. Qed.

(** In binary64 three times the computed standard deviation of the nine
    readings of 0 and one of 7 is less than the deviation: severity
    extreme. *)
Example single_warm_reading_reported :
  map (headline binary64)
    (_detect_temperature_anomalies binary64 single_warm_reading 0)
  = [("heatwave"%string, Alerts.extreme, 5%Z, 5%Z)].
Proof. vm_compute. reflexivity. Qed.

(** In binary64 [3 * 0.3] is less than [0.9]. *)
Example severity_of_rounded_product :
  _calculate_severity binary64 (literal binary64 0.9) (literal binary64 0.3)
  = Alerts.extreme.
Proof. vm_compute. reflexivity. Qed.

(** In exact arithmetic the severity is the one of [Alerts]. *)
Lemma exact_severity (deviation std_dev : R) :
  _calculate_severity exact deviation std_dev
  = Alerts._calculate_severity deviation std_dev.
Proof.
  unfold _calculate_severity, Alerts._calculate_severity.
  cbn [greater mul literal exact].
  replace (Q2R 3) with 3%R by (unfold Q2R; cbn; lra).
  replace (Q2R 2) with 2%R by (unfold Q2R; cbn; lra).
  replace (Q2R 1.5) with 1.5%R by (unfold Q2R; cbn; lra).
  destruct (Rlt_dec (3 * std_dev) deviation); [reflexivity|].
  destruct (Rlt_dec (2 * std_dev) deviation); [reflexivity|].
  destruct (Rlt_dec (1.5 * std_dev) deviation); reflexivity.
Qed.

(** A coordinate that cannot be rounded ends the detection with the
    empty list. *)
Example unrounded_coordinate_reports_nothing :
  let infinity := div binary64 (literal binary64 1) (literal binary64 0) in
  let stray := {| latitude := infinity; longitude := literal binary64 0;
                  profile_date := 0%Z;
                  temperature := Some (literal binary64 33);
                  salinity := None;
                  depth := Some (literal binary64 5) |} in
  round binary64 infinity = None /\
  map (headline binary64)
    (_detect_temperature_anomalies binary64 (stray :: warm_pool) 0) = [].
Proof. split; vm_compute; reflexivity. Qed.

End DetectionFacts.

(** ** Random draws and rounding *)

Module RandFacts.

Import Rand.
Local Open Scope Q_scope.

(** A generator that steps through its range: a counter, [uniform]
    alternating between the two bounds, [randint] and [choice] cycling. *)
Definition cycling : generator :=
  {| state := Z;
     seed := fun s => s;
     uniform := fun lo hi g => (if Z.even g then lo else hi, (g + 1)%Z);
     randint := fun lo hi g => ((lo + g mod (hi - lo))%Z, (g + 1)%Z);
     choice := fun values g =>
       (nth (Z.to_nat (g mod Z.of_nat (List.length values))) values 0%Z,
        (g + 1)%Z) |}.

Lemma cycling_in_range : in_range cycling.
Proof.
  constructor; simpl.
  - intros lo hi g H. destruct (Z.even g); split;
      trivial; apply Qle_refl.
  - intros lo hi g H.
    pose proof (Z.mod_pos_bound g (hi - lo)) as B. lia.
  - intros values g H. apply nth_In.
    assert (0 < Z.of_nat (List.length values))%Z.
    { destruct values; [congruence|]. simpl. lia. }
    pose proof (Z.mod_pos_bound g (Z.of_nat (List.length values))) as B. lia.
Qed.

Lemma round_half_even_cases (y : Q) :
  round_half_even y = Qfloor y \/
  (round_half_even y = (Qfloor y + 1)%Z /\ inject_Z (Qfloor y) < y).
Proof.
  unfold round_half_even.
  destruct (Qcompare (y - inject_Z (Qfloor y)) (1 # 2)) eqn:C.
  - destruct (Z.even (Qfloor y)); [now left|right]. split; [reflexivity|].
    apply Qeq_alt in C.
    apply Qlt_minus_iff. rewrite <- Qplus_opp_r with (q := inject_Z (Qfloor y)).
    setoid_replace (y + - inject_Z (Qfloor y)) with (1 # 2) by exact C.
    setoid_replace (inject_Z (Qfloor y) + - inject_Z (Qfloor y)) with 0 by ring.
    reflexivity.
  - now left.
  - right. split; [reflexivity|].
    apply Qgt_alt in C.
    apply Qlt_minus_iff.
    apply Qlt_trans with (1 # 2); [reflexivity|exact C].
Qed.

(** Rounding to an integer stays between integer bounds. *)
Lemma round_half_even_bounds (a b : Z) (y : Q) :
  inject_Z a <= y -> y <= inject_Z b ->
  (a <= round_half_even y <= b)%Z.
Proof.
  intros Ha Hb.
  assert (Hfa : (a <= Qfloor y)%Z).
  { rewrite <- (Qfloor_Z a). now apply Qfloor_resp_le. }
  assert (Hfb : (Qfloor y <= b)%Z).
  { rewrite Zle_Qle. apply Qle_trans with y; [apply Qfloor_le|exact Hb]. }
  destruct (round_half_even_cases y) as [->|[-> Hlt]]; [lia|].
  split; [lia|].
  assert (Qfloor y < b)%Z; [|lia].
  rewrite Zlt_Qlt. apply Qlt_le_trans with y; assumption.
Qed.

Lemma scale_positive (ndigits : nat) : 0 < inject_Z (10 ^ Z.of_nat ndigits).
Proof.
  rewrite <- (Zlt_Qlt 0). apply Z.pow_pos_nonneg; lia.
Qed.

(** Rounding to [ndigits] decimals stays between two bounds that have at
    most [ndigits] decimals themselves. *)
Lemma round_to_bounds (ndigits : nat) (lo hi x : Q) (a b : Z) :
  lo * inject_Z (10 ^ Z.of_nat ndigits) == inject_Z a ->
  hi * inject_Z (10 ^ Z.of_nat ndigits) == inject_Z b ->
  lo <= x -> x <= hi ->
  lo <= round_to ndigits x /\ round_to ndigits x <= hi.
Proof.
  intros Ha Hb Hlo Hhi. unfold round_to.
  pose proof (scale_positive ndigits) as Hs.
  set (scale := inject_Z (10 ^ Z.of_nat ndigits)) in *.
  assert (Hr : (a <= round_half_even (x * scale) <= b)%Z).
  { apply round_half_even_bounds.
    - rewrite <- Ha. apply Qmult_le_compat_r; [exact Hlo|now apply Qlt_le_weak].
    - rewrite <- Hb. apply Qmult_le_compat_r; [exact Hhi|now apply Qlt_le_weak]. }
  destruct Hr as [Hra Hrb]. rewrite Zle_Qle in Hra, Hrb. split.
  - apply Qle_shift_div_l; [exact Hs|]. now rewrite Ha.
  - apply Qle_shift_div_r; [exact Hs|]. now rewrite Hb.
Qed.

(** The case of integer bounds. *)
Lemma round_to_integer_bounds (ndigits : nat) (lo hi : Z) (x : Q) :
  inject_Z lo <= x -> x <= inject_Z hi ->
  inject_Z lo <= round_to ndigits x /\ round_to ndigits x <= inject_Z hi.
Proof.
  apply round_to_bounds
    with (a := (lo * 10 ^ Z.of_nat ndigits)%Z) (b := (hi * 10 ^ Z.of_nat ndigits)%Z);
    now rewrite inject_Z_mult.
Qed.

(** *** Sequences of draws *)

Lemma draws_spec {G : generator} {A : Type} (P : A -> Prop) (m : rand G A) :
  (forall g, P (fst (m g))) ->
  forall n g,
    List.length (fst (draws n m g)) = n /\ Forall P (fst (draws n m g)).
Proof.
  intros Hm. induction n as [|n IH]; intros g; simpl.
  - split; [reflexivity|constructor].
  - unfold bind, ret. specialize (Hm g).
    destruct (m g) as [a g1]. specialize (IH g1).
    destruct (draws n m g1) as [l g2]. simpl in *.
    destruct IH as [IHlen IHall]. split; [now rewrite IHlen|now constructor].
Qed.

Lemma for_each_spec {G : generator} {A B : Type} (R : A -> B -> Prop)
  (body : A -> rand G B) :
  (forall a g, R a (fst (body a g))) ->
  forall l g, Forall2 R l (fst (for_each l body g)).
Proof.
  intros Hbody. induction l as [|a l IH]; intros g; simpl.
  - constructor.
  - unfold bind, ret. specialize (Hbody a g).
    destruct (body a g) as [b g1]. specialize (IH g1).
    destruct (for_each l body g1) as [bs g2]. simpl in *.
    now constructor.
Qed.

Lemma Forall2_length_eq {A B : Type} (R : A -> B -> Prop) (l : list A) (l' : list B) :
  Forall2 R l l' -> List.length l = List.length l'.
Proof. induction 1; simpl; congruence. Qed.

Lemma Forall2_nth_error {A B : Type} (R : A -> B -> Prop) (l : list A) (l' : list B)
  (i : nat) (a : A) (b : B) :
  Forall2 R l l' -> nth_error l i = Some a -> nth_error l' i = Some b -> R a b.
Proof.
  intros H. revert i. induction H as [|x y l l' Hxy H IH]; intros i Ha Hb.
  - destruct i; discriminate.
  - destruct i as [|i]; simpl in *.
    + inversion Ha; inversion Hb; subst. exact Hxy.
    + now apply (IH i).
Qed.

Lemma Forall_nth_error {A : Type} (P : A -> Prop) (l : list A) (i : nat) (a : A) :
  Forall P l -> nth_error l i = Some a -> P a.
Proof.
  intros H Ha. rewrite Forall_forall in H. apply H.
  now apply nth_error_In with i.
Qed.

End RandFacts.

(** ** The sample data of the demo *)

Module SampleData.

Import Rand RandFacts Demo.
Local Open Scope Q_scope.

Definition within (lo hi x : Q) : Prop := lo <= x /\ x <= hi.

(** The temperature bounds of the three depth bands. *)
Definition temperature_band (depth : Z) (t : Q) : Prop :=
  ((depth <= 50)%Z -> within 25 30 t) /\
  ((50 < depth <= 200)%Z -> within 20 25 t) /\
  ((200 < depth)%Z -> within 2 8 t).

(** The bounds on one record. *)
Definition plausible (r : SampleRecord) : Prop :=
  temperature_band (depth r) (temperature r) /\
  within 34 37 (salinity r) /\
  within (-10) 10 (lat r) /\
  within 120 180 (lon r).

Section Ranges.

Variable G : generator.
Hypothesis HG : in_range G.

Lemma uniform_rounded (ndigits : nat) (lo hi : Z) (g : state G) :
  (lo <= hi)%Z ->
  within (inject_Z lo) (inject_Z hi)
    (round_to ndigits (fst (uniform G (inject_Z lo) (inject_Z hi) g))).
Proof.
  intros H. apply round_to_integer_bounds;
    apply (uniform_range G HG); now rewrite <- Zle_Qle.
Qed.

Lemma draw_temperature_band (depth : Z) (g : state G) :
  temperature_band depth (fst (draw_temperature G depth g)).
Proof.
  unfold draw_temperature, temperature_band, bind, ret.
  destruct (Z.leb_spec depth 50) as [H50|H50].
  - pose proof (uniform_rounded 2 25 30 g ltac:(lia)) as B.
    change (inject_Z 25) with 25 in B. change (inject_Z 30) with 30 in B.
    destruct (uniform G 25 30 g) as [temp g1]. simpl in *.
    repeat split; intros; try lia; apply B.
  - destruct (Z.leb_spec depth 200) as [H200|H200].
    + pose proof (uniform_rounded 2 20 25 g ltac:(lia)) as B.
      change (inject_Z 20) with 20 in B. change (inject_Z 25) with 25 in B.
      destruct (uniform G 20 25 g) as [temp g1]. simpl in *.
      repeat split; intros; try lia; apply B.
    + pose proof (uniform_rounded 2 2 8 g ltac:(lia)) as B.
      change (inject_Z 2) with 2 in B. change (inject_Z 8) with 8 in B.
      destruct (uniform G 2 8 g) as [temp g1]. simpl in *.
      repeat split; intros; try lia; apply B.
Qed.

Lemma rounded_uniform_draws (ndigits : nat) (lo hi : Z) (n : nat) (g : state G) :
  (lo <= hi)%Z ->
  List.length (fst (draws n (uniform G (inject_Z lo) (inject_Z hi)) g)) = n /\
  Forall (within (inject_Z lo) (inject_Z hi))
    (map (round_to ndigits) (fst (draws n (uniform G (inject_Z lo) (inject_Z hi)) g))).
Proof.
  intros H.
  destruct (draws_spec
              (fun x => within (inject_Z lo) (inject_Z hi) (round_to ndigits x))
              (uniform G (inject_Z lo) (inject_Z hi))
              (fun g' => uniform_rounded ndigits lo hi g' H) n g) as [Hlen Hall].
  split; [exact Hlen|]. now apply Forall_map.
Qed.

(** The columns: thirty entries each, every entry within its bounds. *)
Lemma create_sample_data_columns :
  let d := create_sample_data G in
  (List.length (col_float_id d) = n_records /\
   List.length (col_lat d) = n_records /\
   List.length (col_lon d) = n_records /\
   List.length (col_time d) = n_records /\
   List.length (col_depth d) = n_records /\
   List.length (col_temperature d) = n_records /\
   List.length (col_salinity d) = n_records) /\
  Forall (within (-10) 10) (col_lat d) /\
  Forall (within 120 180) (col_lon d) /\
  Forall (within 34 37) (col_salinity d) /\
  Forall2 temperature_band (col_depth d) (col_temperature d).
Proof.
  cbv zeta. unfold create_sample_data, bind, ret.
  set (g0 := seed G 42).
  pose proof (draws_spec (fun _ => True) (choice G [1001; 1002; 1003]%Z)
                (fun _ => I) n_records g0) as [L1 _].
  destruct (draws n_records (choice G [1001; 1002; 1003]%Z) g0) as [float_ids g1].
  pose proof (draws_spec (fun _ => True) (randint G 0 31)
                (fun _ => I) n_records g1) as [L2 _].
  destruct (draws n_records (randint G 0 31) g1) as [dates g2].
  pose proof (rounded_uniform_draws 4 (-10) 10 n_records g2 ltac:(lia)) as [L3 B3].
  change (inject_Z (-10)) with (-10) in L3, B3. change (inject_Z 10) with 10 in L3, B3.
  destruct (draws n_records (uniform G (-10) 10) g2) as [latitudes g3].
  pose proof (rounded_uniform_draws 4 120 180 n_records g3 ltac:(lia)) as [L4 B4].
  change (inject_Z 120) with 120 in L4, B4. change (inject_Z 180) with 180 in L4, B4.
  destruct (draws n_records (uniform G 120 180) g3) as [longitudes g4].
  pose proof (draws_spec (fun _ => True)
                (choice G [0; 10; 50; 100; 200; 500; 1000; 2000]%Z)
                (fun _ => I) n_records g4) as [L5 _].
  destruct (draws n_records (choice G [0; 10; 50; 100; 200; 500; 1000; 2000]%Z) g4)
    as [depths g5].
  pose proof (for_each_spec temperature_band (draw_temperature G)
                draw_temperature_band depths g5) as B6.
  destruct (for_each depths (draw_temperature G) g5) as [temperatures g6].
  pose proof (rounded_uniform_draws 2 34 37 n_records g6 ltac:(lia)) as [L7 B7].
  change (inject_Z 34) with 34 in L7, B7. change (inject_Z 37) with 37 in L7, B7.
  destruct (draws n_records (uniform G 34 37) g6) as [salinities g7].
  simpl fst in *. simpl.
  rewrite !length_map.
  pose proof (Forall2_length_eq _ _ _ B6) as L6.
  repeat split; trivial; congruence.
Qed.

End Ranges.

(** *** The measurements of the sample-data script *)

(** The script draws within bands of its own. *)
Definition script_band (m : Generator.measurement) : Prop :=
  ((Generator.depth m <= 50)%Z -> within 20 30 (Generator.temperature m)) /\
  ((50 < Generator.depth m <= 200)%Z -> within 10 20 (Generator.temperature m)) /\
  ((200 < Generator.depth m <= 1000)%Z -> within 4 12 (Generator.temperature m)) /\
  ((1000 < Generator.depth m)%Z -> within 1 5 (Generator.temperature m)).

Lemma generate_measurement_band (G : generator) (depth : Z) (g : state G) :
  in_range G ->
  Generator.depth (fst (Generator.generate_measurement G depth g)) = depth /\
  script_band (fst (Generator.generate_measurement G depth g)).
Proof.
  intros HG. unfold Generator.generate_measurement, script_band, bind, ret.
  destruct (Z.leb_spec depth 50) as [H50|H50];
    [|destruct (Z.leb_spec depth 200) as [H200|H200];
      [|destruct (Z.leb_spec depth 1000) as [H1000|H1000]]].
  - pose proof (uniform_rounded G HG 2 20 30 g ltac:(lia)) as B.
    change (inject_Z 20) with 20 in B. change (inject_Z 30) with 30 in B.
    destruct (uniform G 20 30 g) as [t g1].
    destruct (if (depth <=? 100)%Z then _ else _) as [s g2].
    destruct (if (depth <=? 100)%Z then _ else _) as [o g3].
    destruct (choice G _ g3) as [f g4]. simpl in *.
    repeat split; intros; try lia; apply B.
  - pose proof (uniform_rounded G HG 2 10 20 g ltac:(lia)) as B.
    change (inject_Z 10) with 10 in B. change (inject_Z 20) with 20 in B.
    destruct (uniform G 10 20 g) as [t g1].
    destruct (if (depth <=? 100)%Z then _ else _) as [s g2].
    destruct (if (depth <=? 100)%Z then _ else _) as [o g3].
    destruct (choice G _ g3) as [f g4]. simpl in *.
    repeat split; intros; try lia; apply B.
  - pose proof (uniform_rounded G HG 2 4 12 g ltac:(lia)) as B.
    change (inject_Z 4) with 4 in B. change (inject_Z 12) with 12 in B.
    destruct (uniform G 4 12 g) as [t g1].
    destruct (if (depth <=? 100)%Z then _ else _) as [s g2].
    destruct (if (depth <=? 100)%Z then _ else _) as [o g3].
    destruct (choice G _ g3) as [f g4]. simpl in *.
    repeat split; intros; try lia; apply B.
  - pose proof (uniform_rounded G HG 2 1 5 g ltac:(lia)) as B.
    change (inject_Z 1) with 1 in B. change (inject_Z 5) with 5 in B.
    destruct (uniform G 1 5 g) as [t g1].
    destruct (if (depth <=? 100)%Z then _ else _) as [s g2].
    destruct (if (depth <=? 100)%Z then _ else _) as [o g3].
    destruct (choice G _ g3) as [f g4]. simpl in *.
    repeat split; intros; try lia; apply B.
Qed.

Lemma generate_measurements_band (G : generator) (HG : in_range G) (g : state G) :
  map Generator.depth (fst (Generator.generate_measurements G g)) = Generator.depths /\
  Forall script_band (fst (Generator.generate_measurements G g)).
Proof.
  unfold Generator.generate_measurements.
  pose proof (for_each_spec
                (fun d m => Generator.depth m = d /\ script_band m)
                (Generator.generate_measurement G)
                (fun d g' => generate_measurement_band G d g' HG)
                Generator.depths g) as H.
  induction H as [|d m ds ms [Hd Hm] _ [IHd IHm]]; simpl.
  - split; constructor.
  - split; [now rewrite Hd, IHd|now constructor].
Qed.

(** With [cycling] the first measurement of a profile, at the surface,
    has temperature 20: inside the band of the script, below the 25 of
    the demo. *)
Example script_surface_temperature :
  option_map Generator.temperature
    (hd_error (fst (Generator.generate_measurements cycling 0%Z)))
  = Some (2000 # 100).
Proof. reflexivity. Qed.

(** The temperature bounds of the claim, read on a measurement of the
    script. *)
Definition claimed_band (m : Generator.measurement) : Prop :=
  temperature_band (Generator.depth m) (Generator.temperature m).

(** The script draws the temperature of the surface within [20, 30]:
    with [cycling] the first measurement of a profile, at depth 0, has
    temperature 20, below the 25 of the claim. *)
Lemma script_measurement_outside_claimed_band :
  ~ (forall G : generator,
        in_range G ->
        forall g, Forall claimed_band (fst (Generator.generate_measurements G g))).
Proof.
  intros H. specialize (H cycling cycling_in_range 0%Z).
  pose proof script_surface_temperature as Ht.
  assert (Hd : option_map Generator.depth
                 (hd_error (fst (Generator.generate_measurements cycling 0%Z)))
               = Some 0%Z) by reflexivity.
  destruct (fst (Generator.generate_measurements cycling 0%Z)) as [|m l];
    [discriminate|].
  cbn in Ht, Hd. injection Ht as Ht. injection Hd as Hd.
  apply Forall_inv in H. destruct H as [H _].
  unfold claimed_band in *. rewrite Hd, Ht in H.
  destruct (H ltac:(lia)) as [H25 _]. vm_compute in H25. now apply H25.
Qed.

(** C6 (amended).  Every record of the demo's sample data
    ([create_sample_data]) carries the seven fields (float id, latitude,
    longitude, time, depth, temperature, salinity): the frame has thirty
    rows, each with a value in every column.  Its values lie within the
    bounds: temperature in [25, 30] for depth at most 50, in [20, 25] for
    depth in (50, 200], in [2, 8] below; salinity in [34, 37]; latitude
    in [-10, 10]; longitude in [120, 180].  The measurements of the
    script ([generate_measurements]) are of another kind: one for each
    of the twenty-one depths of its list, with depth, pressure,
    temperature, salinity, oxygen and quality flag, and with temperature
    in [20, 30] for depth at most 50, in [10, 20] for depth in (50, 200],
    in [4, 12] for depth in (200, 1000], in [1, 5] below.  The generator
    is any one whose draws respect their documented ranges. *)
Theorem sample_records_plausible (G : generator) :
  in_range G ->
  (column_names
   = ["float_id"; "lat"; "lon"; "time"; "depth"; "temperature"; "salinity"]%string /\
   (forall i, (i < n_records)%nat ->
              exists r, record_at (create_sample_data G) i = Some r) /\
   (forall i r, record_at (create_sample_data G) i = Some r -> plausible r)) /\
  (forall g,
      map Generator.depth (fst (Generator.generate_measurements G g))
      = Generator.depths /\
      Forall script_band (fst (Generator.generate_measurements G g))).
Proof.
  intros HG. split; [|exact (generate_measurements_band G HG)].
  split; [reflexivity|].
  destruct (create_sample_data_columns G HG)
    as ((L1 & L2 & L3 & L4 & L5 & L6 & L7) & Blat & Blon & Bsal & Btemp).
  split.
  - intros i Hi. unfold record_at.
    destruct (nth_error (col_float_id _) i) eqn:E1;
      [|apply nth_error_None in E1; lia].
    destruct (nth_error (col_lat _) i) eqn:E2;
      [|apply nth_error_None in E2; lia].
    destruct (nth_error (col_lon _) i) eqn:E3;
      [|apply nth_error_None in E3; lia].
    destruct (nth_error (col_time _) i) eqn:E4;
      [|apply nth_error_None in E4; lia].
    destruct (nth_error (col_depth _) i) eqn:E5;
      [|apply nth_error_None in E5; lia].
    destruct (nth_error (col_temperature _) i) eqn:E6;
      [|apply nth_error_None in E6; lia].
    destruct (nth_error (col_salinity _) i) eqn:E7;
      [|apply nth_error_None in E7; lia].
    eexists. reflexivity.
  - intros i r. unfold record_at.
    destruct (nth_error (col_float_id _) i) eqn:E1; [|discriminate].
    destruct (nth_error (col_lat _) i) eqn:E2; [|discriminate].
    destruct (nth_error (col_lon _) i) eqn:E3; [|discriminate].
    destruct (nth_error (col_time _) i) eqn:E4; [|discriminate].
    destruct (nth_error (col_depth _) i) eqn:E5; [|discriminate].
    destruct (nth_error (col_temperature _) i) eqn:E6; [|discriminate].
    destruct (nth_error (col_salinity _) i) eqn:E7; [|discriminate].
    intros E. inversion E; subst r; clear E. unfold plausible; simpl.
    split; [exact (Forall2_nth_error _ _ _ i _ _ Btemp E5 E6)|].
    split; [exact (Forall_nth_error _ _ i _ Bsal E7)|].
    split; [exact (Forall_nth_error _ _ i _ Blat E2)|].
    exact (Forall_nth_error _ _ i _ Blon E3).
Qed.

Lemma sample_records_plausible_witness :
  (exists r, record_at (create_sample_data cycling) 7 = Some r /\ plausible r) /\
  Forall script_band (fst (Generator.generate_measurements cycling 0%Z)).
Proof.
  split.
  - destruct (proj1 (proj2 (proj1 (sample_records_plausible cycling cycling_in_range)))
                7%nat) as [r Hr]; [unfold n_records; lia|].
    exists r. split; [exact Hr|].
    exact (proj2 (proj2 (proj1 (sample_records_plausible cycling cycling_in_range)))
             7%nat r Hr).
  - exact (proj2 (proj2 (sample_records_plausible cycling cycling_in_range) 0%Z)).
Defined.

End SampleData.

(** ** Fallbacks of the data service *)

Module Fallback.

Import PyStr Exn Rand RandFacts DataService.
Local Open Scope string_scope.

(** A session in which every statement fails. *)
Definition broken : Session :=
  {| session := nat;
     execute_text := fun _ n => (S n, Raise (DatabaseError "connection lost"));
     execute_sample_join := fun _ n => (S n, Raise (DatabaseError "connection lost")) |}.

(** A session that rejects SQL text and still answers the join, with one
    row at depth zero. *)
Definition join_only : Session :=
  {| session := nat;
     execute_text := fun _ n => (S n, Raise (DatabaseError "syntax error"));
     execute_sample_join := fun _ n =>
       (S n,
        Ok [ {| latitude := 5; longitude := 150; profile_date := 0;
                depth := Some 0%Q; temperature := Some (28 # 1);
                salinity := Some (35 # 1); float_id := "ARGO_1001" |} ]) |}.

Lemma for_each_length {G : generator} {A B : Type} (l : list A)
  (body : A -> rand G B) (g : state G) :
  List.length (fst (for_each l body g)) = List.length l.
Proof.
  symmetry. apply (Forall2_length_eq (fun _ _ => True)).
  apply for_each_spec. trivial.
Qed.

Lemma generated_sample_size (G : generator) (now : Z) :
  List.length (_generate_sample_data G now) = 50%nat.
Proof. unfold _generate_sample_data. now rewrite for_each_length. Qed.

(** [get_sample_data] always returns records. *)
Lemma get_sample_data_total (G : generator) (now : Z) (S : Session)
  (db : session S) (limit : nat) :
  exists records, snd (get_sample_data G now S db limit) = Ok records.
Proof.
  unfold get_sample_data.
  destruct (execute_sample_join S limit db) as [db' [rows|e]]; simpl;
    eexists; reflexivity.
Qed.

(** C5.  When running the statement raises, [execute_query] does not
    raise: it returns what [get_sample_data] returns on the session the
    failure left, namely the converted rows of the sample join when that
    one succeeds, and the 50 synthetic records when it raises too. *)
Theorem query_failure_falls_back
  (G : generator) (now : Z) (S : Session) (self : DataService.DataService)
  (sql_query : string) (db db' : session S) (e : exn) :
  execute_text S (with_limit self sql_query) db = (db', Raise e) ->
  (exists records,
      snd (execute_query G now S self sql_query db) = Ok records) /\
  execute_query G now S self sql_query db = get_sample_data G now S db' 100 /\
  (forall db'' rows,
      execute_sample_join S 100 db' = (db'', Ok rows) ->
      snd (execute_query G now S self sql_query db)
      = Ok (map row_to_record rows)) /\
  (forall db'' e',
      execute_sample_join S 100 db' = (db'', Raise e') ->
      snd (execute_query G now S self sql_query db)
      = Ok (_generate_sample_data G now) /\
      List.length (_generate_sample_data G now) = 50%nat).
Proof.
  intros Hfail.
  assert (Heq : execute_query G now S self sql_query db
                = get_sample_data G now S db' 100).
  { unfold execute_query. now rewrite Hfail. }
  rewrite Heq. split; [apply get_sample_data_total|].
  split; [reflexivity|]. unfold get_sample_data. split.
  - intros db'' rows ->. reflexivity.
  - intros db'' e' ->. split; [reflexivity|apply generated_sample_size].
Qed.

Lemma query_failure_falls_back_witness :
  snd (execute_query cycling 0 broken init_service "SELECT * FROM nowhere" 0%nat)
    = Ok (_generate_sample_data cycling 0) /\
  List.length (_generate_sample_data cycling 0) = 50%nat /\
  snd (execute_query cycling 0 join_only init_service "SELEKT" 0%nat)
    = Ok [ [ ("latitude", VFloat 5); ("longitude", VFloat 150);
             ("profile_date", VDate 0); ("depth", VNone);
             ("temperature", VFloat (28 # 1)); ("salinity", VFloat (35 # 1));
             ("float_id", VStr "ARGO_1001") ] ].
Proof.
  split; [|split].
  - apply (proj2 (proj2 (proj2
             (query_failure_falls_back cycling 0 broken init_service
                "SELECT * FROM nowhere" 0%nat 1%nat
                (DatabaseError "connection lost") eq_refl)))
             2%nat (DatabaseError "connection lost") eq_refl).
  - apply (proj2 (proj2 (proj2
             (query_failure_falls_back cycling 0 broken init_service
                "SELECT * FROM nowhere" 0%nat 1%nat
                (DatabaseError "connection lost") eq_refl)))
             2%nat (DatabaseError "connection lost") eq_refl).
  - apply (proj1 (proj2 (proj2
             (query_failure_falls_back cycling 0 join_only init_service
                "SELEKT" 0%nat 1%nat
                (DatabaseError "syntax error") eq_refl)))
             2%nat _ eq_refl).
Defined.

(** A statement that succeeds is answered with its own rows, a limit
    having been appended to the text. *)
Example limit_appended :
  with_limit init_service "SELECT * FROM argo_floats;"
  = "SELECT * FROM argo_floats LIMIT 10000;".
Proof. reflexivity. Qed.

End Fallback.

(** ** More on the translation: what reaches the SQL, letter case, dead keywords *)

Module TranslationMore.

Import PyStr PyStrFacts Translation.
Local Open Scope string_scope.






(** *** Letter case *)

Lemma lower_upper_char (c : ascii) : lower_char (upper_char c) = lower_char c.
Proof. destruct c as [[] [] [] [] [] [] [] []]; reflexivity. Qed.

Lemma lower_lower_char (c : ascii) : lower_char (lower_char c) = lower_char c.
Proof. destruct c as [[] [] [] [] [] [] [] []]; reflexivity. Qed.

Lemma lower_upper (s : string) : lower (upper s) = lower s.
Proof.
  unfold lower, upper. induction s as [|c s IH]; simpl; [reflexivity|].
  now rewrite lower_upper_char, IH.
Qed.

Lemma lower_lower (s : string) : lower (lower s) = lower s.
Proof.
  unfold lower. induction s as [|c s IH]; simpl; [reflexivity|].
  now rewrite lower_lower_char, IH.
Qed.

(** The SQL of the prototype as a function of the lowercased query. *)
Lemma process_sql_by_lower (q1 q2 : string) :
  lower q1 = lower q2 ->
  fst (Prototype.process_natural_language_query q1)
  = fst (Prototype.process_natural_language_query q2).
Proof.
  intros H. unfold Prototype.process_natural_language_query. rewrite H.
  generalize (lower q2). intros q.
  repeat match goal with
    | |- context [if Prototype.any_in ?l q then _ else _] =>
        destruct (Prototype.any_in l q)
    end;
    try reflexivity; split_tests; reflexivity.
Qed.

(** Letter case does not matter: a query, its upper-case form and its
    lower-case form get the same SQL and the same explanation from the demo
    parser, and the same SQL from the prototype. *)
Theorem translation_ignores_case
  (self : Demo.NaturalLanguageParser) (user_query sql : string) :
  Demo.parse_query self (upper user_query) = Demo.parse_query self user_query /\
  Demo.parse_query self (lower user_query) = Demo.parse_query self user_query /\
  Demo.generate_explanation (upper user_query) sql
  = Demo.generate_explanation user_query sql /\
  fst (Prototype.process_natural_language_query (upper user_query))
  = fst (Prototype.process_natural_language_query user_query) /\
  fst (Prototype.process_natural_language_query (lower user_query))
  = fst (Prototype.process_natural_language_query user_query).
Proof.
  unfold Demo.parse_query, Demo.generate_explanation.
  rewrite lower_upper, lower_lower. repeat split.
  - apply process_sql_by_lower, lower_upper.
  - apply process_sql_by_lower, lower_lower.
Qed.

(** *** Keywords that never decide *)

Lemma append_assoc (a b c : string) : (a ++ b) ++ c = a ++ (b ++ c).
Proof. induction a as [|x a IH]; simpl; [reflexivity|now rewrite IH]. Qed.

Lemma occurs_trans (k1 k2 s : string) :
  occurs k1 k2 -> occurs k2 s -> occurs k1 s.
Proof.
  intros (a & b & ->) (a' & b' & ->). exists (a' ++ a), (b ++ b').
  now rewrite !append_assoc.
Qed.

Lemma contains_longer (k1 k2 s : string) :
  contains k1 k2 = true -> contains k1 s = false -> contains k2 s = false.
Proof.
  intros H12 H1. destruct (contains k2 s) eqn:H2; [|reflexivity].
  apply contains_spec in H12, H2. rewrite contains_false in H1.
  exfalso. apply H1. now apply occurs_trans with k2.
Qed.

(** The demo table without its five two-word keywords. *)
Definition one_word_parser : Demo.NaturalLanguageParser :=
  {| Demo.patterns :=
      [ ("salinity_near_equator",
         {| Demo.keywords := ["salinity"; "equator"];
            Demo.sql_template :=
              "SELECT * FROM argo_data WHERE lat BETWEEN -5 AND 5 AND time LIKE '%2023-03%'" |});
        ("temperature_by_depth",
         {| Demo.keywords := ["temperature"; "depth"];
            Demo.sql_template :=
              "SELECT depth, AVG(temperature) as avg_temperature FROM argo_data GROUP BY depth ORDER BY depth" |});
        ("all_march_data",
         {| Demo.keywords := ["march"; "2023"];
            Demo.sql_template :=
              "SELECT * FROM argo_data WHERE time LIKE '%2023-03%'" |});
        ("surface_data",
         {| Demo.keywords := ["surface"];
            Demo.sql_template := "SELECT * FROM argo_data WHERE depth <= 50" |});
        ("deep_water",
         {| Demo.keywords := ["deep"];
            Demo.sql_template := "SELECT * FROM argo_data WHERE depth >= 500" |});
        ("float_specific",
         {| Demo.keywords := ["float"];
            Demo.sql_template :=
              "SELECT * FROM argo_data WHERE float_id = {float_id}" |});
        ("all_data",
         {| Demo.keywords := ["all"; "everything"];
            Demo.sql_template := "SELECT * FROM argo_data" |}) ] |}.

(** The keywords "near equator", "march 2023", "surface water", "deep
    water" and "show all" never decide a translation: each contains a
    one-word keyword of its own pattern, and the parser answers every query
    as it would without them. *)
Theorem two_word_keywords_never_decide (user_query : string) :
  Demo.parse_query Demo.init_parser user_query
  = Demo.parse_query one_word_parser user_query.
Proof.
  unfold Demo.parse_query.
  destruct (Demo.search_float (lower user_query)); [reflexivity|].
  generalize (lower user_query). intros q.
  cbn [Demo.patterns Demo.init_parser one_word_parser Demo.scan_patterns
         Demo.keywords Demo.sql_template Demo.keyword_hit].
  destruct (contains "salinity" q); [reflexivity|].
  destruct (contains "equator" q) eqn:E1; [reflexivity|].
  rewrite (contains_longer "equator" "near equator" q eq_refl E1).
  destruct (contains "temperature" q); [reflexivity|].
  destruct (contains "depth" q); [reflexivity|].
  destruct (contains "march" q) eqn:E3; [reflexivity|].
  destruct (contains "2023" q); [reflexivity|].
  rewrite (contains_longer "march" "march 2023" q eq_refl E3).
  destruct (contains "surface" q) eqn:E4; [reflexivity|].
  rewrite (contains_longer "surface" "surface water" q eq_refl E4).
  destruct (contains "deep" q) eqn:E5; [reflexivity|].
  rewrite (contains_longer "deep" "deep water" q eq_refl E5).
  destruct (contains "float" q); [reflexivity|].
  destruct (contains "all" q) eqn:E6; [reflexivity|].
  destruct (contains "everything" q); [reflexivity|].
  rewrite (contains_longer "all" "show all" q eq_refl E6). reflexivity.
Qed.

End TranslationMore.

(** ** Charts, unanswered prompts and the sidebar *)

Module ChartFacts.

Import PyStr Demo Charts.
Local Open Scope string_scope.

Lemma has_column_index (name : string) (df : DataFrame) :
  has_column name df = true -> exists i, index_of name (columns df) = Some i.
Proof.
  unfold has_column. induction (columns df) as [|c cols IH]; simpl; [discriminate|].
  rewrite (String.eqb_sym name c). destruct (String.eqb c name).
  - intros _. now exists O.
  - simpl. intros H. destruct (IH H) as [i ->]. now exists (S i).
Qed.

Lemma column_length (name : string) (df : DataFrame) :
  has_column name df = true ->
  List.length (column name df) = List.length (records df).
Proof.
  intros H. unfold column. destruct (has_column_index _ _ H) as [i ->].
  apply length_map.
Qed.

(** The frame has the seven columns of the table. *)
Definition complete (df : DataFrame) : Prop :=
  forall name, In name column_names -> has_column name df = true.

(** On a frame with rows and all seven columns of [argo_data], which is
    what every [SELECT *] statement of the parser returns, drawing never
    raises, and the map is drawn with one marker for each row. *)
Theorem charts_drawn_on_complete_frames (df : DataFrame) :
  complete df ->
  records df <> [] ->
  exists figures markers,
    draw_charts df = Done figures /\
    In (MapView markers) figures /\
    List.length markers = List.length (records df).
Proof.
  intros H Hrows. unfold complete, column_names in H.
  assert (Hf : has_column "float_id" df = true) by (apply H; simpl; auto 8).
  assert (Hla : has_column "lat" df = true) by (apply H; simpl; auto 8).
  assert (Hlo : has_column "lon" df = true) by (apply H; simpl; auto 8).
  assert (Hti : has_column "time" df = true) by (apply H; simpl; auto 8).
  assert (Hde : has_column "depth" df = true) by (apply H; simpl; auto 8).
  assert (Hte : has_column "temperature" df = true) by (apply H; simpl; auto 8).
  assert (Hsa : has_column "salinity" df = true) by (apply H; simpl; auto 8).
  unfold draw_charts, create_time_series_plot, create_depth_profile,
    create_map_visualization, missing_columns.
  cbn [filter]. rewrite Hf, Hla, Hlo, Hti, Hde, Hte, Hsa. cbn [negb andb orb].
  pose proof (column_length "temperature" df Hte) as Hlen.
  destruct (records df) as [|r rs] eqn:Hr; [congruence|].
  - exists ((if (1 <? List.length (r :: rs))%nat then [TimeSeries] else [])
            ++ (if (1 <? n_groups "depth" df)%nat then [DepthProfile] else [])
            ++ [MapView (map marker_colour (column "temperature" df))])%list,
      (map marker_colour (column "temperature" df)).
    split; [|split].
    + destruct (1 <? List.length (r :: rs))%nat,
        (1 <? n_groups "depth" df)%nat; reflexivity.
    + apply in_or_app. right. apply in_or_app. right. now left.
    + now rewrite length_map, Hlen.
Qed.

Lemma charts_drawn_on_complete_frames_witness :
  exists figures markers,
    draw_charts {| columns := column_names;
                   records := [ [1001; 0; 150; 3; 0; 28; 35];
                                [1002; 1; 151; 4; 500; 5; 34] ]%Q |}
    = Done figures /\
    In (MapView markers) figures /\
    List.length markers = 2%nat.
Proof.
  apply (charts_drawn_on_complete_frames
           {| columns := column_names;
              records := [ [1001; 0; 150; 3; 0; 28; 35];
                           [1002; 1; 151; 4; 500; 5; 34] ]%Q |}).
  - intros name Hn. simpl in Hn.
    repeat (destruct Hn as [<-|Hn]; [reflexivity|]). destruct Hn.
  - discriminate.
Defined.

Lemma groups_need_rows (name : string) (df : DataFrame) :
  (1 < n_groups name df)%nat -> records df <> [].
Proof.
  unfold n_groups, column. intros H E. rewrite E in H.
  destruct (index_of name (columns df)); simpl in H; lia.
Qed.

Lemma has_column_not_empty (name : string) (df : DataFrame) :
  has_column name df = true -> records df <> [] -> empty df = false.
Proof.
  unfold has_column, empty. intros Hc Hr.
  destruct (columns df); [discriminate|]. now destruct (records df).
Qed.

(** A prompt whose result has a depth column with two depths or more, no
    time column, and lacks temperature or salinity is never answered:
    drawing the depth profile raises [KeyError], and the history keeps the
    prompt without an assistant message.  The result of the template
    "temperature by depth" (columns depth and avg_temperature) is of that
    kind. *)
Theorem aggregate_prompt_unanswered
  (E : SqlEngine) (describe : DataFrame -> string)
  (nl_parser : NaturalLanguageParser) (st : session E) (prompt : string)
  (conn' : database E) (df : DataFrame) :
  execute_query E (parse_query nl_parser prompt) (conn st)
  = (conn', (Some df, None)) ->
  has_column "depth" df = true ->
  has_column "time" df = false ->
  (1 < n_groups "depth" df)%nat ->
  missing_columns ["temperature"; "salinity"] df <> [] ->
  chat_turn_drawn E describe nl_parser st prompt
  = ({| conn := conn';
        messages := messages st
                    ++ [{| role := "user"; content := prompt; data := None |}] |},
     KeyError (missing_columns ["temperature"; "salinity"] df)).
Proof.
  intros Hexec Hdepth Htime Hgroups Hmissing.
  unfold chat_turn_drawn. rewrite Hexec. cbn [truthy orb].
  rewrite (has_column_not_empty "depth" df Hdepth (groups_need_rows _ _ Hgroups)).
  unfold draw_charts. rewrite Htime, Hdepth. cbn [andb].
  apply Nat.ltb_lt in Hgroups. rewrite Hgroups.
  unfold create_depth_profile. rewrite Hdepth. cbn [negb].
  destruct (missing_columns ["temperature"; "salinity"] df); [congruence|].
  reflexivity.
Qed.

(** An engine that answers a [GROUP BY depth] with two depth groups, and
    any other [SELECT] with the rows of the table. *)
Definition grouping_engine : SqlEngine :=
  {| database := list (list Q);
     read_sql_query := fun sql d =>
       if contains "GROUP BY depth" sql then
         (d, inl {| columns := ["depth"; "avg_temperature"];
                    records := [ [0; 27]; [500; 5] ]%Q |})
       else (d, inl {| columns := column_names; records := d |}) |}.

Lemma aggregate_prompt_unanswered_witness :
  chat_turn_drawn grouping_engine (fun _ => "summary") init_parser
    {| conn := [] : database grouping_engine; messages := [] |}
    "What's the temperature by depth?"
  = ({| conn := [] : database grouping_engine;
        messages := [{| role := "user";
                        content := "What's the temperature by depth?";
                        data := None |}] |},
     KeyError ["temperature"; "salinity"]).
Proof.
  apply (aggregate_prompt_unanswered grouping_engine (fun _ => "summary")
           init_parser {| conn := [] : database grouping_engine; messages := [] |}
           "What's the temperature by depth?" []
           {| columns := ["depth"; "avg_temperature"];
              records := [ [0; 27]; [500; 5] ]%Q |});
    try reflexivity.
  - vm_compute. lia.
  - discriminate.
Defined.

(** *** Sequences of clicks and prompts *)

Definition event_text (ev : event) : string :=
  match ev with
  | Click query => query
  | Submit prompt => prompt
  end.

Definition is_submit (ev : event) : bool :=
  match ev with
  | Click _ => false
  | Submit _ => true
  end.

Definition is_user (m : message) : bool := String.eqb (role m) "user".

Lemma respond_role (describe : DataFrame -> string) (prompt : string)
  (result : option DataFrame * option string) :
  role (respond describe prompt result) = "assistant".
Proof.
  unfold respond. destruct result as [[d|] error];
    destruct (truthy error); try reflexivity.
  destruct (empty d); reflexivity.
Qed.

(** What one event adds to the history: its text as a user message, and
    after it at most one assistant message, none for a click. *)
Lemma handle_event_adds (E : SqlEngine) (describe : DataFrame -> string)
  (nl_parser : NaturalLanguageParser) (st : session E) (ev : event) :
  exists answers,
    messages (handle_event E describe nl_parser st ev)
    = (messages st
       ++ {| role := "user"; content := event_text ev; data := None |} :: answers)%list /\
    Forall (fun m => role m = "assistant") answers /\
    (List.length answers <= if is_submit ev then 1 else 0)%nat.
Proof.
  assert (Hone : forall m, role m = "assistant" ->
                           Forall (fun m => role m = "assistant") [m])
    by (intros m Hm; constructor; [exact Hm|constructor]).
  destruct ev as [query|prompt]; cbn [handle_event event_text is_submit].
  - exists []. split; [reflexivity|]. split; [constructor|apply Nat.le_refl].
  - unfold chat_turn_drawn.
    destruct (execute_query E _ _) as [conn' [[df|] error]].
    + destruct (truthy error || empty df).
      * eexists [_]. split; [reflexivity|].
        split; [apply Hone, respond_role|apply Nat.le_refl].
      * destruct (draw_charts df).
        -- eexists [_]. split; [reflexivity|].
           split; [apply Hone, respond_role|apply Nat.le_refl].
        -- exists []. split; [reflexivity|]. split; [constructor|apply Nat.le_0_l].
    + eexists [_]. split; [reflexivity|].
      split; [apply Hone, respond_role|apply Nat.le_refl].
Qed.

Lemma filter_assistants (answers : list message) :
  Forall (fun m => role m = "assistant") answers ->
  filter is_user answers = [] /\
  filter (fun m => negb (is_user m)) answers = answers.
Proof.
  induction 1 as [|m l Hm Hl [IH1 IH2]]; [now split|].
  assert (Hu : is_user m = false) by (unfold is_user; now rewrite Hm).
  cbn [filter]. rewrite Hu. cbn [negb]. now rewrite IH1, IH2.
Qed.

(** Over any sequence of clicks and prompts the history only grows; the
    user messages added are the texts of the events, in order; and the
    assistant messages added are at most as many as the prompts
    submitted.  A clicked sample query is shown and never answered. *)
Theorem history_of_events
  (E : SqlEngine) (describe : DataFrame -> string)
  (nl_parser : NaturalLanguageParser) (evs : list event) (st : session E) :
  exists added,
    messages (run_events E describe nl_parser st evs) = (messages st ++ added)%list /\
    map content (filter is_user added) = map event_text evs /\
    (List.length (filter (fun m => negb (is_user m)) added)
     <= List.length (filter is_submit evs))%nat.
Proof.
  revert st. induction evs as [|ev evs IH]; intros st.
  - exists []. cbn. rewrite app_nil_r. repeat split; auto.
  - cbn [run_events fold_left].
    destruct (handle_event_adds E describe nl_parser st ev)
      as (answers & Hmsg & Hroles & Hlen).
    destruct (IH (handle_event E describe nl_parser st ev))
      as (added & Hadded & Husers & Hcount).
    destruct (filter_assistants answers Hroles) as [Hu Ha].
    exists ({| role := "user"; content := event_text ev; data := None |}
            :: answers ++ added)%list.
    split; [|split].
    + unfold run_events in Hadded. rewrite Hadded, Hmsg, <- app_assoc. reflexivity.
    + cbn [filter]. change (is_user {| role := "user"; content := event_text ev;
                                       data := None |}) with true.
      cbn [map content]. rewrite filter_app, Hu. cbn [app]. now rewrite Husers.
    + cbn [filter]. change (is_user {| role := "user"; content := event_text ev;
                                       data := None |}) with true.
      cbn [negb]. rewrite filter_app, Ha, length_app.
      destruct (is_submit ev); cbn [filter List.length]; lia.
Qed.

Lemma chat_turn_drawn_conn (E : SqlEngine) (describe : DataFrame -> string)
  (nl_parser : NaturalLanguageParser) (st : session E) (prompt : string) :
  conn (fst (chat_turn_drawn E describe nl_parser st prompt))
  = fst (read_sql_query E (parse_query nl_parser prompt) (conn st)).
Proof.
  unfold chat_turn_drawn, execute_query.
  destruct (read_sql_query E _ _) as [c [df|e]]; cbn.
  - destruct (empty df); [reflexivity|]. now destruct (draw_charts df).
  - reflexivity.
Qed.

(** On an engine whose [SELECT]s change nothing, no sequence of clicks and
    prompts changes the database, whether the prompts are answered or end
    in a [KeyError]. *)
Theorem events_leave_database
  (E : SqlEngine) (describe : DataFrame -> string) (evs : list event)
  (st : session E) :
  Chat.select_reads_only E ->
  conn (run_events E describe init_parser st evs) = conn st.
Proof.
  intros HE. revert st. induction evs as [|ev evs IH]; intros st; [reflexivity|].
  cbn [run_events fold_left]. unfold run_events in IH. rewrite IH.
  destruct ev as [query|prompt]; [reflexivity|].
  cbn [handle_event]. rewrite chat_turn_drawn_conn.
  apply HE, Chat.parse_query_is_select.
Qed.

Lemma events_leave_database_witness :
  conn (run_events Chat.table_engine (fun _ => "summary") init_parser
          {| conn := [[1001%Q; 3%Q]] : database Chat.table_engine; messages := [] |}
          [Click "Show deep water measurements"; Submit "show floats";
           Submit "everything"])
  = [[1001%Q; 3%Q]].
Proof.
  exact (events_leave_database Chat.table_engine (fun _ => "summary")
           [Click "Show deep water measurements"; Submit "show floats";
            Submit "everything"]
           {| conn := [[1001%Q; 3%Q]] : database Chat.table_engine; messages := [] |}
           Chat.table_engine_reads_only).
Defined.

(** *** Marker colours of the sample data *)

Lemma record_at_plausible (G : Rand.generator) (i : nat) (r : SampleRecord) :
  Rand.in_range G ->
  record_at (create_sample_data G) i = Some r -> SampleData.plausible r.
Proof.
  intros HG.
  destruct (SampleData.create_sample_data_columns G HG)
    as (_ & Blat & Blon & Bsal & Btemp).
  unfold record_at.
  destruct (nth_error (col_float_id _) i) eqn:E1; [|discriminate].
  destruct (nth_error (col_lat _) i) eqn:E2; [|discriminate].
  destruct (nth_error (col_lon _) i) eqn:E3; [|discriminate].
  destruct (nth_error (col_time _) i) eqn:E4; [|discriminate].
  destruct (nth_error (col_depth _) i) eqn:E5; [|discriminate].
  destruct (nth_error (col_temperature _) i) eqn:E6; [|discriminate].
  destruct (nth_error (col_salinity _) i) eqn:E7; [|discriminate].
  intros E. inversion E; subst r; clear E. unfold SampleData.plausible; simpl.
  split; [exact (RandFacts.Forall2_nth_error _ _ _ i _ _ Btemp E5 E6)|].
  split; [exact (RandFacts.Forall_nth_error _ _ i _ Bsal E7)|].
  split; [exact (RandFacts.Forall_nth_error _ _ i _ Blat E2)|].
  exact (RandFacts.Forall_nth_error _ _ i _ Blon E3).
Qed.

(** On the map of the sample data the colour of a marker tells the depth
    band: a record below 200 m is blue, a record between 50 m and 200 m is
    orange, and a record of the top 50 m is red, or orange when its
    temperature is exactly 25. *)
Theorem marker_colour_by_depth (G : Rand.generator) (i : nat) (r : SampleRecord) :
  Rand.in_range G ->
  record_at (create_sample_data G) i = Some r ->
  ((200 < depth r)%Z -> marker_colour (temperature r) = blue) /\
  ((50 < depth r <= 200)%Z -> marker_colour (temperature r) = orange) /\
  ((depth r <= 50)%Z ->
   marker_colour (temperature r) = red \/
   (temperature r == 25 /\ marker_colour (temperature r) = orange)).
Proof.
  intros HG Hr. destruct (record_at_plausible G i r HG Hr) as [[B1 [B2 B3]] _].
  unfold SampleData.within in *. unfold marker_colour.
  repeat split.
  - intros H. destruct (B3 H).
    destruct (Qlt_le_dec 25 (temperature r)); [Lqa.lra|].
    destruct (Qlt_le_dec 15 (temperature r)); [Lqa.lra|reflexivity].
  - intros H. destruct (B2 H).
    destruct (Qlt_le_dec 25 (temperature r)); [Lqa.lra|].
    destruct (Qlt_le_dec 15 (temperature r)); [reflexivity|Lqa.lra].
  - intros H. destruct (B1 H).
    destruct (Qlt_le_dec 25 (temperature r)); [now left|right].
    split; [Lqa.lra|].
    destruct (Qlt_le_dec 15 (temperature r)); [reflexivity|Lqa.lra].
Qed.

Lemma marker_colour_by_depth_witness :
  exists r,
    record_at (create_sample_data RandFacts.cycling) 7 = Some r /\
    ((200 < depth r)%Z -> marker_colour (temperature r) = blue).
Proof.
  destruct (record_at (create_sample_data RandFacts.cycling) 7) as [r|] eqn:Hr.
  - exists r. split; [reflexivity|].
    exact (proj1 (marker_colour_by_depth RandFacts.cycling 7 r
                    RandFacts.cycling_in_range Hr)).
  - vm_compute in Hr. discriminate Hr.
Defined.

End ChartFacts.

(** ** Which credentials the prototype login accepts *)

Module LoginMore.

Import PyStr Exn.
Local Open Scope string_scope.

(** The login succeeds exactly when the credentials hold no [email] or a
    string under it: the role and the token then follow the substrings of
    the email in the order scientist, policy, student.  [null], a boolean
    or a number under [email] raises [TypeError] at the first substring
    test; a list or a dictionary raises [ValidationError] when the user
    record is built. *)
Theorem login_outcome (credentials : list (string * Prototype.json)) :
  match Prototype.dict_get "email" credentials (Prototype.JString "") with
  | Prototype.JString e =>
      Prototype.login credentials
      = Ok {| Prototype.user :=
                {| Prototype.id := "demo_" ++ fst (Login.role_for_email e);
                   Prototype.email := e;
                   Prototype.full_name := snd (Login.role_for_email e);
                   Prototype.user_role := fst (Login.role_for_email e) |};
              Prototype.access_token := "demo_token_" ++ fst (Login.role_for_email e);
              Prototype.token_type := "bearer" |}
  | Prototype.JNull | Prototype.JBool _ | Prototype.JNumber _ =>
      Prototype.login credentials = Raise TypeError
  | Prototype.JArray _ | Prototype.JObject _ =>
      Prototype.login credentials = Raise ValidationError
  end.
Proof.
  destruct (Prototype.dict_get "email" credentials (Prototype.JString ""))
    as [| b | q | e | items | members] eqn:He.
  - unfold Prototype.login. now rewrite He.
  - unfold Prototype.login. now rewrite He.
  - unfold Prototype.login. now rewrite He.
  - now apply Login.login_accepts_string_email.
  - unfold Prototype.login. rewrite He. cbn.
    destruct (existsb _ items); [reflexivity|].
    destruct (existsb _ items); [reflexivity|].
    destruct (existsb _ items); reflexivity.
  - unfold Prototype.login. rewrite He. cbn.
    destruct (existsb _ members); [reflexivity|].
    destruct (existsb _ members); [reflexivity|].
    destruct (existsb _ members); reflexivity.
Qed.

End LoginMore.

(** ** Restarting the prototype service *)

Module StartupFacts.

Import Startup.
Local Open Scope string_scope.

(** A row with that float id is in the table. *)
Definition stored (fid : string) (table : list (Z * FloatData)) : bool :=
  existsb (fun r => String.eqb (float_id (snd r)) fid) table.

Lemma stored_app (fid : string) (t1 t2 : list (Z * FloatData)) :
  stored fid (t1 ++ t2) = stored fid t1 || stored fid t2.
Proof. apply existsb_app. Qed.

Lemma insert_keeps (fid : string) (row : FloatData) (table : list (Z * FloatData)) :
  stored fid table = true -> stored fid (insert_float_or_ignore row table) = true.
Proof.
  intros H. unfold insert_float_or_ignore.
  destruct (existsb _ table); [exact H|].
  unfold insert. now rewrite stored_app, H.
Qed.

Lemma insert_stores (row : FloatData) (table : list (Z * FloatData)) :
  stored (float_id row) (insert_float_or_ignore row table) = true.
Proof.
  unfold insert_float_or_ignore.
  destruct (existsb _ table) eqn:E; [exact E|].
  unfold insert. rewrite stored_app. cbn. rewrite String.eqb_refl.
  now rewrite orb_true_r.
Qed.

Lemma inserts_keep (fid : string) (rows : list FloatData)
  (table : list (Z * FloatData)) :
  stored fid table = true ->
  stored fid (fold_left (fun t row => insert_float_or_ignore row t) rows table) = true.
Proof.
  revert table. induction rows as [|row rows IH]; intros table H; [exact H|].
  cbn. apply IH. now apply insert_keeps.
Qed.

Lemma inserts_store (rows : list FloatData) (table : list (Z * FloatData))
  (row : FloatData) :
  In row rows ->
  stored (float_id row)
    (fold_left (fun t row => insert_float_or_ignore row t) rows table) = true.
Proof.
  revert table. induction rows as [|r rows IH]; intros table; [intros []|].
  intros [->|Hin]; cbn.
  - apply inserts_keep, insert_stores.
  - now apply IH.
Qed.

Lemma inserts_ignored (rows : list FloatData) (table : list (Z * FloatData)) :
  (forall row, In row rows -> stored (float_id row) table = true) ->
  fold_left (fun t row => insert_float_or_ignore row t) rows table = table.
Proof.
  induction rows as [|r rows IH]; intros H; [reflexivity|].
  cbn. unfold insert_float_or_ignore at 2.
  change (existsb _ table) with (stored (float_id r) table).
  rewrite (H r) by now left. apply IH. intros row Hrow. apply H. now right.
Qed.

Lemma inserts_length {A : Type} (rows : list A) (table : list (Z * A)) :
  List.length (fold_left (fun t row => insert row t) rows table)
  = (List.length table + List.length rows)%nat.
Proof.
  revert table. induction rows as [|r rows IH]; intros table; cbn.
  - lia.
  - rewrite IH. unfold insert. rewrite length_app. cbn. lia.
Qed.

(** Starting the service again does not touch the floats: after one start
    every sample float is stored, and a further start leaves [argo_floats]
    as it is, whatever the table held before. *)
Theorem restart_keeps_floats (d : Database) :
  Forall (fun row => stored (float_id row) (argo_floats (init_database d)) = true)
    sample_floats /\
  argo_floats (init_database (init_database d)) = argo_floats (init_database d).
Proof.
  split.
  - apply Forall_forall. intros row Hrow.
    cbn [init_database argo_floats]. now apply inserts_store.
  - cbn [init_database argo_floats]. apply inserts_ignored.
    intros row Hrow. now apply inserts_store.
Qed.

Lemma iter_floats (n : nat) :
  argo_floats (Nat.iter (S n) init_database no_tables)
  = argo_floats (init_database no_tables).
Proof.
  induction n as [|n IH]; [reflexivity|].
  change (Nat.iter (S (S n)) init_database no_tables)
    with (init_database (Nat.iter (S n) init_database no_tables)).
  cbn [init_database argo_floats]. rewrite IH.
  apply (proj2 (restart_keeps_floats no_tables)).
Qed.

(** Every start adds the three sample profiles and the two sample
    anomalies once more: after [n] starts on a fresh file the dashboard
    counts 3 floats, all active, [3 n] profiles and [2 n] anomalies. *)
Theorem restart_duplicates_rows (n : nat) (d : Database) :
  total_profiles (init_database d) = (total_profiles d + 3)%nat /\
  recent_anomalies (init_database d) = (recent_anomalies d + 2)%nat /\
  (0 < n ->
   total_floats (Nat.iter n init_database no_tables) = 3 /\
   active_floats (Nat.iter n init_database no_tables) = 3 /\
   total_profiles (Nat.iter n init_database no_tables) = 3 * n /\
   recent_anomalies (Nat.iter n init_database no_tables) = 2 * n)%nat.
Proof.
  assert (Hp : forall d, total_profiles (init_database d)
                         = (total_profiles d + 3)%nat).
  { intros d'. unfold total_profiles. cbn [init_database argo_profiles].
    now rewrite inserts_length. }
  assert (Ha : forall d, recent_anomalies (init_database d)
                         = (recent_anomalies d + 2)%nat).
  { intros d'. unfold recent_anomalies. cbn [init_database ocean_anomalies].
    now rewrite inserts_length. }
  split; [apply Hp|]. split; [apply Ha|].
  intros Hn. destruct n as [|n]; [lia|].
  unfold total_floats, active_floats. rewrite iter_floats.
  split; [reflexivity|]. split; [reflexivity|].
  clear Hn. induction n as [|n [IHp IHa]].
  - split; reflexivity.
  - change (Nat.iter (S (S n)) init_database no_tables)
      with (init_database (Nat.iter (S n) init_database no_tables)).
    rewrite Hp, Ha, IHp, IHa. lia.
Qed.

Lemma restart_duplicates_rows_witness :
  total_floats (Nat.iter 4 init_database no_tables) = 3%nat /\
  active_floats (Nat.iter 4 init_database no_tables) = 3%nat /\
  total_profiles (Nat.iter 4 init_database no_tables) = 12%nat /\
  recent_anomalies (Nat.iter 4 init_database no_tables) = 8%nat.
Proof.
  apply (proj2 (proj2 (restart_duplicates_rows 4 no_tables))). lia.
Defined.

End StartupFacts.

(** ** Where and when the detector reports *)

Module AlertMore.

Import Alerts AlertFacts.
Local Open Scope R_scope.

(** The cell an anomaly is reported at. *)
Definition place (a : Anomaly) : cell := (anomaly_latitude a, anomaly_longitude a).

(** Rounding moves a coordinate by half a degree at most. *)
Lemma py_round_near (x : R) : Rabs (IZR (py_round x) - x) <= 1 / 2.
Proof.
  unfold py_round. pose proof (Zfloor_bound x) as [Hlo Hhi].
  destruct (Rlt_dec (x - IZR (Zfloor x)) (1 / 2)) as [H1|H1].
  - apply Rabs_le. lra.
  - assert (Hup : Rabs (IZR (Zfloor x + 1) - x) <= 1 / 2)
      by (rewrite plus_IZR; apply Rabs_le; lra).
    destruct (Rlt_dec (1 / 2) (x - IZR (Zfloor x))) as [H2|H2]; [exact Hup|].
    destruct (Z.even (Zfloor x)); [apply Rabs_le; lra|exact Hup].
Qed.

(** An emitted anomaly is the anomaly of an occupied cell that passed the
    test, whatever the number of measurements. *)
Lemma detect_from_cell (v : variable) (ms : list Measurement) (a : Anomaly) :
  In a (detect v ms) ->
  exists c, In c (cells ms) /\ flagged (multiplier v) ms c /\ a = anomaly_of v ms c.
Proof.
  intros H. destruct (Nat.lt_ge_cases (List.length ms) 10) as [Hlt|Hge].
  - rewrite (detect_small v ms Hlt) in H. destruct H.
  - now apply detect_in.
Qed.

Lemma place_anomaly_of (v : variable) (ms : list Measurement) (c : cell) :
  place (anomaly_of v ms c) = c.
Proof. now destruct c. Qed.

Lemma members_in (ms : list Measurement) (c : cell) (m : Measurement) :
  In m (members ms c) <-> In m ms /\ cell_of m = c.
Proof.
  unfold members. rewrite filter_In. unfold in_cell. now rewrite cell_eqb_eq.
Qed.

(** Every anomaly sits on whole degrees, at a cell that holds at least
    one of the measurements, and within half a degree, in latitude and in
    longitude, of every measurement of that cell. *)
Theorem anomaly_near_measurements (v : variable) (ms : list Measurement)
  (a : Anomaly) :
  In a (detect v ms) ->
  (exists m, In m ms /\ cell_of m = place a) /\
  (forall m, In m ms -> cell_of m = place a ->
             Rabs (IZR (anomaly_latitude a) - m_latitude m) <= 1 / 2 /\
             Rabs (IZR (anomaly_longitude a) - m_longitude m) <= 1 / 2).
Proof.
  intros H. apply detect_from_cell in H. destruct H as (c & Hc & _ & ->).
  rewrite place_anomaly_of. split.
  - now apply in_cells.
  - intros m _ Hm. destruct c as [la lo]. cbn.
    unfold cell_of in Hm. inversion Hm. split; apply py_round_near.
Qed.

Lemma anomaly_near_measurements_witness :
  exists m, In m (surface_query temperature 0 (map stored ten)) /\
            cell_of m = (5, 5)%Z.
Proof.
  exact (proj1 (anomaly_near_measurements temperature_variable
                  (surface_query temperature 0 (map stored ten))
                  (anomaly_of temperature_variable (map reading ten) (5, 5)%Z)
                  (proj1 ten_detected))).
Defined.

(** No cell is reported twice in one run. *)
Theorem anomalies_one_per_cell (v : variable) (ms : list Measurement) :
  NoDup (map place (detect v ms)).
Proof.
  destruct (Nat.lt_ge_cases (List.length ms) 10) as [Hlt|Hge].
  - rewrite (detect_small v ms Hlt). constructor.
  - rewrite (detect_large v ms Hge). unfold flagged_cells.
    rewrite map_map.
    rewrite (map_ext _ (fun c => c) (place_anomaly_of v ms)), map_id.
    apply filter_distinct_nodup, distinct_cells_nodup.
Qed.

(** *** The time window of an anomaly *)

Lemma fold_min_le (l : list Z) (a : Z) :
  (fold_left Z.min l a <= a)%Z /\
  Forall (fun x => (fold_left Z.min l a <= x)%Z) l /\
  In (fold_left Z.min l a) (a :: l).
Proof.
  revert a. induction l as [|x l IH]; intros a; cbn [fold_left].
  - repeat split; [lia|constructor|now left].
  - destruct (IH (Z.min a x)) as (H1 & H2 & H3). repeat split.
    + lia.
    + constructor; [lia|exact H2].
    + destruct H3 as [H3|H3]; [|now right; right].
      rewrite <- H3. destruct (Z.min_spec a x) as [[_ ->]|[_ ->]];
        [now left|now right; left].
Qed.

Lemma fold_max_ge (l : list Z) (a : Z) :
  (a <= fold_left Z.max l a)%Z /\
  Forall (fun x => (x <= fold_left Z.max l a)%Z) l /\
  In (fold_left Z.max l a) (a :: l).
Proof.
  revert a. induction l as [|x l IH]; intros a; cbn [fold_left].
  - repeat split; [lia|constructor|now left].
  - destruct (IH (Z.max a x)) as (H1 & H2 & H3). repeat split.
    + lia.
    + constructor; [lia|exact H2].
    + destruct H3 as [H3|H3]; [|now right; right].
      rewrite <- H3. destruct (Z.max_spec a x) as [[_ ->]|[_ ->]];
        [now right; left|now left].
Qed.

(** The dates of a group that is not empty: the first is the earliest,
    the second the latest. *)
Lemma group_window (group : list Measurement) :
  group <> [] ->
  (forall m, In m group ->
             (min_date group <= m_profile_date m <= max_date group)%Z) /\
  (exists m, In m group /\ m_profile_date m = min_date group) /\
  (exists m, In m group /\ m_profile_date m = max_date group).
Proof.
  intros Hne. destruct group as [|m0 group]; [congruence|].
  unfold min_date, max_date. cbn [map].
  destruct (fold_min_le (map m_profile_date group) (m_profile_date m0))
    as (Hn1 & Hn2 & Hn3).
  destruct (fold_max_ge (map m_profile_date group) (m_profile_date m0))
    as (Hx1 & Hx2 & Hx3).
  rewrite Forall_forall in Hn2, Hx2. repeat split.
  - destruct H as [<-|H]; [exact Hn1|]. apply Hn2. now apply in_map.
  - destruct H as [<-|H]; [exact Hx1|]. apply Hx2. now apply in_map.
  - change (m_profile_date m0 :: map m_profile_date group)
      with (map m_profile_date (m0 :: group)) in Hn3.
    apply in_map_iff in Hn3. destruct Hn3 as (m & Hm & Hin). now exists m.
  - change (m_profile_date m0 :: map m_profile_date group)
      with (map m_profile_date (m0 :: group)) in Hx3.
    apply in_map_iff in Hx3. destruct Hx3 as (m & Hm & Hin). now exists m.
Qed.

(** The window of an anomaly is that of its cell: it starts at the
    earliest and ends at the latest profile date among the measurements of
    the cell, so it starts no later than it ends and covers each of
    them. *)
Theorem anomaly_window (v : variable) (ms : list Measurement) (a : Anomaly) :
  In a (detect v ms) ->
  (start_date a <= end_date a)%Z /\
  (forall m, In m ms -> cell_of m = place a ->
             (start_date a <= m_profile_date m <= end_date a)%Z) /\
  (exists m, In m ms /\ cell_of m = place a /\ m_profile_date m = start_date a) /\
  (exists m, In m ms /\ cell_of m = place a /\ m_profile_date m = end_date a).
Proof.
  intros H. apply detect_from_cell in H. destruct H as (c & Hc & _ & ->).
  rewrite place_anomaly_of.
  assert (Hne : members ms c <> []).
  { apply in_cells in Hc. destruct Hc as (m & Hm & Hcm).
    intros E. assert (Hin : In m (members ms c)) by now apply members_in.
    rewrite E in Hin. destruct Hin. }
  destruct (group_window (members ms c) Hne)
    as (Hall & (m1 & Hm1 & Hd1) & (m2 & Hm2 & Hd2)).
  change (start_date (anomaly_of v ms c)) with (min_date (members ms c)).
  change (end_date (anomaly_of v ms c)) with (max_date (members ms c)).
  repeat split.
  - specialize (Hall m1 Hm1). lia.
  - apply Hall. now apply members_in.
  - apply Hall. now apply members_in.
  - apply members_in in Hm1. exists m1. tauto.
  - apply members_in in Hm2. exists m2. tauto.
Qed.

Lemma anomaly_window_witness :
  (start_date (anomaly_of temperature_variable (map reading ten) (5, 5)%Z)
   <= end_date (anomaly_of temperature_variable (map reading ten) (5, 5)%Z))%Z.
Proof.
  exact (proj1 (anomaly_window temperature_variable
                  (surface_query temperature 0 (map stored ten))
                  (anomaly_of temperature_variable (map reading ten) (5, 5)%Z)
                  (proj1 ten_detected))).
Defined.

(** *** What the detector reads *)

(** The row is not fetched by the query on [field]: the variable or the
    depth is missing, the profile is older than [since_date], or the
    measurement lies deeper than 10 m. *)
Definition outside (field : JoinedRow -> option R) (since_date : Z) (r : JoinedRow)
  : Prop :=
  field r = None \/ depth r = None \/ (profile_date r < since_date)%Z \/
  exists d, depth r = Some d /\ 10 < d.

Lemma surface_query_app (field : JoinedRow -> option R) (since_date : Z)
  (t1 t2 : list JoinedRow) :
  surface_query field since_date (t1 ++ t2)
  = surface_query field since_date t1 ++ surface_query field since_date t2.
Proof. unfold surface_query. apply flat_map_app. Qed.

Lemma surface_query_outside (field : JoinedRow -> option R) (since_date : Z)
  (extra : list JoinedRow) :
  Forall (outside field since_date) extra ->
  surface_query field since_date extra = [].
Proof.
  induction 1 as [|r extra Hr _ IH]; [reflexivity|].
  unfold surface_query in *. cbn [flat_map]. rewrite IH, app_nil_r.
  destruct Hr as [Hf|[Hd|[Hdate|(d & Hd & Hdeep)]]].
  - now rewrite Hf.
  - rewrite Hd. now destruct (field r).
  - destruct (field r), (depth r); trivial.
    destruct (Z.leb_spec since_date (profile_date r)); [lia|reflexivity].
  - rewrite Hd. destruct (field r); trivial.
    destruct (since_date <=? profile_date r)%Z; trivial.
    destruct (Rle_dec d 10); [lra|reflexivity].
Qed.

Lemma surface_query_fetched (field : JoinedRow -> option R) (since_date : Z)
  (table : list JoinedRow) (m : Measurement) :
  In m (surface_query field since_date table) ->
  (since_date <= m_profile_date m)%Z /\ m_depth m <= 10.
Proof.
  unfold surface_query. intros H. apply in_flat_map in H.
  destruct H as (r & _ & H).
  destruct (field r), (depth r); try destruct H.
  destruct (Z.leb_spec since_date (profile_date r)); [|destruct H].
  destruct (Rle_dec r1 10); [|destruct H].
  destruct H as [<-|[]]. now split.
Qed.

(** The detectors read the recent surface rows and nothing else: rows
    without the variable or the depth, older than [since_date] or deeper
    than 10 m can be added to the table or taken from it without changing
    a report, and no reported window starts before [since_date]. *)
Theorem detectors_read_recent_surface
  (since_date : Z) (t1 extra t2 : list JoinedRow) (a : Anomaly) :
  (Forall (outside temperature since_date) extra ->
   _detect_temperature_anomalies (t1 ++ extra ++ t2) since_date
   = _detect_temperature_anomalies (t1 ++ t2) since_date) /\
  (Forall (outside salinity since_date) extra ->
   _detect_salinity_anomalies (t1 ++ extra ++ t2) since_date
   = _detect_salinity_anomalies (t1 ++ t2) since_date) /\
  (In a (_detect_temperature_anomalies t1 since_date) ->
   (since_date <= start_date a)%Z) /\
  (In a (_detect_salinity_anomalies t1 since_date) ->
   (since_date <= start_date a)%Z).
Proof.
  unfold _detect_temperature_anomalies, _detect_salinity_anomalies.
  split; [|split; [|split]].
  - intros H. now rewrite !surface_query_app, (surface_query_outside _ _ _ H).
  - intros H. now rewrite !surface_query_app, (surface_query_outside _ _ _ H).
  - intros H. destruct (anomaly_window _ _ _ H) as (_ & _ & (m & Hm & _ & <-) & _).
    now apply surface_query_fetched in Hm.
  - intros H. destruct (anomaly_window _ _ _ H) as (_ & _ & (m & Hm & _ & <-) & _).
    now apply surface_query_fetched in Hm.
Qed.

(** A row at 800 m, with every variable measured today. *)
Definition deep_row : JoinedRow :=
  {| latitude := 5; longitude := 5; profile_date := 0;
     temperature := Some 40; salinity := Some 40; depth := Some 800 |}.

Lemma deep_row_outside (field : JoinedRow -> option R) :
  Forall (outside field 0) [deep_row].
Proof.
  constructor; [|constructor]. right. right. right.
  exists 800. split; [reflexivity|lra].
Qed.

Lemma detectors_read_recent_surface_witness :
  _detect_temperature_anomalies (map stored ten ++ [deep_row] ++ []) 0
  = _detect_temperature_anomalies (map stored ten ++ []) 0 /\
  _detect_salinity_anomalies (map stored ten ++ [deep_row] ++ []) 0
  = _detect_salinity_anomalies (map stored ten ++ []) 0 /\
  (0 <= start_date (anomaly_of temperature_variable (map reading ten) (5, 5)%Z))%Z.
Proof.
  split; [|split].
  - exact (proj1 (detectors_read_recent_surface 0 (map stored ten) [deep_row] []
                    (anomaly_of temperature_variable (map reading ten) (5, 5)%Z))
             (deep_row_outside temperature)).
  - exact (proj1 (proj2 (detectors_read_recent_surface 0 (map stored ten)
                           [deep_row] []
                           (anomaly_of temperature_variable (map reading ten) (5, 5)%Z)))
             (deep_row_outside salinity)).
  - exact (proj1 (proj2 (proj2 (detectors_read_recent_surface 0 (map stored ten)
                                  [deep_row] []
                                  (anomaly_of temperature_variable (map reading ten)
                                     (5, 5)%Z))))
             (proj1 ten_detected)).
Defined.

End AlertMore.

(** ** The statement sent by the data service, and its synthetic records *)

Module DataServiceMore.

Import PyStr PyStrFacts Exn Rand RandFacts DataService.
Local Open Scope string_scope.







(** *** Stripping the semicolons *)






(** *** The synthetic records of the fallback *)

(** What the record of loop index [i] looks like: the seven keys in the
    order of the source, the float id cycling through FLOAT_1000 to
    FLOAT_1009, and every value within the range it was drawn from. *)
Definition fallback_record (now : Z) (i : nat) (rec : record) : Prop :=
  exists lat lon day depth temp sal,
    rec = [ ("latitude", VFloat lat); ("longitude", VFloat lon);
            ("profile_date", VDate day); ("depth", VInt depth);
            ("temperature", VFloat temp); ("salinity", VFloat sal);
            ("float_id", VStr ("FLOAT_" ++ str_of_nat (1000 + i mod 10))) ] /\
    SampleData.within (-60) 60 lat /\
    SampleData.within (-180) 180 lon /\
    (now - 365 < day <= now)%Z /\
    In depth [0; 10; 50; 100; 200; 500; 1000]%Z /\
    ((depth <= 50)%Z -> SampleData.within 15 30 temp) /\
    ((50 < depth <= 200)%Z -> SampleData.within 8 20 temp) /\
    ((200 < depth)%Z -> SampleData.within 2 8 temp) /\
    SampleData.within 34 37 sal.

Lemma sample_record_ok (G : generator) (now : Z) (i : nat) (g : state G) :
  in_range G -> fallback_record now i (fst (sample_record G now i g)).
Proof.
  intros HG. unfold sample_record, bind, ret.
  pose proof (SampleData.uniform_rounded G HG 4 (-60) 60 g ltac:(lia)) as Blat.
  change (inject_Z (-60)) with (-60)%Q in Blat. change (inject_Z 60) with 60%Q in Blat.
  destruct (uniform G (-60) 60 g) as [lat g1].
  pose proof (SampleData.uniform_rounded G HG 4 (-180) 180 g1 ltac:(lia)) as Blon.
  change (inject_Z (-180)) with (-180)%Q in Blon.
  change (inject_Z 180) with 180%Q in Blon.
  destruct (uniform G (-180) 180 g1) as [lon g2].
  pose proof (choice_range G HG [0; 10; 50; 100; 200; 500; 1000]%Z g2
                ltac:(discriminate)) as Bdepth.
  destruct (choice G [0; 10; 50; 100; 200; 500; 1000]%Z g2) as [depth g3].
  cbn [fst snd] in *.
  assert (Tail :
    forall (temp : Q) (g4 : state G),
      ((depth <= 50)%Z -> SampleData.within 15 30 (round_to 2 temp)) ->
      ((50 < depth <= 200)%Z -> SampleData.within 8 20 (round_to 2 temp)) ->
      ((200 < depth)%Z -> SampleData.within 2 8 (round_to 2 temp)) ->
      fallback_record now i
        (fst (let (a0, g'0) := uniform G 34 37 g4 in
              let (a1, g'1) := randint G 0 365 g'0 in
              ([ ("latitude", VFloat (round_to 4 lat));
                 ("longitude", VFloat (round_to 4 lon));
                 ("profile_date", VDate (now - a1)); ("depth", VInt depth);
                 ("temperature", VFloat (round_to 2 temp));
                 ("salinity", VFloat (round_to 2 a0));
                 ("float_id", VStr ("FLOAT_" ++ str_of_nat (1000 + i mod 10))) ],
               g'1)))).
  { intros temp g4 B1 B2 B3.
    pose proof (SampleData.uniform_rounded G HG 2 34 37 g4 ltac:(lia)) as Bsal.
    change (inject_Z 34) with 34%Q in Bsal. change (inject_Z 37) with 37%Q in Bsal.
    destruct (uniform G 34 37 g4) as [sal g5].
    pose proof (randint_range G HG 0 365 g5 ltac:(lia)) as Bdays.
    destruct (randint G 0 365 g5) as [days g6]. cbn [fst snd] in *.
    exists (round_to 4 lat), (round_to 4 lon), (now - days)%Z, depth,
      (round_to 2 temp), (round_to 2 sal).
    split; [reflexivity|]. split; [exact Blat|]. split; [exact Blon|].
    split; [lia|]. split; [exact Bdepth|]. split; [exact B1|].
    split; [exact B2|]. split; [exact B3|exact Bsal]. }
  destruct (Z.leb_spec depth 50) as [H50|H50];
    [|destruct (Z.leb_spec depth 200) as [H200|H200]].
  - pose proof (SampleData.uniform_rounded G HG 2 15 30 g3 ltac:(lia)) as B.
    change (inject_Z 15) with 15%Q in B. change (inject_Z 30) with 30%Q in B.
    destruct (uniform G 15 30 g3) as [t g4].
    apply Tail; intros; try lia; exact B.
  - pose proof (SampleData.uniform_rounded G HG 2 8 20 g3 ltac:(lia)) as B.
    change (inject_Z 8) with 8%Q in B. change (inject_Z 20) with 20%Q in B.
    destruct (uniform G 8 20 g3) as [t g4].
    apply Tail; intros; try lia; exact B.
  - pose proof (SampleData.uniform_rounded G HG 2 2 8 g3 ltac:(lia)) as B.
    change (inject_Z 2) with 2%Q in B. change (inject_Z 8) with 8%Q in B.
    destruct (uniform G 2 8 g3) as [t g4].
    apply Tail; intros; try lia; exact B.
Qed.

(** The fallback holds fifty records, one for each loop index, each with
    the seven keys and values within the ranges of its draws: latitude in
    [-60, 60], longitude in [-180, 180], a date within the last 365 days,
    a depth of the list, temperature in [15, 30], [8, 20] or [2, 8] by
    depth band, salinity in [34, 37], and one of ten float ids. *)
Theorem fallback_records_in_range (G : generator) (now : Z) :
  in_range G ->
  Forall2 (fallback_record now) (seq 0 50) (_generate_sample_data G now).
Proof.
  intros HG. unfold _generate_sample_data.
  apply for_each_spec. intros i g. now apply sample_record_ok.
Qed.

Lemma fallback_records_in_range_witness :
  Forall2 (fallback_record 19000) (seq 0 50) (_generate_sample_data cycling 19000).
Proof.
  exact (fallback_records_in_range cycling 19000 cycling_in_range).
Defined.

(** *** Zero read as missing *)

(** The value stored under a key of a record. *)
Fixpoint lookup (key : string) (rec : record) : option value :=
  match rec with
  | [] => None
  | (k, v) :: rec' => if String.eqb k key then Some v else lookup key rec'
  end.

(** When the fallback join succeeds, a depth, temperature or salinity is
    reported as [None] exactly when the row has none or has exactly zero
    there: a measurement at the surface comes back without its depth. *)
Theorem zero_reported_as_missing
  (G : generator) (now : Z) (S : Session) (db db' : session S) (limit : nat)
  (rows : list JoinRow) :
  execute_sample_join S limit db = (db', Ok rows) ->
  snd (get_sample_data G now S db limit) = Ok (map row_to_record rows) /\
  Forall (fun r =>
            (lookup "depth" (row_to_record r) = Some VNone
             <-> depth r = None \/ exists q, depth r = Some q /\ (q == 0)%Q) /\
            (lookup "temperature" (row_to_record r) = Some VNone
             <-> temperature r = None
                 \/ exists q, temperature r = Some q /\ (q == 0)%Q) /\
            (lookup "salinity" (row_to_record r) = Some VNone
             <-> salinity r = None \/ exists q, salinity r = Some q /\ (q == 0)%Q))
         rows.
Proof.
  intros Hjoin. split.
  - unfold get_sample_data. now rewrite Hjoin.
  - assert (Hf : forall x,
               float_or_none x = VNone
               <-> x = None \/ exists q, x = Some q /\ (q == 0)%Q).
    { intros [q|]; cbn.
      - destruct (Qeq_bool q 0) eqn:E.
        + split; [|reflexivity]. intros _. right. exists q.
          split; [reflexivity|now apply Qeq_bool_iff].
        + split; [discriminate|]. intros [H|(q' & H & Hq)]; [discriminate|].
          inversion H; subst q'. apply Qeq_bool_iff in Hq. congruence.
      - split; [now left|reflexivity]. }
    apply Forall_forall. intros r _. cbn.
    repeat split; intros H.
    + apply Hf. now inversion H.
    + f_equal. now apply Hf.
    + apply Hf. now inversion H.
    + f_equal. now apply Hf.
    + apply Hf. now inversion H.
    + f_equal. now apply Hf.
Qed.

Lemma zero_reported_as_missing_witness :
  snd (get_sample_data cycling 0 Fallback.join_only 0%nat 100)
  = Ok (map row_to_record
          [ {| latitude := 5; longitude := 150; profile_date := 0;
               depth := Some 0%Q; temperature := Some (28 # 1);
               salinity := Some (35 # 1); float_id := "ARGO_1001" |} ]).
Proof.
  exact (proj1 (zero_reported_as_missing cycling 0 Fallback.join_only 0%nat 1%nat
                  100 _ eq_refl)).
Defined.

End DataServiceMore.

(** ** How much recent activity is returned *)

Module ActivityFacts.

Import Exn Activity.

(** The database returns no more rows than the limit asks for. *)
Definition honours_limit (S : Session) : Prop :=
  forall k db,
    (0 <= k)%Z ->
    (forall db' rows, newest_profiles S k db = (db', Ok rows) ->
                      (Z.of_nat (List.length rows) <= k)%Z) /\
    (forall db' rows, newest_anomalies S k db = (db', Ok rows) ->
                      (Z.of_nat (List.length rows) <= k)%Z).

(** Newest first. *)
Definition newest_first (l : list activity) : Prop :=
  Sorted (fun a b => (timestamp b <= timestamp a)%Z) l.

Lemma insert_desc_perm (x : activity) (l : list activity) :
  Permutation (insert_desc x l) (x :: l).
Proof.
  induction l as [|y l IH]; cbn; [reflexivity|].
  destruct (timestamp x <? timestamp y)%Z; [|reflexivity].
  rewrite IH. apply perm_swap.
Qed.

Lemma sort_desc_perm (l : list activity) : Permutation (sort_desc l) l.
Proof.
  induction l as [|x l IH]; cbn; [reflexivity|].
  rewrite insert_desc_perm. now constructor.
Qed.

Lemma insert_desc_sorted (x : activity) (l : list activity) :
  newest_first l -> newest_first (insert_desc x l).
Proof.
  unfold newest_first. induction 1 as [|y l Hl IH Hy]; cbn.
  - repeat constructor.
  - destruct (Z.ltb_spec (timestamp x) (timestamp y)).
    + constructor; [exact IH|].
      destruct l as [|z l]; cbn.
      * constructor. lia.
      * destruct (Z.ltb_spec (timestamp x) (timestamp z)).
        -- constructor. now inversion Hy.
        -- constructor. lia.
    + constructor; [now constructor|]. constructor. lia.
Qed.

Lemma sort_desc_sorted (l : list activity) : newest_first (sort_desc l).
Proof.
  induction l as [|x l IH]; cbn; [constructor|].
  now apply insert_desc_sorted.
Qed.

Lemma half_twice (limit : Z) : (0 <= limit -> 2 * (limit / 2) <= limit)%Z.
Proof. intros H. pose proof (Z.mul_div_le limit 2). lia. Qed.

(** For a limit that is not negative and a database that honours limits,
    the activity returned has at most [2 * (limit // 2)] entries, so an odd
    limit is never reached and a limit of 0 or 1 returns nothing; the
    entries come newest first; and when both queries succeed the final
    slice cuts nothing: the result holds every row fetched. *)
Theorem recent_activity_bounded (S : Session) (db : session S) (limit : Z) :
  honours_limit S ->
  (0 <= limit)%Z ->
  (Z.of_nat (List.length (snd (get_recent_activity S db limit)))
   <= 2 * (limit / 2))%Z /\
  (2 * (limit / 2) <= limit)%Z /\
  (limit <= 1 -> snd (get_recent_activity S db limit) = [])%Z /\
  newest_first (snd (get_recent_activity S db limit)) /\
  (forall db1 ps db2 ans,
      newest_profiles S (limit / 2) db = (db1, Ok ps) ->
      newest_anomalies S (limit / 2) db1 = (db2, Ok ans) ->
      Permutation (snd (get_recent_activity S db limit))
        (map profile_activity ps ++ map anomaly_activity ans)).
Proof.
  intros HS Hlimit.
  assert (Hhalf : (0 <= limit / 2)%Z) by (apply Z.div_pos; lia).
  pose proof (half_twice limit Hlimit) as Htwice.
  assert (Hmain :
    (Z.of_nat (List.length (snd (get_recent_activity S db limit)))
     <= 2 * (limit / 2))%Z /\
    newest_first (snd (get_recent_activity S db limit)) /\
    (forall db1 ps db2 ans,
        newest_profiles S (limit / 2) db = (db1, Ok ps) ->
        newest_anomalies S (limit / 2) db1 = (db2, Ok ans) ->
        Permutation (snd (get_recent_activity S db limit))
          (map profile_activity ps ++ map anomaly_activity ans))).
  { unfold get_recent_activity.
    destruct (newest_profiles S (limit / 2) db) as [db1 [ps|e]] eqn:Hp.
    - destruct (newest_anomalies S (limit / 2) db1) as [db2 [ans|e]] eqn:Ha.
      + pose proof (proj1 (HS _ db Hhalf) _ _ Hp) as Lp.
        pose proof (proj2 (HS _ db1 Hhalf) _ _ Ha) as La.
        set (all := (map profile_activity ps ++ map anomaly_activity ans)%list).
        assert (Hlen : (Z.of_nat (List.length (sort_desc all)) <= 2 * (limit / 2))%Z).
        { rewrite (Permutation_length (sort_desc_perm all)).
          unfold all. rewrite length_app, !length_map. lia. }
        assert (Hslice : slice_to limit (sort_desc all) = sort_desc all).
        { unfold slice_to. destruct (Z.leb_spec 0 limit); [|lia].
          apply firstn_all2. lia. }
        cbn [snd]. rewrite Hslice. split; [exact Hlen|].
        split; [apply sort_desc_sorted|].
        intros db1' ps' db2' ans' E1 E2.
        inversion E1; subst. rewrite Ha in E2. inversion E2; subst.
        apply sort_desc_perm.
      + cbn [snd List.length Z.of_nat]. split; [lia|]. split; [constructor|].
        intros db1' ps' db2' ans' E1 E2.
        inversion E1; subst. rewrite Ha in E2. discriminate.
    - cbn [snd List.length Z.of_nat]. split; [lia|]. split; [constructor|].
      intros; discriminate. }
  destruct Hmain as (H1 & H2 & H3).
  split; [exact H1|]. split; [exact Htwice|]. split; [|split; assumption].
  intros Hsmall.
  assert (Hzero : (limit / 2 = 0)%Z) by (apply Z.div_small; lia).
  rewrite Hzero in H1.
  destruct (snd (get_recent_activity S db limit)); [reflexivity|cbn in H1; lia].
Qed.

(** A database with two profiles and one anomaly. *)
Definition small_base : Session :=
  {| session := unit;
     newest_profiles := fun k db =>
       (db, Ok (firstn (Z.to_nat k)
                  [ {| float_name := "ARGO_1002"; profile_created_at := 30;
                       profile_latitude := 5; profile_longitude := 150 |};
                    {| float_name := "ARGO_1001"; profile_created_at := 10;
                       profile_latitude := 4; profile_longitude := 151 |} ]));
     newest_anomalies := fun k db =>
       (db, Ok (firstn (Z.to_nat k)
                  [ {| anomaly_type := "heatwave"; severity := Some "high"%string;
                       anomaly_created_at := 20;
                       anomaly_latitude := 5; anomaly_longitude := 150 |} ])) |}.

Lemma small_base_honours_limit : honours_limit small_base.
Proof.
  intros k db Hk. split; intros db' rows E; inversion E; subst;
    rewrite length_firstn; lia.
Qed.

Lemma recent_activity_bounded_witness :
  snd (get_recent_activity small_base tt 1) = [] /\
  (Z.of_nat (List.length (snd (get_recent_activity small_base tt 3))) <= 2)%Z.
Proof.
  split.
  - apply (proj1 (proj2 (proj2 (recent_activity_bounded small_base tt 1
                                  small_base_honours_limit ltac:(lia))))).
    lia.
  - exact (proj1 (recent_activity_bounded small_base tt 3
                    small_base_honours_limit ltac:(lia))).
Defined.

Example recent_activity_of_four :
  map timestamp (snd (get_recent_activity small_base tt 4)) = [30; 20; 10]%Z.
Proof. reflexivity. Qed.

End ActivityFacts.

(** ** The sample-data script: profiles, satellite and buoy records *)

Module ScriptFacts.

Import Rand RandFacts SampleData.
Local Open Scope Q_scope.

(** *** Single draws *)

Lemma uniform_rounded_between (G : generator) (HG : in_range G)
  (ndigits : nat) (lo hi : Q) (a b : Z) (g : state G) :
  lo * inject_Z (10 ^ Z.of_nat ndigits) == inject_Z a ->
  hi * inject_Z (10 ^ Z.of_nat ndigits) == inject_Z b ->
  lo <= hi ->
  within lo hi (round_to ndigits (fst (uniform G lo hi g))).
Proof.
  intros Ha Hb H.
  apply (round_to_bounds ndigits lo hi _ a b Ha Hb); now apply (uniform_range G HG).
Qed.

Lemma pick_in (G : generator) (HG : in_range G) {A : Type} (default : A)
  (options : list A) (g : state G) :
  options <> [] -> In (fst (Script.pick G default options g)) options.
Proof.
  intros H. unfold Script.pick, bind, ret.
  pose proof (choice_range G HG
                (map Z.of_nat (seq 0 (List.length options))) g) as Hc.
  destruct (choice G _ g) as [i g1]. simpl in *.
  assert (Hne : map Z.of_nat (seq 0 (List.length options)) <> []).
  { destruct options; [congruence|discriminate]. }
  apply Hc in Hne. apply in_map_iff in Hne. destruct Hne as (k & <- & Hk).
  apply in_seq in Hk. rewrite Nat2Z.id. apply nth_In. lia.
Qed.

Lemma randint_incl_range (G : generator) (HG : in_range G) (a b : Z) (g : state G) :
  (a <= b)%Z ->
  (a <= fst (Script.randint_incl G a b g) <= b)%Z.
Proof.
  intros H. unfold Script.randint_incl.
  pose proof (randint_range G HG a (b + 1) g). lia.
Qed.

(** *** Measurements *)

Definition salinity_band (m : Generator.measurement) : Prop :=
  ((Generator.depth m <= 100)%Z -> within 34.5 36.5 (Generator.salinity m)) /\
  ((100 < Generator.depth m)%Z -> within 34 35 (Generator.salinity m)).

Definition oxygen_band (m : Generator.measurement) : Prop :=
  ((Generator.depth m <= 100)%Z -> within 200 300 (Generator.oxygen m)) /\
  ((100 < Generator.depth m <= 500)%Z -> within 100 200 (Generator.oxygen m)) /\
  ((500 < Generator.depth m)%Z -> within 150 250 (Generator.oxygen m)).

(** What holds of each entry of a profile. *)
Definition measurement_ok (m : Generator.measurement) : Prop :=
  Generator.pressure m = inject_Z (Generator.depth m) * 1.02 /\
  script_band m /\
  salinity_band m /\
  oxygen_band m /\
  In (Generator.quality_flag m) ["1"; "2"; "3"]%string.

Lemma generate_measurement_ok (G : generator) (HG : in_range G)
  (depth : Z) (g : state G) :
  Generator.depth (fst (Generator.generate_measurement G depth g)) = depth /\
  measurement_ok (fst (Generator.generate_measurement G depth g)).
Proof.
  pose proof (generate_measurement_band G depth g HG) as [Hd Hband].
  split; [exact Hd|].
  unfold measurement_ok. split; [|split; [exact Hband|]].
  { clear. unfold Generator.generate_measurement, bind, ret.
    repeat match goal with
           | |- context [let (_, _) := ?m ?s in _] => destruct (m s)
           end.
    reflexivity. }
  clear Hd Hband.
  unfold Generator.generate_measurement, bind, ret.
  set (mt := if (depth <=? 50)%Z then _ else _).
  destruct (mt g) as [t g1]. clear mt.
  set (ms := if (depth <=? 100)%Z then _ else _).
  assert (Hs : forall s,
             ((depth <= 100)%Z -> within 34.5 36.5 (round_to 2 (fst (ms s)))) /\
             ((100 < depth)%Z -> within 34 35 (round_to 2 (fst (ms s))))).
  { intros s. subst ms. destruct (Z.leb_spec depth 100) as [H|H].
    - split; [intros _|lia].
      apply (uniform_rounded_between G HG 2 34.5 36.5 3450 3650);
        vm_compute; solve [reflexivity | discriminate].
    - split; [lia|intros _].
      apply (uniform_rounded_between G HG 2 34 35 3400 3500);
        vm_compute; solve [reflexivity | discriminate]. }
  specialize (Hs g1). destruct (ms g1) as [s g2]. clear ms.
  set (mo := if (depth <=? 100)%Z then _ else _).
  assert (Ho : forall s,
             ((depth <= 100)%Z -> within 200 300 (round_to 1 (fst (mo s)))) /\
             ((100 < depth <= 500)%Z -> within 100 200 (round_to 1 (fst (mo s)))) /\
             ((500 < depth)%Z -> within 150 250 (round_to 1 (fst (mo s))))).
  { intros s'. subst mo. destruct (Z.leb_spec depth 100) as [H|H];
      [|destruct (Z.leb_spec depth 500) as [H'|H']].
    - split; [intros _|split; lia].
      apply (uniform_rounded_between G HG 1 200 300 2000 3000);
        vm_compute; solve [reflexivity | discriminate].
    - split; [lia|split; [intros _|lia]].
      apply (uniform_rounded_between G HG 1 100 200 1000 2000);
        vm_compute; solve [reflexivity | discriminate].
    - split; [lia|split; [lia|intros _]].
      apply (uniform_rounded_between G HG 1 150 250 1500 2500);
        vm_compute; solve [reflexivity | discriminate]. }
  specialize (Ho g2). destruct (mo g2) as [o g3]. clear mo.
  pose proof (choice_range G HG [1; 1; 1; 2; 3]%Z g3 ltac:(discriminate)) as Hf.
  destruct (choice G [1; 1; 1; 2; 3]%Z g3) as [f g4].
  unfold salinity_band, oxygen_band. simpl in *.
  split; [exact Hs|]. split; [exact Ho|].
  destruct Hf as [<-|[<-|[<-|[<-|[<-|[]]]]]]; simpl; tauto.
Qed.

Lemma generate_measurements_ok (G : generator) (HG : in_range G) (g : state G) :
  map Generator.depth (fst (Generator.generate_measurements G g)) = Generator.depths /\
  Forall measurement_ok (fst (Generator.generate_measurements G g)).
Proof.
  unfold Generator.generate_measurements.
  pose proof (for_each_spec
                (fun d m => Generator.depth m = d /\ measurement_ok m)
                (Generator.generate_measurement G)
                (generate_measurement_ok G HG) Generator.depths g) as H.
  induction H as [|d m ds ms [Hd Hm] _ [IHd IHm]]; simpl.
  - split; constructor.
  - split; [now rewrite Hd, IHd|now constructor].
Qed.

(** Every profile of the script has the twenty-one depth levels of
    [depths], in that order, each with pressure 1.02 times the depth,
    temperature, salinity and oxygen within the band of its depth and a
    quality flag among 1, 2 and 3, for any generator whose draws respect
    their documented ranges. *)
Theorem script_measurements_by_depth (G : generator) (g : state G) :
  in_range G ->
  map Generator.depth (fst (Generator.generate_measurements G g)) = Generator.depths /\
  Forall measurement_ok (fst (Generator.generate_measurements G g)).
Proof. intros HG. now apply generate_measurements_ok. Qed.

Lemma script_measurements_by_depth_witness :
  map Generator.depth (fst (Generator.generate_measurements cycling 0%Z))
  = Generator.depths /\
  Forall measurement_ok (fst (Generator.generate_measurements cycling 0%Z)).
Proof. exact (script_measurements_by_depth cycling 0%Z cycling_in_range). Defined.

(** *** Profiles *)

(** The project names of the regions, with the bounds of latitude and
    longitude. *)
Definition studies : list (string * (Z * Z) * (Z * Z)) :=
  [ ("North Atlantic Study", (40, 60), (-60, -10));
    ("South Atlantic Study", (-40, -10), (-50, 10));
    ("North Pacific Study", (20, 50), (120, 180));
    ("South Pacific Study", (-50, -20), (120, 180));
    ("Indian Ocean Study", (-40, 20), (40, 120));
    ("Southern Ocean Study", (-70, -40), (-180, 180)) ]%Z%string.

Definition between (bounds : Z * Z) (x : Q) : Prop :=
  within (inject_Z (fst bounds)) (inject_Z (snd bounds)) x.

Definition profile_ok (now : Z) (p : Script.profile) : Prop :=
  (exists i, (i < 20)%nat /\
             Script.float_id p = ("ARGO_" ++ PyStr.str_of_nat (1000 + i))%string /\
             Script.platform_number p = PyStr.str_of_nat (1000 + i)) /\
  (exists lat lon, In (Script.project_name p, lat, lon) studies /\
                   between lat (Script.latitude p) /\
                   between lon (Script.longitude p)) /\
  (now - 365 <= Script.profile_date p <= now)%Z /\
  (1 <= Script.cycle_number p <= 200)%Z /\
  Script.profile_type p = "primary"%string /\
  In (Script.data_mode p) ["R"; "D"]%string /\
  map Generator.depth (Script.measurements p) = Generator.depths /\
  Forall measurement_ok (Script.measurements p).

Lemma studies_of_regions :
  map (fun r => ((Script.title (Script.replace_char "_" " " (Script.region_name r))
                   ++ " Study")%string,
                 Script.lat_bounds r, Script.lon_bounds r)) Script.regions
  = studies.
Proof. reflexivity. Qed.

Lemma platform_numbers :
  Forall (fun i => nth 1 (Script.split_on "_"
                            ("ARGO_" ++ PyStr.str_of_nat (1000 + i))%string)
                     ""%string
                   = PyStr.str_of_nat (1000 + i))
    (seq 0 20).
Proof. repeat constructor. Qed.

Lemma generate_argo_profile_ok (G : generator) (HG : in_range G) (now : Z)
  (g : state G) :
  profile_ok now (fst (Script.generate_argo_profile G now g)).
Proof.
  unfold Script.generate_argo_profile, bind, ret.
  pose proof (pick_in G HG Script.no_region Script.regions g ltac:(discriminate))
    as Hr.
  destruct (Script.pick G Script.no_region Script.regions g) as [region g1].
  pose proof (pick_in G HG ""%string Script.float_ids g1 ltac:(discriminate)) as Hf.
  destruct (Script.pick G ""%string Script.float_ids g1) as [fid g2].
  pose proof (randint_incl_range G HG 0 365 g2 ltac:(lia)) as Hd.
  destruct (Script.randint_incl G 0 365 g2) as [days g3].
  simpl fst in *.
  assert (Hb : (fst (Script.lat_bounds region) <= snd (Script.lat_bounds region))%Z /\
               (fst (Script.lon_bounds region) <= snd (Script.lon_bounds region))%Z).
  { simpl in Hr. decompose [or] Hr; try contradiction; subst region; simpl; lia. }
  destruct Hb as [Hblat Hblon].
  pose proof (uniform_rounded G HG 4 _ _ g3 Hblat) as Hlat.
  destruct (uniform G _ _ g3) as [lat g4].
  pose proof (uniform_rounded G HG 4 _ _ g4 Hblon) as Hlon.
  destruct (uniform G _ _ g4) as [lon g5].
  pose proof (generate_measurements_ok G HG g5) as [Hdepths Hms].
  destruct (Generator.generate_measurements G g5) as [ms g6].
  pose proof (randint_incl_range G HG 1 200 g6 ltac:(lia)) as Hc.
  destruct (Script.randint_incl G 1 200 g6) as [cycle g7].
  pose proof (pick_in G HG ""%string ["R"; "D"]%string g7 ltac:(discriminate)) as Hm.
  destruct (Script.pick G ""%string ["R"; "D"]%string g7) as [mode g8].
  simpl fst in *. unfold profile_ok. cbn [fst Script.float_id Script.platform_number
    Script.profile_date Script.latitude Script.longitude Script.cycle_number
    Script.profile_type Script.data_mode Script.project_name Script.measurements].
  split.
  { unfold Script.float_ids in Hf. apply in_map_iff in Hf.
    destruct Hf as (i & <- & Hi). apply in_seq in Hi. exists i.
    split; [lia|]. split; [reflexivity|].
    pose proof platform_numbers as P. rewrite Forall_forall in P.
    apply P. apply in_seq. lia. }
  split.
  { exists (Script.lat_bounds region), (Script.lon_bounds region).
    split; [|split; [exact Hlat|exact Hlon]].
    rewrite <- studies_of_regions.
    exact (in_map
             (fun r => ((Script.title
                           (Script.replace_char "_" " " (Script.region_name r))
                         ++ " Study")%string,
                        Script.lat_bounds r, Script.lon_bounds r))
             _ region Hr). }
  split; [lia|]. split; [lia|]. split; [reflexivity|].
  split; [exact Hm|]. split; assumption.
Qed.

(** [generate_argo_profiles(n)] returns [n] profiles.  Each names one of
    the twenty floats ARGO_1000 .. ARGO_1019 and has the digits of that
    name as platform number; its project is the study of one of the six
    regions, and its position lies within the bounds of that region; its
    date is at most 365 days old, its cycle number between 1 and 200, its
    data mode R or D, and its measurements are the twenty-one levels of a
    profile. *)
Theorem script_profiles_wellformed (G : generator) (now : Z) (n : nat)
  (g : state G) :
  in_range G ->
  List.length (fst (Script.generate_argo_profiles G now n g)) = n /\
  Forall (profile_ok now) (fst (Script.generate_argo_profiles G now n g)).
Proof.
  intros HG. unfold Script.generate_argo_profiles.
  exact (draws_spec (profile_ok now) (Script.generate_argo_profile G now)
           (generate_argo_profile_ok G HG now) n g).
Qed.

Lemma script_profiles_wellformed_witness :
  List.length (fst (Script.generate_argo_profiles cycling 700 3 0%Z)) = 3%nat /\
  Forall (profile_ok 700) (fst (Script.generate_argo_profiles cycling 700 3 0%Z)).
Proof. exact (script_profiles_wellformed cycling 700 3 0%Z cycling_in_range). Defined.

(** *** Satellite records *)

Definition satellite_ok (now : Z) (r : Script.satellite_record) : Prop :=
  In (Script.satellite_name r, Script.instrument r)
    [ ("MODIS-Aqua", "MODIS"); ("MODIS-Terra", "MODIS"); ("VIIRS-SNPP", "VIIRS");
      ("Sentinel-3A", "Sentinel"); ("Sentinel-3B", "Sentinel") ]%string /\
  ((Script.data_type r = "SST"%string /\ Script.unit r = "Celsius"%string /\
    within (-2) 35 (Script.value r)) \/
   (Script.data_type r = "chlorophyll"%string /\ Script.unit r = "mg/m^3"%string /\
    within 0.1 10 (Script.value r)) \/
   (Script.data_type r = "sea_level_anomaly"%string /\
    Script.unit r = "meters"%string /\
    within (-0.5) 0.5 (Script.value r))) /\
  within (-70) 70 (Script.satellite_latitude r) /\
  within (-180) 180 (Script.satellite_longitude r) /\
  (now - 30 <= Script.measurement_date r <= now)%Z /\
  In (Script.quality_level r) ["L2"; "L3"]%string.

Lemma generate_satellite_record_ok (G : generator) (HG : in_range G) (now : Z)
  (g : state G) :
  satellite_ok now (fst (Script.generate_satellite_record G now g)).
Proof.
  unfold Script.generate_satellite_record, bind, ret.
  pose proof (uniform_rounded G HG 4 (-70) 70 g ltac:(lia)) as Hlat.
  change (inject_Z (-70)) with (-70) in Hlat. change (inject_Z 70) with 70 in Hlat.
  destruct (uniform G (-70) 70 g) as [lat g1].
  pose proof (uniform_rounded G HG 4 (-180) 180 g1 ltac:(lia)) as Hlon.
  change (inject_Z (-180)) with (-180) in Hlon.
  change (inject_Z 180) with 180 in Hlon.
  destruct (uniform G (-180) 180 g1) as [lon g2].
  pose proof (randint_incl_range G HG 0 30 g2 ltac:(lia)) as Hd.
  destruct (Script.randint_incl G 0 30 g2) as [days g3].
  pose proof (pick_in G HG ""%string Script.satellites g3 ltac:(discriminate)) as Hs.
  destruct (Script.pick G ""%string Script.satellites g3) as [satellite g4].
  pose proof (pick_in G HG ""%string Script.data_types g4 ltac:(discriminate)) as Ht.
  destruct (Script.pick G ""%string Script.data_types g4) as [data_type g5].
  simpl fst in *.
  assert (Hv : forall vu s,
             vu = fst ((if String.eqb data_type "SST" then
                          fun s0 => let (v, s1) := uniform G (-2) 35 s0 in
                                    (v, "Celsius"%string, s1)
                        else if String.eqb data_type "chlorophyll" then
                          fun s0 => let (v, s1) := uniform G 0.1 10.0 s0 in
                                    (v, "mg/m^3"%string, s1)
                        else
                          fun s0 => let (v, s1) := uniform G (-0.5) 0.5 s0 in
                                    (v, "meters"%string, s1)) s) ->
             (data_type = "SST"%string /\ snd vu = "Celsius"%string /\
              within (-2) 35 (round_to 2 (fst vu))) \/
             (data_type = "chlorophyll"%string /\ snd vu = "mg/m^3"%string /\
              within 0.1 10 (round_to 2 (fst vu))) \/
             (data_type = "sea_level_anomaly"%string /\ snd vu = "meters"%string /\
              within (-0.5) 0.5 (round_to 2 (fst vu)))).
  { intros vu s ->. simpl in Ht.
    destruct Ht as [<-|[<-|[<-|[]]]].
    - change (("SST" =? "SST")%string) with true. cbv iota.
      left. split; [reflexivity|].
      pose proof (uniform_rounded_between G HG 2 (-2) 35 (-200) 3500 s
                    ltac:(vm_compute; reflexivity) ltac:(vm_compute; reflexivity)
                    ltac:(vm_compute; discriminate)) as B.
      destruct (uniform G (-2) 35 s) as [v s1]. split; [reflexivity|exact B].
    - change (("chlorophyll" =? "SST")%string) with false.
      change (("chlorophyll" =? "chlorophyll")%string) with true. cbv iota.
      right; left. split; [reflexivity|].
      pose proof (uniform_rounded_between G HG 2 0.1 10.0 10 1000 s
                    ltac:(vm_compute; reflexivity) ltac:(vm_compute; reflexivity)
                    ltac:(vm_compute; discriminate)) as B.
      destruct (uniform G 0.1 10.0 s) as [v s1]. split; [reflexivity|].
      destruct B as [B1 B2]. split; [exact B1|].
      apply Qle_trans with 10.0; [exact B2|vm_compute; discriminate].
    - change (("sea_level_anomaly" =? "SST")%string) with false.
      change (("sea_level_anomaly" =? "chlorophyll")%string) with false. cbv iota.
      right; right. split; [reflexivity|].
      pose proof (uniform_rounded_between G HG 2 (-0.5) 0.5 (-50) 50 s
                    ltac:(vm_compute; reflexivity) ltac:(vm_compute; reflexivity)
                    ltac:(vm_compute; discriminate)) as B.
      destruct (uniform G (-0.5) 0.5 s) as [v s1]. split; [reflexivity|exact B]. }
  specialize (fun vu => Hv vu g5).
  match goal with
  | |- context [let (_, _) := ?m g5 in _] =>
      specialize (Hv (fst (m g5)) eq_refl); destruct (m g5) as [vu g6]
  end.
  pose proof (pick_in G HG ""%string ["L2"; "L3"]%string g6 ltac:(discriminate)) as Hl.
  destruct (Script.pick G ""%string ["L2"; "L3"]%string g6) as [level g7].
  simpl fst in *. unfold satellite_ok.
  cbn [fst Script.satellite_name Script.instrument Script.data_type
       Script.measurement_date Script.satellite_latitude Script.satellite_longitude
       Script.value Script.unit Script.quality_level].
  split.
  { simpl in Hs. destruct Hs as [<-|[<-|[<-|[<-|[<-|[]]]]]]; simpl; tauto. }
  split; [exact Hv|]. split; [exact Hlat|]. split; [exact Hlon|].
  split; [lia|exact Hl].
Qed.

(** [generate_satellite_data(n)] returns [n] records.  In each the
    instrument is the satellite's name up to its dash, the unit and the
    range of the value follow the data type (SST in Celsius within
    [-2, 35], chlorophyll in mg/m^3 within [0.1, 10], sea level anomaly
    in meters within [-0.5, 0.5]), the position is within [-70, 70] by
    [-180, 180], the date at most 30 days old and the level L2 or L3. *)
Theorem script_satellite_wellformed (G : generator) (now : Z) (n : nat)
  (g : state G) :
  in_range G ->
  List.length (fst (Script.generate_satellite_data G now n g)) = n /\
  Forall (satellite_ok now) (fst (Script.generate_satellite_data G now n g)).
Proof.
  intros HG. unfold Script.generate_satellite_data.
  exact (draws_spec (satellite_ok now) (Script.generate_satellite_record G now)
           (generate_satellite_record_ok G HG now) n g).
Qed.

Lemma script_satellite_wellformed_witness :
  List.length (fst (Script.generate_satellite_data cycling 700 4 0%Z)) = 4%nat /\
  Forall (satellite_ok 700) (fst (Script.generate_satellite_data cycling 700 4 0%Z)).
Proof. exact (script_satellite_wellformed cycling 700 4 0%Z cycling_in_range). Defined.

(** *** Buoy records *)

Definition buoy_ok (now : Z) (r : Script.buoy_record) : Prop :=
  (exists number, (10000 <= number <= 99999)%Z /\
                  Script.buoy_id r = ("BUOY_" ++ PyStr.str_of_Z number)%string) /\
  In (Script.buoy_type r) ["moored"; "drifting"]%string /\
  (now - 168 <= Script.buoy_date r <= now)%Z /\
  within (-60) 60 (Script.buoy_latitude r) /\
  within (-180) 180 (Script.buoy_longitude r) /\
  within 0 35 (Script.sea_surface_temperature r) /\
  within (-10) 40 (Script.air_temperature r) /\
  within 0 25 (Script.wind_speed r) /\
  (0 <= Script.wind_direction r <= 360)%Z /\
  within 0 8 (Script.wave_height r) /\
  within 980 1030 (Script.atmospheric_pressure r).

Lemma generate_buoy_record_ok (G : generator) (HG : in_range G) (now : Z)
  (g : state G) :
  buoy_ok now (fst (Script.generate_buoy_record G now g)).
Proof.
  unfold Script.generate_buoy_record, bind, ret.
  pose proof (uniform_rounded G HG 4 (-60) 60 g ltac:(lia)) as Hlat.
  unfold inject_Z in Hlat.
  destruct (uniform G (-60) 60 g) as [lat g1].
  pose proof (uniform_rounded G HG 4 (-180) 180 g1 ltac:(lia)) as Hlon.
  unfold inject_Z in Hlon.
  destruct (uniform G (-180) 180 g1) as [lon g2].
  pose proof (randint_incl_range G HG 0 (24 * 7) g2 ltac:(lia)) as Hh.
  destruct (Script.randint_incl G 0 (24 * 7) g2) as [hours g3].
  pose proof (randint_incl_range G HG 10000 99999 g3 ltac:(lia)) as Hn.
  destruct (Script.randint_incl G 10000 99999 g3) as [number g4].
  pose proof (pick_in G HG ""%string ["moored"; "drifting"]%string g4
                ltac:(discriminate)) as Hk.
  destruct (Script.pick G ""%string ["moored"; "drifting"]%string g4) as [kind g5].
  pose proof (uniform_rounded G HG 2 0 35 g5 ltac:(lia)) as Hsst.
  unfold inject_Z in Hsst.
  destruct (uniform G 0 35 g5) as [sst g6].
  pose proof (uniform_rounded G HG 2 (-10) 40 g6 ltac:(lia)) as Hair.
  unfold inject_Z in Hair.
  destruct (uniform G (-10) 40 g6) as [air g7].
  pose proof (uniform_rounded G HG 1 0 25 g7 ltac:(lia)) as Hspeed.
  unfold inject_Z in Hspeed.
  destruct (uniform G 0 25 g7) as [speed g8].
  pose proof (randint_incl_range G HG 0 360 g8 ltac:(lia)) as Hdir.
  destruct (Script.randint_incl G 0 360 g8) as [direction g9].
  pose proof (uniform_rounded G HG 1 0 8 g9 ltac:(lia)) as Hwave.
  unfold inject_Z in Hwave.
  destruct (uniform G 0 8 g9) as [wave g10].
  pose proof (uniform_rounded G HG 1 980 1030 g10 ltac:(lia)) as Hp.
  unfold inject_Z in Hp.
  destruct (uniform G 980 1030 g10) as [pressure g11].
  simpl fst in *. unfold buoy_ok.
  cbn [fst Script.buoy_id Script.buoy_type Script.buoy_date Script.buoy_latitude
       Script.buoy_longitude Script.sea_surface_temperature Script.air_temperature
       Script.wind_speed Script.wind_direction Script.wave_height
       Script.atmospheric_pressure].
  split; [exists number; split; [lia|reflexivity]|].
  split; [exact Hk|]. split; [lia|].
  split; [exact Hlat|]. split; [exact Hlon|]. split; [exact Hsst|].
  split; [exact Hair|]. split; [exact Hspeed|]. split; [lia|].
  split; [exact Hwave|exact Hp].
Qed.

(** [generate_buoy_data(n)] returns [n] records.  Each has an id BUOY_
    followed by a number of five digits, is moored or drifting, is at
    most 168 hours old, and has position, temperatures, wind, waves and
    pressure within the ranges the script draws them from; the wind
    direction lies between 0 and 360, both included. *)
Theorem script_buoys_wellformed (G : generator) (now : Z) (n : nat)
  (g : state G) :
  in_range G ->
  List.length (fst (Script.generate_buoy_data G now n g)) = n /\
  Forall (buoy_ok now) (fst (Script.generate_buoy_data G now n g)).
Proof.
  intros HG. unfold Script.generate_buoy_data.
  exact (draws_spec (buoy_ok now) (Script.generate_buoy_record G now)
           (generate_buoy_record_ok G HG now) n g).
Qed.

Lemma script_buoys_wellformed_witness :
  List.length (fst (Script.generate_buoy_data cycling 700 4 0%Z)) = 4%nat /\
  Forall (buoy_ok 700) (fst (Script.generate_buoy_data cycling 700 4 0%Z)).
Proof. exact (script_buoys_wellformed cycling 700 4 0%Z cycling_in_range). Defined.

End ScriptFacts.

(** ** Anomalies and alerts in the database *)

Module AlertStoreFacts.

Import PyStr Raising Alerts AlertStore.
Local Open Scope string_scope.

(** *** The detection run *)

Lemma commit_nothing (db : Database) : commit_anomalies [] db = Done db.
Proof.
  unfold commit_anomalies. cbn [forallb]. destruct db; cbn.
  now rewrite app_nil_r.
Qed.

Lemma commit_detected (a : Anomaly) (l : list Anomaly) (db : Database) :
  commit_anomalies (map new_OceanAnomaly (a :: l)) db
  = Raised (IntegrityError "location").
Proof. reflexivity. Qed.

(** The detection run leaves the database as it was, whatever the
    measurements: a row built from a detector's dictionary has no
    [location], which models.py declares not nullable, so the commit is
    refused and rolled back when anything was detected; when nothing
    was, nothing is added.  No alert is created in either case. *)
Theorem detection_stores_nothing (uuid4 : nat -> string)
  (render : Anomaly -> string) (utcnow : Z) (db : Database) :
  run_anomaly_detection uuid4 render utcnow db = db.
Proof.
  unfold run_anomaly_detection.
  destruct (_detect_temperature_anomalies _ _ ++ _detect_salinity_anomalies _ _)%list
    as [|a l].
  - now rewrite commit_nothing.
  - now rewrite commit_detected.
Qed.

(** A database holding the ten readings of [AlertFacts.ten], nothing
    else. *)
Definition ten_readings : Database :=
  {| measurements := map AlertFacts.stored AlertFacts.ten;
     ocean_anomalies := [];
     users := [];
     user_alerts := [] |}.

(** The run at the end of the seventh day finds the hot cell of the ten
    readings, and the table of anomalies stays empty. *)
Example found_and_not_stored (uuid4 : nat -> string) (render : Anomaly -> string) :
  _detect_temperature_anomalies (measurements ten_readings)
    (timedelta_days 7 - timedelta_days 7) <> [] /\
  ocean_anomalies
    (run_anomaly_detection uuid4 render (timedelta_days 7) ten_readings) = [].
Proof.
  split.
  - rewrite Z.sub_diag. intros H.
    pose proof (proj1 AlertFacts.ten_detected) as Hin.
    cbn [measurements ten_readings] in H. rewrite H in Hin. destruct Hin.
  - unfold run_anomaly_detection.
    destruct (_detect_temperature_anomalies _ _ ++ _detect_salinity_anomalies _ _)%list
      as [|a l].
    + now rewrite commit_nothing.
    + now rewrite commit_detected.
Qed.

(** *** Sending alerts *)

Lemma number_from_length {A B : Type} (f : nat -> A -> B) (l : list A) :
  forall start, List.length (number_from f start l) = List.length l.
Proof. induction l as [|a l IH]; intros start; simpl; [reflexivity|now rewrite IH]. Qed.

Lemma number_from_in {A B : Type} (f : nat -> A -> B) (l : list A) (b : B) :
  forall start, In b (number_from f start l) -> exists k a, In a l /\ b = f k a.
Proof.
  induction l as [|a l IH]; intros start H; simpl in H; [destruct H|].
  destruct H as [<-|H].
  - exists start, a. split; [now left|reflexivity].
  - destruct (IH _ H) as (k & a' & Ha & ->). exists k, a'. split; [now right|reflexivity].
Qed.

Lemma number_from_covers {A B : Type} (f : nat -> A -> B) (l : list A) (a : A) :
  forall start, In a l -> exists k, In (f k a) (number_from f start l).
Proof.
  induction l as [|a' l IH]; intros start H; [destruct H|].
  destruct H as [->|H].
  - exists start. now left.
  - destruct (IH (S start) H) as [k Hk]. exists k. now right.
Qed.

Lemma alerts_due_length {A : Type} (recipients : list User) (anomalies : list A) :
  List.length (alerts_due recipients anomalies)
  = (List.length recipients * List.length anomalies)%nat.
Proof.
  unfold alerts_due. induction recipients as [|u us IH]; simpl; [reflexivity|].
  now rewrite length_app, length_map, IH.
Qed.

Lemma alerts_due_in {A : Type} (recipients : list User) (anomalies : list A)
  (u : User) (a : A) :
  In (u, a) (alerts_due recipients anomalies) <-> In u recipients /\ In a anomalies.
Proof.
  unfold alerts_due. rewrite in_flat_map. split.
  - intros (u' & Hu & H). apply in_map_iff in H. destruct H as (a' & E & Ha).
    inversion E; subst. now split.
  - intros [Hu Ha]. exists u. split; [exact Hu|].
    apply in_map_iff. exists a. now split.
Qed.

(** What an alert says of a user and an anomaly. *)
Definition alert_about (render : Anomaly -> string) (u : User) (anomaly : Anomaly)
  (alert : UserAlert) : Prop :=
  user_id alert = ident u /\
  alert_type alert = "anomaly_" ++ anomaly_type anomaly /\
  message alert = render anomaly /\
  is_read alert = false.

(** [_send_anomaly_alerts] keeps the alerts that were there and appends
    one unread alert for every pair of an anomaly and an active user
    who is a scientist, a policymaker or an admin: as many alerts as
    there are such users times anomalies, every one of them about such
    a user and one of the anomalies, and one for each pair.  The other
    tables stay as they were. *)
Theorem alerts_for_each_recipient (uuid4 : nat -> string)
  (render : Anomaly -> string) (utcnow : Z) (anomalies : list Anomaly)
  (db : Database) :
  let after := _send_anomaly_alerts uuid4 render utcnow anomalies db in
  let recipients := filter receives_alerts (users db) in
  exists added,
    user_alerts after = (user_alerts db ++ added)%list /\
    List.length added = (List.length recipients * List.length anomalies)%nat /\
    Forall (fun alert => exists u anomaly,
                In u recipients /\ In anomaly anomalies /\
                alert_about render u anomaly alert) added /\
    Forall (fun u =>
              Forall (fun anomaly =>
                        exists alert, In alert added /\
                                      alert_about render u anomaly alert)
                anomalies) recipients /\
    measurements after = measurements db /\
    ocean_anomalies after = ocean_anomalies db /\
    users after = users db.
Proof.
  cbv zeta. unfold _send_anomaly_alerts. cbn [user_alerts measurements ocean_anomalies users].
  eexists. split; [reflexivity|].
  split; [now rewrite number_from_length, alerts_due_length|].
  split; [|split; [|repeat split]].
  - apply Forall_forall. intros alert H.
    apply number_from_in in H. destruct H as (k & [u anomaly] & Hin & ->).
    apply alerts_due_in in Hin. destruct Hin as [Hu Ha].
    exists u, anomaly. repeat split; assumption.
  - apply Forall_forall. intros u Hu. apply Forall_forall. intros anomaly Ha.
    assert (Hin : In (u, anomaly)
                    (alerts_due (filter receives_alerts (users db)) anomalies))
      by now apply alerts_due_in.
    destruct (number_from_covers (new_alert uuid4 render utcnow) _ _
                (List.length (user_alerts db)) Hin) as [k Hk].
    eexists. split; [exact Hk|]. repeat split.
Qed.

(** *** Reading alerts *)

Definition descending {A : Type} (key : A -> Z) : list A -> Prop :=
  StronglySorted (fun a b => (key b <= key a)%Z).

Lemma insert_by_first {A : Type} (key : A -> Z) (x : A) (l : list A) :
  Forall (fun y => (key y <= key x)%Z) l -> insert_by key x l = x :: l.
Proof.
  intros H. destruct l as [|y l]; [reflexivity|]. simpl.
  inversion H; subst. destruct (Z.leb_spec (key y) (key x)); [reflexivity|lia].
Qed.

Lemma insert_by_in {A : Type} (key : A -> Z) (x y : A) (l : list A) :
  In y (insert_by key x l) <-> y = x \/ In y l.
Proof.
  induction l as [|z l IH]; simpl.
  - intuition.
  - destruct (key z <=? key x)%Z; simpl; [intuition|].
    rewrite IH. intuition.
Qed.

Lemma order_by_desc_in {A : Type} (key : A -> Z) (y : A) (l : list A) :
  In y (order_by_desc key l) <-> In y l.
Proof.
  induction l as [|x l IH]; [reflexivity|].
  cbn [order_by_desc fold_right]. rewrite insert_by_in.
  change (fold_right (insert_by key) [] l) with (order_by_desc key l).
  rewrite IH. simpl. intuition.
Qed.

Lemma insert_by_descending {A : Type} (key : A -> Z) (x : A) (l : list A) :
  descending key l -> descending key (insert_by key x l).
Proof.
  unfold descending. induction l as [|y l IH]; intros H; simpl.
  - constructor; constructor.
  - inversion H as [|? ? Hl Hy]; subst.
    destruct (Z.leb_spec (key y) (key x)) as [Hle|Hgt].
    + constructor; [exact H|]. constructor; [exact Hle|].
      rewrite Forall_forall in Hy |- *. intros z Hz. specialize (Hy z Hz). lia.
    + constructor; [now apply IH|].
      apply Forall_forall. intros z Hz. apply insert_by_in in Hz.
      destruct Hz as [->|Hz]; [lia|].
      rewrite Forall_forall in Hy. now apply Hy.
Qed.

Lemma order_by_desc_descending {A : Type} (key : A -> Z) (l : list A) :
  descending key (order_by_desc key l).
Proof.
  induction l as [|x l IH]; simpl; [constructor|now apply insert_by_descending].
Qed.

Lemma insert_by_filter {A : Type} (key : A -> Z) (p : A -> bool) (x : A)
  (l : list A) :
  descending key l ->
  filter p (insert_by key x l)
  = if p x then insert_by key x (filter p l) else filter p l.
Proof.
  unfold descending. induction l as [|y l IH]; intros H.
  - simpl. now destruct (p x).
  - inversion H as [|? ? Hl Hy]; subst. cbn [insert_by].
    destruct (Z.leb_spec (key y) (key x)) as [Hle|Hgt].
    + cbn [filter]. destruct (p x) eqn:Px; [|reflexivity].
      destruct (p y) eqn:Py.
      * cbn [insert_by]. destruct (Z.leb_spec (key y) (key x)); [reflexivity|lia].
      * symmetry. apply insert_by_first.
        apply Forall_forall. intros z Hz. apply filter_In in Hz.
        rewrite Forall_forall in Hy. specialize (Hy z (proj1 Hz)). lia.
    + cbn [filter]. rewrite (IH Hl).
      destruct (p x) eqn:Px; destruct (p y) eqn:Py; try reflexivity.
      cbn [insert_by]. destruct (Z.leb_spec (key y) (key x)); [lia|reflexivity].
Qed.

(** Selecting rows and ordering them commute. *)
Lemma order_by_desc_filter {A : Type} (key : A -> Z) (p : A -> bool) (l : list A) :
  filter p (order_by_desc key l) = order_by_desc key (filter p l).
Proof.
  induction l as [|x l IH]; [reflexivity|]. cbn [order_by_desc fold_right].
  change (fold_right (insert_by key) [] l) with (order_by_desc key l).
  rewrite insert_by_filter by apply order_by_desc_descending.
  cbn [filter]. destruct (p x); [|exact IH].
  cbn [fold_right].
  change (fold_right (insert_by key) [] (filter p l))
    with (order_by_desc key (filter p l)).
  now rewrite IH.
Qed.

Lemma insert_by_map {A : Type} (key : A -> Z) (g : A -> A) (x : A) (l : list A) :
  (forall a, key (g a) = key a) ->
  insert_by key (g x) (map g l) = map g (insert_by key x l).
Proof.
  intros Hg. induction l as [|y l IH]; [reflexivity|]. simpl.
  rewrite !Hg. destruct (key y <=? key x)%Z; [reflexivity|].
  simpl. now rewrite IH.
Qed.

Lemma order_by_desc_map {A : Type} (key : A -> Z) (g : A -> A) (l : list A) :
  (forall a, key (g a) = key a) ->
  order_by_desc key (map g l) = map g (order_by_desc key l).
Proof.
  intros Hg. induction l as [|x l IH]; [reflexivity|].
  cbn [map order_by_desc fold_right].
  change (fold_right (insert_by key) [] (map g l)) with (order_by_desc key (map g l)).
  rewrite IH. now apply insert_by_map.
Qed.

Lemma filter_map_comm {A B : Type} (f : A -> B) (q : B -> bool) (l : list A) :
  filter q (map f l) = map f (filter (fun a => q (f a)) l).
Proof.
  induction l as [|a l IH]; [reflexivity|]. simpl.
  destruct (q (f a)); simpl; now rewrite IH.
Qed.

Lemma filter_pointwise {A : Type} (p q : A -> bool) (l : list A) :
  (forall a, p a = q a) -> filter p l = filter q l.
Proof.
  intros H. induction l as [|a l IH]; [reflexivity|]. simpl.
  now rewrite H, IH.
Qed.

(** The rows of [user] after the update, among all rows. *)
Definition mark (alert user : string) (a : UserAlert) : UserAlert :=
  if selects alert user a then set_read a else a.

Lemma mark_user_id (alert user : string) (a : UserAlert) :
  user_id (mark alert user a) = user_id a.
Proof. unfold mark. now destruct (selects alert user a). Qed.

Lemma mark_sent_at (alert user : string) (a : UserAlert) :
  sent_at (mark alert user a) = sent_at a.
Proof. unfold mark. now destruct (selects alert user a). Qed.

Lemma filter_mark (alert user : string) (p : UserAlert -> bool)
  (l : list UserAlert) :
  filter p (map (mark alert user) l)
  = map (mark alert user) (filter (fun a => p (mark alert user a)) l).
Proof. apply filter_map_comm. Qed.

(** The entry of a read alert. *)
Definition read_view (v : AlertView) : AlertView :=
  {| view_id := view_id v; view_alert_type := view_alert_type v;
     view_message := view_message v; view_is_read := true;
     view_sent_at := view_sent_at v |}.

Definition updated (alert user : string) (db : Database) : Database :=
  {| measurements := measurements db;
     ocean_anomalies := ocean_anomalies db;
     users := users db;
     user_alerts := map (mark alert user) (user_alerts db) |}.

Lemma unread_rows_after (alert user : string) (l : list UserAlert) :
  filter (fun a => Bool.eqb (is_read a) false)
    (filter (fun a => String.eqb (user_id a) user) (map (mark alert user) l))
  = filter (fun a => negb (String.eqb (alert_id a) alert))
      (filter (fun a => Bool.eqb (is_read a) false)
         (filter (fun a => String.eqb (user_id a) user) l)).
Proof.
  induction l as [|a l IH]; [reflexivity|]. cbn [map filter].
  rewrite mark_user_id.
  destruct (String.eqb (user_id a) user) eqn:Eu; [|exact IH].
  cbn [filter].
  assert (Hm : mark alert user a
               = if String.eqb (alert_id a) alert then set_read a else a).
  { unfold mark, selects. now rewrite Eu, andb_true_r. }
  rewrite Hm. clear Hm.
  destruct (String.eqb (alert_id a) alert) eqn:Ea.
  - cbn [set_read is_read Bool.eqb].
    destruct (Bool.eqb (is_read a) false); [|exact IH].
    cbn [filter]. rewrite Ea. exact IH.
  - destruct (Bool.eqb (is_read a) false); [|exact IH].
    cbn [filter]. rewrite Ea. cbn [negb]. now rewrite IH.
Qed.

Lemma unread_after (alert user : string) (db : Database) :
  get_user_alerts user true (updated alert user db)
  = filter (fun v => negb (String.eqb (view_id v) alert))
      (get_user_alerts user true db).
Proof.
  unfold get_user_alerts, updated. cbn [user_alerts].
  rewrite unread_rows_after.
  rewrite filter_map_comm, order_by_desc_filter. reflexivity.
Qed.

Lemma all_after (alert user : string) (db : Database) :
  get_user_alerts user false (updated alert user db)
  = map (fun v => if String.eqb (view_id v) alert then read_view v else v)
      (get_user_alerts user false db).
Proof.
  unfold get_user_alerts, updated. cbn [user_alerts].
  rewrite filter_mark.
  rewrite (filter_pointwise _ (fun a => String.eqb (user_id a) user))
    by (intros a; now rewrite mark_user_id).
  rewrite order_by_desc_map by apply mark_sent_at.
  rewrite !map_map. apply map_ext_in. intros a Ha.
  assert (Hu : String.eqb (user_id a) user = true).
  { apply order_by_desc_in in Ha. now apply filter_In in Ha. }
  unfold mark, selects. cbn [view_id view_of]. rewrite Hu, andb_true_r.
  now destruct (String.eqb (alert_id a) alert).
Qed.

Lemma others_after (alert user other : string) (unread_only : bool) (db : Database) :
  other <> user ->
  get_user_alerts other unread_only (updated alert user db)
  = get_user_alerts other unread_only db.
Proof.
  intros Hne. unfold get_user_alerts, updated. cbn [user_alerts].
  assert (Hsame : filter (fun a => String.eqb (user_id a) other)
                    (map (mark alert user) (user_alerts db))
                  = filter (fun a => String.eqb (user_id a) other) (user_alerts db)).
  { induction (user_alerts db) as [|a l IH]; [reflexivity|]. cbn [map filter].
    rewrite mark_user_id, IH.
    destruct (String.eqb (user_id a) other) eqn:Eo; [|reflexivity].
    f_equal. apply String.eqb_eq in Eo. unfold mark, selects.
    destruct (String.eqb (user_id a) user) eqn:Eu.
    - apply String.eqb_eq in Eu. congruence.
    - now rewrite andb_false_r. }
  now rewrite Hsame.
Qed.

(** [mark_alert_read] returns [True] exactly when one alert has the
    given id and belongs to the given user.  Then that alert leaves the
    user's list of unread alerts, which is otherwise as before; in the
    user's full list it is shown as read, in the same place; the lists
    of other users are as before.  When it returns [False], for an
    alert of another user as for an unknown id, the database is
    unchanged. *)
Theorem read_alert_leaves_unread_list (alert user : string) (db : Database) :
  match mark_alert_read alert user db with
  | (after, true) =>
      List.length (filter (selects alert user) (user_alerts db)) = 1%nat /\
      get_user_alerts user true after
      = filter (fun v => negb (String.eqb (view_id v) alert))
          (get_user_alerts user true db) /\
      get_user_alerts user false after
      = map (fun v => if String.eqb (view_id v) alert then read_view v else v)
          (get_user_alerts user false db) /\
      (forall other unread_only,
          other <> user ->
          get_user_alerts other unread_only after
          = get_user_alerts other unread_only db)
  | (after, false) =>
      List.length (filter (selects alert user) (user_alerts db)) <> 1%nat /\
      after = db
  end.
Proof.
  unfold mark_alert_read.
  destruct (filter (selects alert user) (user_alerts db)) as [|a [|b l]] eqn:E.
  - split; [simpl; lia|reflexivity].
  - change {| measurements := measurements db;
              ocean_anomalies := ocean_anomalies db;
              users := users db;
              user_alerts :=
                map (fun a0 => if selects alert user a0 then set_read a0 else a0)
                  (user_alerts db) |}
      with (updated alert user db).
    split; [reflexivity|].
    split; [apply unread_after|].
    split; [apply all_after|].
    intros other unread_only H. now apply others_after.
  - split; [simpl; lia|reflexivity].
Qed.

End AlertStoreFacts.

(** ** Ingestion *)

Module IngestionFacts.

Import PyStr Raising.
Import Prototype.
Import Ingestion.
Local Open Scope string_scope.

Section Service.

Variable fromisoformat : string -> option Z.

Lemma flush_profile_without_location (s : Tables) (p : ArgoProfile) :
  location p = None -> exists e, flush_profile s p = Raised e.
Proof.
  intros H. unfold flush_profile.
  destruct (is_null (latitude p)); [eauto|].
  destruct (is_null (longitude p)); [eauto|].
  rewrite H. eauto.
Qed.

(** [_create_profile] never returns. *)
Lemma create_profile_raises (s : Tables) (f : ArgoFloat) (r : record) :
  exists e, _create_profile fromisoformat s f r = Raised e.
Proof.
  unfold _create_profile, bind.
  destruct (item "profile_date" r) as [v|e]; [|eauto].
  destruct (parse_date fromisoformat v) as [d|e]; [|eauto].
  destruct (item "latitude" r) as [lat|e]; [|eauto].
  destruct (item "longitude" r) as [lon|e]; [|eauto].
  now apply flush_profile_without_location.
Qed.

Lemma satellite_rows_without_location (data : list record) (rows : list SatelliteData) :
  satellite_rows fromisoformat data = Done rows ->
  List.length rows = List.length data /\
  Forall (fun row => satellite_location row = None) rows.
Proof.
  revert rows. induction data as [|r data IH]; intros rows H.
  - inversion H. split; [reflexivity|constructor].
  - cbn [satellite_rows] in H. unfold bind in H.
    destruct (item "measurement_date" r) as [v|e]; [|discriminate].
    destruct (parse_date fromisoformat v) as [d|e]; [|discriminate].
    destruct (item "latitude" r) as [lat|e]; [|discriminate].
    destruct (item "longitude" r) as [lon|e]; [|discriminate].
    destruct (satellite_rows fromisoformat data) as [rows'|e]; [|discriminate].
    inversion H; subst. destruct (IH rows' eq_refl) as [Hlen Hall].
    split; [simpl; now rewrite Hlen|]. now constructor.
Qed.

Lemma ingest_argo_data_unchanged (data : list record) (db : Tables) :
  ingest_argo_data fromisoformat data db = db.
Proof.
  unfold ingest_argo_data. destruct data as [|r rest]; [reflexivity|].
  cbn [ingest_records]. unfold bind at 1.
  destruct (_get_or_create_float fromisoformat db r) as [[s1 f]|e]; [|reflexivity].
  cbn [fst snd]. unfold bind at 1.
  destruct (create_profile_raises s1 f r) as [e ->]. reflexivity.
Qed.

Lemma ingest_satellite_data_unchanged (data : list record) (db : Tables) :
  ingest_satellite_data fromisoformat data db = db.
Proof.
  unfold ingest_satellite_data, bind.
  destruct (satellite_rows fromisoformat data) as [rows|e] eqn:E; [|reflexivity].
  destruct (satellite_rows_without_location data rows E) as [Hlen Hall].
  unfold commit_satellite. destruct rows as [|row rows].
  - cbn [forallb]. destruct db; cbn. now rewrite app_nil_r.
  - inversion Hall as [|? ? Hrow _]; subst. cbn [forallb].
    unfold satellite_complete at 1. rewrite Hrow.
    now rewrite !andb_false_r.
Qed.

End Service.

(** Neither ingestion stores anything, whatever the records: the rows
    built for [argo_profiles] and [satellite_data] are given no
    [location], which models.py declares not nullable, so the flush of
    the first profile and the commit of the satellite rows are refused
    and the transaction is rolled back; this undoes the floats created
    on the way as well. *)
Theorem ingestion_stores_nothing (fromisoformat : string -> option Z)
  (data : list record) (db : Tables) :
  ingest_argo_data fromisoformat data db = db /\
  ingest_satellite_data fromisoformat data db = db.
Proof.
  split; [apply ingest_argo_data_unchanged|apply ingest_satellite_data_unchanged].
Qed.

Definition no_rows : Tables :=
  {| argo_floats := []; argo_profiles := []; argo_measurements := [];
     satellite_data := [] |}.

(** A record as the sample-data script writes them, with a date that
    parses. *)
Definition script_record : record :=
  [ ("float_id", JString "ARGO_1000"); ("platform_number", JString "1000");
    ("profile_date", JString "2024-01-15T00:00:00");
    ("latitude", JNumber 45); ("longitude", JNumber (-30));
    ("cycle_number", JNumber 7); ("profile_type", JString "primary");
    ("data_mode", JString "R");
    ("measurements", JArray [JObject [("depth", JNumber 0);
                                      ("temperature", JNumber 21)]]) ].

(** The float of a well-formed record is created within the
    transaction, and is gone after it. *)
Example float_created_then_rolled_back :
  (exists s f, _get_or_create_float (fun _ => Some 0%Z) no_rows script_record
               = Done (s, f) /\ argo_floats s = [f]) /\
  ingest_argo_data (fun _ => Some 0%Z) [script_record] no_rows = no_rows.
Proof.
  split; [|apply ingest_argo_data_unchanged].
  eexists _, _. split; reflexivity.
Qed.

(** Within a transaction a float is created once: when
    [_get_or_create_float] has returned a float for a record, it
    returns that same float, and adds nothing, for any later record
    with the same [float_id], whatever the rest of that record says;
    the first call added at most that float. *)
Theorem float_created_once (fromisoformat : string -> option Z)
  (s s1 : Tables) (r later : record) (f : ArgoFloat) :
  _get_or_create_float fromisoformat s r = Done (s1, f) ->
  item "float_id" later = item "float_id" r ->
  _get_or_create_float fromisoformat s1 later = Done (s1, f) /\
  item "float_id" r = Done (JString (float_id f)) /\
  (s1 = s \/ s1 = with_float s f).
Proof.
  intros H Hlater. unfold _get_or_create_float in *. rewrite Hlater.
  unfold bind in *.
  destruct (item "float_id" r) as [v|e]; [|discriminate].
  destruct v as [|b|q|name|items|members]; try discriminate.
  - destruct (deployment_of fromisoformat r); discriminate.
  - destruct (filter (fun f0 => String.eqb (float_id f0) name) (argo_floats s))
      as [|f0 [|f1 l]] eqn:E.
    + destruct (deployment_of fromisoformat r) as [d|e]; [|discriminate].
      inversion H; subst. cbn [argo_floats with_float float_id].
      rewrite filter_app, E. cbn [filter float_id app].
      rewrite String.eqb_refl. split; [reflexivity|]. split; [reflexivity|now right].
    + inversion H; subst. rewrite E.
      assert (Hf : In f (filter (fun f0 => String.eqb (float_id f0) name)
                           (argo_floats s1))) by (rewrite E; now left).
      apply filter_In in Hf. destruct Hf as [_ Hf]. apply String.eqb_eq in Hf.
      subst name. split; [reflexivity|]. split; [reflexivity|now left].
    + discriminate.
Qed.

Lemma float_created_once_witness :
  exists s1 f,
    _get_or_create_float (fun _ => None) no_rows [("float_id", JString "ARGO_1000")]
    = Done (s1, f) /\
    _get_or_create_float (fun _ => None) s1
      [("float_id", JString "ARGO_1000"); ("status", JString "inactive")]
    = Done (s1, f) /\
    status f = JString "active".
Proof.
  eexists _, _. split; [reflexivity|]. split; [|reflexivity].
  exact (proj1 (float_created_once (fun _ => None) no_rows _
                  [("float_id", JString "ARGO_1000")]
                  [("float_id", JString "ARGO_1000"); ("status", JString "inactive")]
                  _ eq_refl eq_refl)).
Defined.

End IngestionFacts.

(** ** The dashboard summary *)

Module DashboardFacts.

Import PyStr Dashboard.
Local Open Scope string_scope.

(** Whether the five statements of the summary are answered. *)
Definition answered (db : Session) : bool :=
  forallb (answers db) [0; 1; 2; 3; 4]%nat.

Lemma filter_count {A : Type} (p : A -> bool) (l : list A) :
  (0 <= Z.of_nat (List.length (filter p l)) <= Z.of_nat (List.length l))%Z.
Proof. pose proof (filter_length_le p l). lia. Qed.

Lemma filter_all {A : Type} (l : list A) : filter (fun _ => true) l = l.
Proof. induction l as [|a l IH]; [reflexivity|]. simpl. now rewrite IH. Qed.

(** The summary never contradicts itself, whether its figures are
    counted or are those of the [except] branch: the active floats are
    among the floats and the recent profiles among the profiles.  The
    keys of a role are present only when every statement was answered:
    then a scientist is given the number of profiles as
    [research_datasets] and a policymaker the alert level, and nobody
    else is; after a failure the summary is the fixed one for every
    role. *)
Theorem summary_counts_consistent (utcnow : Z) (db : Session) (user_role : string) :
  let s := get_dashboard_summary utcnow db user_role in
  (0 <= active_floats s <= total_floats s)%Z /\
  (0 <= recent_profiles s <= total_profiles s)%Z /\
  (0 <= recent_anomalies s)%Z /\
  data_sources s = sources /\
  system_health s = "healthy" /\
  research_datasets s
  = (if answered db && String.eqb user_role "scientist"
     then Some (total_profiles s) else None) /\
  alert_level s
  = (if answered db && String.eqb user_role "policymaker"
     then Some "normal" else None) /\
  (if answered db
   then total_floats s = Z.of_nat (List.length (float_status (tables db))) /\
        total_profiles s = Z.of_nat (List.length (profile_dates (tables db)))
   else s = fallback).
Proof.
  cbv zeta. unfold get_dashboard_summary, answered, count_where, and_then.
  cbn [forallb].
  destruct (answers db 0); [|cbn; repeat split; lia].
  destruct (answers db 1); [|cbn; repeat split; lia].
  destruct (answers db 2); [|cbn; repeat split; lia].
  destruct (answers db 3); [|cbn; repeat split; lia].
  destruct (answers db 4); [|cbn; repeat split; lia].
  cbn [andb total_floats active_floats total_profiles recent_profiles
       data_sources recent_anomalies system_health research_datasets alert_level].
  rewrite !filter_all.
  split; [apply filter_count|]. split; [apply filter_count|].
  split; [lia|]. split; [reflexivity|]. split; [reflexivity|].
  split; [reflexivity|].
  split; [|split; reflexivity].
  destruct (String.eqb user_role "scientist") eqn:E; [|reflexivity].
  apply String.eqb_eq in E. subst user_role. reflexivity.
Qed.

End DashboardFacts.
